(** * The poll cog: vote bookkeeping, tally rendering and closure

    A shallow embedding of [src/cogs/poll.py]: the [Poll] cog with its
    [active_polls] registry, the slash command [create_poll], the
    renderers [create_poll_embed] and the results part of [end_poll], the
    expiry timer, and the vote button's [callback].

    Python values are modelled as the interpreter has them:
    - [str] is a sequence of code points ([pystr]);
    - [int] is [Z]; [float] is IEEE 754 binary64, taken from the
      specification of floats of the standard library ([spec_float], with
      precision 53 and maximal exponent 1024), so that [/], [*], [int()]
      and the [.1f] format compute what CPython computes;
    - [dict] and [set] are finite maps and finite sets ([gmap], [gset]);
    - [datetime] is a number of microseconds since 0001-01-01 00:00:00,
      [timedelta] a signed number of microseconds, both with the range
      checks of the [datetime] module;
    - an exception is a [Raise] outcome which leaves the state as it was
      when it was raised.

    The messaging platform is outside the repository.  Every call to it is
    an [event]; a [platform] oracle decides which calls succeed, and the
    calls which did succeed are recorded in the [trace] of the bot. *)

From stdpp Require Import gmap list strings.
From Stdlib Require Import ZArith Lia DecimalPos.
From Stdlib Require Import Floats.SpecFloat.

Open Scope Z_scope.

(** ** Exceptions and fallible computations *)

Inductive exn :=
| KeyError (key : Z)
| ZeroDivisionError
| OverflowError
| ValueError
| HTTPException.

Inductive result (A : Type) :=
| Ok (a : A)
| Raise (e : exn).
Arguments Ok {A} a.
Arguments Raise {A} e.

Definition result_bind {A B} (r : result A) (k : A -> result B) : result B :=
  match r with
  | Ok a => k a
  | Raise e => Raise e
  end.

Notation "'let?' x ':=' e 'in' k" := (result_bind e (fun x => k))
  (at level 10, x name, e at level 100, k at level 200).

(** ** Strings *)

Definition pystr := list N.

(** An ASCII literal of the source as a sequence of code points. *)
Fixpoint str (s : string) : pystr :=
  match s with
  | EmptyString => []
  | String a s' => Ascii.N_of_ascii a :: str s'
  end.

(** [str.isspace] on one code point (the table of [Py_UNICODE_ISSPACE]). *)
Definition isspace (c : N) : bool :=
  ((9 <=? c) && (c <=? 13) || (28 <=? c) && (c <=? 32) || (c =? 133)
   || (c =? 160) || (c =? 5760) || (8192 <=? c) && (c <=? 8202)
   || (c =? 8232) || (c =? 8233) || (c =? 8239) || (c =? 8287)
   || (c =? 12288))%N.

Fixpoint lstrip (s : pystr) : pystr :=
  match s with
  | [] => []
  | c :: s' => if isspace c then lstrip s' else s
  end.

Definition rstrip (s : pystr) : pystr := rev (lstrip (rev s)).

(** [s.strip()] *)
Definition strip (s : pystr) : pystr := rstrip (lstrip s).

(** [s.split(sep)] for a separator of one code point. *)
Fixpoint str_split (sep : N) (s : pystr) : list pystr :=
  match s with
  | [] => [[]]
  | c :: s' =>
      if (c =? sep)%N then [] :: str_split sep s'
      else match str_split sep s' with
           | [] => [[c]]
           | w :: ws => (c :: w) :: ws
           end
  end.

Definition comma : N := 44.

(** [s * k]: no copy at all when [k] is zero or negative. *)
Definition str_mul (s : pystr) (k : Z) : pystr := concat (replicate (Z.to_nat k) s).

Fixpoint uint_digits (u : Decimal.uint) : pystr :=
  match u with
  | Decimal.Nil => []
  | Decimal.D0 u => 48%N :: uint_digits u
  | Decimal.D1 u => 49%N :: uint_digits u
  | Decimal.D2 u => 50%N :: uint_digits u
  | Decimal.D3 u => 51%N :: uint_digits u
  | Decimal.D4 u => 52%N :: uint_digits u
  | Decimal.D5 u => 53%N :: uint_digits u
  | Decimal.D6 u => 54%N :: uint_digits u
  | Decimal.D7 u => 55%N :: uint_digits u
  | Decimal.D8 u => 56%N :: uint_digits u
  | Decimal.D9 u => 57%N :: uint_digits u
  end.

(** [str(z)], also what [f"{z}"] inserts for an [int]. *)
Definition str_of_int (z : Z) : pystr :=
  match z with
  | Z0 => str "0"
  | Zpos p => uint_digits (Pos.to_uint p)
  | Zneg p => str "-" ++ uint_digits (Pos.to_uint p)
  end.

(** The literals of the source which are not ASCII, code point by code
    point as the file has them. *)
Definition chart_mark : pystr := [63743; 252; 236; 228]%N.
Definition trophy_mark : pystr := [63743; 252; 232; 220]%N.
Definition filled_segment : pystr := [8218; 241; 224]%N.
Definition empty_segment : pystr := [8218; 241; 235]%N.

(** ** Numbers *)

Definition prec : Z := 53.
Definition emax : Z := 1024.

Inductive pynum :=
| PyInt (z : Z)
| PyFloat (x : spec_float).

(** [float(z)], rounded to nearest even. *)
Definition float_of_int (z : Z) : spec_float := binary_normalize prec emax z 0 false.

(** [a / b] on two [int]: the correctly rounded quotient. *)
Definition int_truediv (a b : Z) : result spec_float :=
  if b =? 0 then Raise ZeroDivisionError
  else if a =? 0 then Ok (S754_zero (b <? 0))
  else
    let '(q, e, l) := SFdiv_core_binary prec emax (Z.abs a) 0 (Z.abs b) 0 in
    match binary_round_aux prec emax (xorb (a <? 0) (b <? 0)) q e l with
    | S754_infinity _ => Raise OverflowError
    | x => Ok x
    end.

(** [x / y] on two [float]. *)
Definition float_truediv (x y : spec_float) : result spec_float :=
  match y with
  | S754_zero _ => Raise ZeroDivisionError
  | _ => Ok (SFdiv prec emax x y)
  end.

(** [x * y] on two [float]. *)
Definition float_mul (x y : spec_float) : spec_float := SFmul prec emax x y.

(** [x / d] for a number [x] and an [int] literal [d]. *)
Definition truediv_int (x : pynum) (d : Z) : result spec_float :=
  match x with
  | PyInt a => int_truediv a d
  | PyFloat f => float_truediv f (float_of_int d)
  end.

(** The integer [s * m * 2 ^ e] of a finite float, as written. *)
Definition signed (s : bool) (m : positive) : Z := if s then Z.neg m else Z.pos m.

(** [int(x)]: the integral part, towards zero. *)
Definition py_int (x : spec_float) : result Z :=
  match x with
  | S754_zero _ => Ok 0
  | S754_finite s m (Zneg p) => Ok (Z.quot (signed s m) (2 ^ Z.pos p))
  | S754_finite s m e => Ok (signed s m * 2 ^ e)
  | S754_infinity _ => Raise OverflowError
  | S754_nan => Raise ValueError
  end.

(** [math.floor(x)], which the source does not call: the specification
    words the bar and the remaining time with it. *)
Definition float_floor (x : spec_float) : result Z :=
  match x with
  | S754_zero _ => Ok 0
  | S754_finite s m (Zneg p) => Ok (signed s m / 2 ^ Z.pos p)
  | S754_finite s m e => Ok (signed s m * 2 ^ e)
  | S754_infinity _ => Raise OverflowError
  | S754_nan => Raise ValueError
  end.

Definition round_half_even (num den : Z) : Z :=
  let q := num / den in
  match 2 * (num mod den) ?= den with
  | Lt => q
  | Eq => if Z.even q then q else q + 1
  | Gt => q + 1
  end.

(** The number of tenths nearest to [m * 2 ^ e]. *)
Definition tenths (m : positive) (e : Z) : Z :=
  match e with
  | Zneg p => round_half_even (10 * Z.pos m) (2 ^ Z.pos p)
  | _ => 10 * Z.pos m * 2 ^ e
  end.

Definition sign_text (s : bool) : pystr := if s then str "-" else [].

Definition format_1f_float (x : spec_float) : pystr :=
  match x with
  | S754_zero s => sign_text s ++ str "0.0"
  | S754_finite s m e =>
      let t := tenths m e in
      sign_text s ++ str_of_int (t / 10) ++ str "." ++ str_of_int (t mod 10)
  | S754_infinity s => sign_text s ++ str "inf"
  | S754_nan => str "nan"
  end.

(** [f"{x:.1f}"]; an [int] is converted to [float] first. *)
Definition format_1f (x : pynum) : pystr :=
  match x with
  | PyInt z => format_1f_float (float_of_int z)
  | PyFloat f => format_1f_float f
  end.

(** ** Dates and durations *)

Definition us_per_second : Z := 1000000.
Definition us_per_minute : Z := 60 * us_per_second.
Definition us_per_day : Z := 86400 * us_per_second.

(** [datetime.max] is the last microsecond of the year 9999, day number
    3652059 of the calendar. *)
Definition datetime_end : Z := 3652059 * us_per_day.

Definition datetime_ok (t : Z) : bool := (0 <=? t) && (t <? datetime_end).

(** [timedelta(minutes=m)]: the day count must fit nine decimal digits. *)
Definition timedelta_minutes (m : Z) : result Z :=
  let td := m * us_per_minute in
  if (-999999999 <=? td / us_per_day) && (td / us_per_day <=? 999999999)
  then Ok td else Raise OverflowError.

(** [t + td] for a [datetime] and a [timedelta]. *)
Definition datetime_add (t td : Z) : result Z :=
  if datetime_ok (t + td) then Ok (t + td) else Raise OverflowError.

(** [td.total_seconds()] *)
Definition total_seconds (td : Z) : result spec_float := int_truediv td us_per_second.

(** ** Polls, embeds and views *)

Record poll_data := {
  title : pystr;
  options : list pystr;
  votes : gmap Z (gset Z);
  multiple : bool;
  author_id : Z;
  end_time : Z;
  channel_id : Z
}.

(** The dictionary of vote sets is updated in place; nothing else of a poll
    is ever assigned. *)
Definition with_votes (p : poll_data) (v : gmap Z (gset Z)) : poll_data :=
  {| title := title p; options := options p; votes := v; multiple := multiple p;
     author_id := author_id p; end_time := end_time p; channel_id := channel_id p |}.

Inductive colour := Blue | Green.

Record field := { name : pystr; value : pystr; inline : bool }.

Record Embed := {
  embed_title : pystr;
  embed_description : option pystr;
  embed_colour : colour;
  embed_fields : list field;
  embed_footer : option pystr
}.

Definition append_fields (e : Embed) (fs : list field) : Embed :=
  {| embed_title := embed_title e; embed_description := embed_description e;
     embed_colour := embed_colour e; embed_fields := embed_fields e ++ fs;
     embed_footer := embed_footer e |}.

Definition add_field (e : Embed) (n v : pystr) (i : bool) : Embed :=
  append_fields e [{| name := n; value := v; inline := i |}].

Definition set_footer (e : Embed) (text : pystr) : Embed :=
  {| embed_title := embed_title e; embed_description := embed_description e;
     embed_colour := embed_colour e; embed_fields := embed_fields e;
     embed_footer := Some text |}.

Record PollButton := { option_id : Z; label : pystr; custom_id : pystr }.

Record PollView := {
  view_options : list pystr;
  view_multiple : bool;
  children : list PollButton
}.

(** The loop of [PollView.__init__]: one button per option. *)
Fixpoint add_buttons (i : Z) (opts : list pystr) (items : list PollButton) : list PollButton :=
  match opts with
  | [] => items
  | option :: rest =>
      add_buttons (i + 1) rest
        (items ++ [{| option_id := i; label := option;
                      custom_id := str "poll_" ++ str_of_int i |}])
  end.

Definition new_PollView (opts : list pystr) (mult : bool) : PollView :=
  {| view_options := opts; view_multiple := mult; children := add_buttons 0 opts [] |}.

(** ** Rendering *)

(** [d[k]] *)
Definition dict_get {V} (d : gmap Z V) (k : Z) : result V :=
  match d !! k with
  | Some v => Ok v
  | None => Raise (KeyError k)
  end.

(** [len(s)] *)
Definition len (s : gset Z) : Z := Z.of_nat (size s).

(** [sum(len(votes) for votes in d.values())] *)
Definition sum_votes (d : gmap Z (gset Z)) : Z :=
  map_fold (fun _ s acc => acc + len s) 0 d.

(** [filled * int(percentage / 10) + empty * (10 - int(percentage / 10))] *)
Definition bar_of (percentage : pynum) : result pystr :=
  let? x := truediv_int percentage 10 in
  let? k := py_int x in
  let? y := truediv_int percentage 10 in
  let? k' := py_int y in
  Ok (str_mul filled_segment k ++ str_mul empty_segment (10 - k')).

(** [f"{bar} {votes} votes ({percentage:.1f}%)"] *)
Definition tally_text (bar : pystr) (n : Z) (percentage : pynum) : pystr :=
  bar ++ str " " ++ str_of_int n ++ str " votes (" ++ format_1f percentage ++ str "%)".

(** [(votes / total_votes * 100) if total_votes > 0 else 0] *)
Definition percentage_of (n total_votes : Z) : result pynum :=
  if 0 <? total_votes
  then let? q := int_truediv n total_votes in
       Ok (PyFloat (float_mul q (float_of_int 100)))
  else Ok (PyInt 0).

(** The loop of [create_poll_embed] over [enumerate(poll_data["options"])]. *)
Fixpoint add_tally_fields (d : gmap Z (gset Z)) (total_votes : Z)
    (i : Z) (opts : list pystr) (embed : Embed) : result Embed :=
  match opts with
  | [] => Ok embed
  | option :: rest =>
      let? s := dict_get d i in
      let n := len s in
      let? percentage := percentage_of n total_votes in
      let? bar := bar_of percentage in
      add_tally_fields d total_votes (i + 1) rest
        (add_field embed option (tally_text bar n percentage) false)
  end.

(** [int(time_left.total_seconds() / 60)] for
    [time_left = poll_data["end_time"] - datetime.now()]. *)
Definition minutes_left (end_time now : Z) : result Z :=
  let time_left := end_time - now in
  let? s := total_seconds time_left in
  let? x := float_truediv s (float_of_int 60) in
  py_int x.

(** The [discord.Embed(...)] of [create_poll_embed]; the code point 10 is
    the line feed of the literal. *)
Definition new_poll_embed (p : poll_data) : Embed :=
  {| embed_title := chart_mark ++ str " " ++ title p;
     embed_description :=
       Some (str "Please click buttons below to vote" ++
             (if multiple p then [10%N] ++ str "(Multiple choices allowed)" else []));
     embed_colour := Blue; embed_fields := []; embed_footer := None |}.

Definition create_poll_embed (p : poll_data) (now : Z) : result Embed :=
  let embed := new_poll_embed p in
  let total_votes := sum_votes (votes p) in
  let? embed := add_tally_fields (votes p) total_votes 0 (options p) embed in
  let? m := minutes_left (end_time p) now in
  Ok (set_footer embed (str "Time remaining: " ++ str_of_int m ++ str " minutes")).

(** The first loop of [end_poll]: [(i, option, votes)] per option. *)
Fixpoint collect_results (d : gmap Z (gset Z)) (i : Z) (opts : list pystr)
    (option_results : list (Z * pystr * Z)) : result (list (Z * pystr * Z)) :=
  match opts with
  | [] => Ok option_results
  | option :: rest =>
      let? s := dict_get d i in
      collect_results d (i + 1) rest (option_results ++ [(i, option, len s)])
  end.

(** [max(...)] of a sequence of [int]. *)
Definition py_max (l : list Z) : result Z :=
  match l with
  | [] => Raise ValueError
  | x :: l' => Ok (foldl Z.max x l')
  end.

(** The two loops of [end_poll] over [winners] and over [others]; they
    differ by the name of the field only. *)
Fixpoint add_result_fields (field_name : Z -> pystr -> pystr) (total_votes : Z)
    (rs : list (Z * pystr * Z)) (embed : Embed) : result Embed :=
  match rs with
  | [] => Ok embed
  | (i, option, n) :: rest =>
      let? q := int_truediv n total_votes in
      let percentage := PyFloat (float_mul q (float_of_int 100)) in
      let? bar := bar_of percentage in
      add_result_fields field_name total_votes rest
        (add_field embed (field_name i option) (tally_text bar n percentage) false)
  end.

Definition winner_name (i : Z) (option : pystr) : pystr :=
  trophy_mark ++ str " Winning Option: " ++ option.

Definition option_name (i : Z) (option : pystr) : pystr :=
  str "Option " ++ str_of_int (i + 1) ++ str ": " ++ option.

(** The loop of [end_poll] when nobody voted. *)
Fixpoint add_empty_fields (rs : list (Z * pystr * Z)) (embed : Embed) : Embed :=
  match rs with
  | [] => embed
  | (i, option, _) :: rest =>
      add_empty_fields rest (add_field embed (option_name i option) (str "0 votes (0.0%)") false)
  end.

(** The results embed of [end_poll], from its creation to [set_footer]. *)
Definition new_results_embed (p : poll_data) : Embed :=
  {| embed_title := chart_mark ++ str " Poll Results: " ++ title p;
     embed_description := None; embed_colour := Green;
     embed_fields := []; embed_footer := None |}.

Definition results_embed (p : poll_data) : result Embed :=
  let embed := new_results_embed p in
  let total_votes := sum_votes (votes p) in
  let? option_results := collect_results (votes p) 0 (options p) [] in
  let? embed :=
    if 0 <? total_votes then
      let? max_votes := py_max (option_results.*2) in
      let winners := filter (fun res => res.2 = max_votes) option_results in
      let others := filter (fun res => res.2 <> max_votes) option_results in
      let? embed := add_result_fields winner_name total_votes winners embed in
      add_result_fields option_name total_votes others embed
    else Ok (add_empty_fields option_results embed) in
  Ok (set_footer embed (str "Poll has ended")).

(** ** The vote toggle

    Lines 271 to 284 of [PollButton.callback], on the dictionary of vote
    sets: the new dictionary and the [action] text. *)

Definition discard (user_id : Z) (v : gset Z) : gset Z := v ∖ {[user_id]}.

Definition toggle (d : gmap Z (gset Z)) (mult : bool) (user_id option_id : Z)
    : result (gmap Z (gset Z) * pystr) :=
  let? s := dict_get d option_id in
  if decide (user_id ∈ s) then
    Ok (<[option_id := s ∖ {[user_id]}]> d, str "Removed vote from")
  else
    let d := if negb mult then discard user_id <$> d else d in
    let? t := dict_get d option_id in
    Ok (<[option_id := t ∪ {[user_id]}]> d, str "Voted for").

(** ** The bot and the platform *)

(** What a handler reads of its [discord.Interaction]: [user.id],
    [channel.id], and the identifier of the message it belongs to
    ([message.id] for a button, the message of [original_response()] for
    the slash command). *)
Record interaction := { ix_user_id : Z; ix_channel_id : Z; ix_message_id : Z }.

Inductive event :=
| SendMessage (ix : interaction) (content : pystr)
| SendPoll (ix : interaction) (embed : Embed) (view : PollView)
| OriginalResponse (ix : interaction)
| EditEmbed (message_id : Z) (embed : Embed)
| FetchMessage (channel message_id : Z)
| EditResults (message_id : Z) (embed : Embed)
| ChannelSend (channel : Z) (embed : Embed)
| CreateTask (message_id duration : Z)
| Print (e : exn).

Record bot := { active_polls : gmap Z poll_data; trace : list event }.

Definition M (A : Type) : Type := bot -> result A * bot.

Definition ret {A} (a : A) : M A := fun b => (Ok a, b).

Definition bind {A B} (m : M A) (k : A -> M B) : M B :=
  fun b => match m b with
           | (Ok a, b') => k a b'
           | (Raise e, b') => (Raise e, b')
           end.

Notation "'let!' x ':=' e 'in' k" := (bind e (fun x => k))
  (at level 10, x name, e at level 100, k at level 200).

Definition lift {A} (r : result A) : M A := fun b => (r, b).

Definition get_polls : M (gmap Z poll_data) := fun b => (Ok (active_polls b), b).

Definition put_polls (polls : gmap Z poll_data) : M unit :=
  fun b => (Ok tt, {| active_polls := polls; trace := trace b |}).

(** An effect which cannot fail: a task is scheduled, a line is printed. *)
Definition emit (ev : event) : M unit :=
  fun b => (Ok tt, {| active_polls := active_polls b; trace := trace b ++ [ev] |}).

(** [try: body except Exception as e: handler(e)] *)
Definition try_except (body : M unit) (handler : exn -> M unit) : M unit :=
  fun b => match body b with
           | (Ok tt, b') => (Ok tt, b')
           | (Raise e, b') => handler e b'
           end.

(** [del self.active_polls[message_id]] *)
Definition del_poll (message_id : Z) : M unit :=
  let! polls := get_polls in
  match polls !! message_id with
  | Some _ => put_polls (delete message_id polls)
  | None => lift (Raise (KeyError message_id))
  end.

(** [{i: set() for i in range(n)}] *)
Definition empty_votes (n : nat) : gmap Z (gset Z) :=
  list_to_map ((fun i => (Z.of_nat i, ∅)) <$> seq 0 n).

Section Handlers.

(** Which calls the platform carries out; the others raise. *)
Variable platform : event -> bool.

Definition call (ev : event) : M unit :=
  if platform ev then emit ev else lift (Raise HTTPException).

(** [Poll.create_poll]; [now] is the clock when the end time is taken,
    [now'] the clock when the first embed is rendered. *)
Definition create_poll (ix : interaction) (title options : pystr)
    (duration : Z) (multiple : bool) (now now' : Z) : M unit :=
  let option_list := strip <$> str_split comma options in
  if (length option_list <? 2)%nat then
    call (SendMessage ix (str "At least 2 options required!"))
  else if (10 <? length option_list)%nat then
    call (SendMessage ix (str "Maximum 10 options allowed!"))
  else
    let! td := lift (timedelta_minutes duration) in
    let! end_time := lift (datetime_add now td) in
    let poll_data :=
      {| title := title; options := option_list;
         votes := empty_votes (length option_list);
         multiple := multiple; author_id := ix_user_id ix;
         end_time := end_time; channel_id := ix_channel_id ix |} in
    let! embed := lift (create_poll_embed poll_data now') in
    let view := new_PollView option_list multiple in
    let! _ := call (SendPoll ix embed view) in
    let! _ := call (OriginalResponse ix) in
    let! polls := get_polls in
    let! _ := put_polls (<[ix_message_id ix := poll_data]> polls) in
    emit (CreateTask (ix_message_id ix) duration).

(** [Poll.end_poll] *)
Definition end_poll (message_id : Z) : M unit :=
  let! polls := get_polls in
  match polls !! message_id with
  | None => ret tt
  | Some poll_data =>
      let! embed := lift (results_embed poll_data) in
      let! _ :=
        try_except
          (let! _ := call (FetchMessage (channel_id poll_data) message_id) in
           let! _ := call (EditResults message_id embed) in
           call (ChannelSend (channel_id poll_data) embed))
          (fun e => emit (Print e)) in
      del_poll message_id
  end.

(** [Poll.end_poll_timer], from the moment [asyncio.sleep] returns. *)
Definition end_poll_timer (message_id duration : Z) : M unit :=
  let! polls := get_polls in
  if decide (message_id ∈ dom polls) then end_poll message_id else ret tt.

(** [PollButton.callback] once [get_cog("Poll")] has given the cog. *)
Definition callback_on (option_id : Z) (ix : interaction) (now : Z) : M unit :=
  let! polls := get_polls in
  match polls !! ix_message_id ix with
  | None => call (SendMessage ix (str "This poll has already ended!"))
  | Some poll_data =>
      let! va := lift (toggle (votes poll_data) (multiple poll_data)
                         (ix_user_id ix) option_id) in
      let poll_data := with_votes poll_data va.1 in
      let! _ := put_polls (<[ix_message_id ix := poll_data]> polls) in
      let! embed := lift (create_poll_embed poll_data now) in
      let! _ := call (EditEmbed (ix_message_id ix) embed) in
      call (SendMessage ix (str "You " ++ va.2 ++ str " option " ++
                            str_of_int (option_id + 1) ++ str "!"))
  end.

(** [PollButton.callback]: [client] is the cog which
    [interaction.client.get_cog("Poll")] finds, if there is one. *)
Definition callback (option_id : Z) (ix : interaction) (now : Z)
    (client : option bot) : result unit * option bot :=
  match client with
  | None => (Ok tt, None)
  | Some poll_cog =>
      let '(r, b) := callback_on option_id ix now poll_cog in (r, Some b)
  end.

End Handlers.

(** ** Reachable states

    The bot starts with no poll; its state changes when a handler runs,
    whatever the request, the clock and the platform. *)

Definition initial : bot := {| active_polls := ∅; trace := [] |}.

Inductive step (b : bot) : bot -> Prop :=
| step_create platform ix title options duration multiple now now' :
    step b (create_poll platform ix title options duration multiple now now' b).2
| step_timer platform message_id duration :
    step b (end_poll_timer platform message_id duration b).2
| step_end platform message_id :
    step b (end_poll platform message_id b).2
| step_vote platform option_id ix now :
    step b (callback_on platform option_id ix now b).2.

Inductive reachable : bot -> Prop :=
| reachable_initial : reachable initial
| reachable_step b b' : reachable b -> step b b' -> reachable b'.

(** A poll as [create_poll] makes it and the toggle keeps it: one vote set
    per option index, and an end time which is a date. *)
Definition indices (n : nat) : gset Z := list_to_set (Z.of_nat <$> seq 0 n).

Definition poll_wf (p : poll_data) : Prop :=
  dom (votes p) = indices (length (options p)) /\ datetime_ok (end_time p) = true.

(** No voter in two vote sets. *)
Definition exclusive (d : gmap Z (gset Z)) : Prop :=
  forall (v i j : Z) (si sj : gset Z),
    d !! i = Some si -> d !! j = Some sj -> v ∈ si -> v ∈ sj -> i = j.

(** ** Predicates used in the proofs *)

(** A float which is a zero or finite, of sign [s], below [2 ^ B] in
    magnitude and with an exponent of at most [E]. *)
Definition fin_le (s : bool) (B E : Z) (x : spec_float) : Prop :=
  match x with
  | S754_zero s' => s' = s
  | S754_finite s' m e => s' = s /\ Zdigits2 (Z.pos m) + e <= B /\ e <= E
  | _ => False
  end.

(** The bar of [k] filled segments out of ten. *)
Definition bar (k : Z) : pystr :=
  str_mul filled_segment k ++ str_mul empty_segment (10 - k).

(** The field of the option of index [i] as the tally is specified: the
    size of its vote set, the percentage of the total, and the bar of the
    floor of a tenth of the percentage. *)
Definition tally_row (field_name : Z -> pystr -> pystr) (d : gmap Z (gset Z))
    (total : Z) (i : Z) (option : pystr) (f : field) : Prop :=
  exists s pct x k,
    d !! i = Some s /\ percentage_of (len s) total = Ok pct /\
    truediv_int pct 10 = Ok x /\ float_floor x = Ok k /\ 0 <= k <= 10 /\
    f = {| name := field_name i option;
           value := tally_text (bar k) (len s) pct; inline := false |}.

(** The number of votes of the option of index [i]. *)
Definition count (d : gmap Z (gset Z)) (i : Z) : Z := len (default ∅ (d !! i)).

(** The sum of the vote counts over the options, in declared order. *)
Definition total_by_index (d : gmap Z (gset Z)) (n : nat) : Z :=
  foldr Z.add 0 ((fun i => count d (Z.of_nat i)) <$> seq 0 n).

(** What [end_poll] adds to the trace for the poll [p] of message
    [message_id]: the calls which the platform carried out, and the error
    which is printed when one of them failed. *)
Definition closure_trace (platform : event -> bool) (p : poll_data)
    (message_id : Z) (embed : Embed) : list event :=
  if platform (FetchMessage (channel_id p) message_id) then
    if platform (EditResults message_id embed) then
      if platform (ChannelSend (channel_id p) embed) then
        [FetchMessage (channel_id p) message_id; EditResults message_id embed;
         ChannelSend (channel_id p) embed]
      else [FetchMessage (channel_id p) message_id; EditResults message_id embed;
            Print HTTPException]
    else [FetchMessage (channel_id p) message_id; Print HTTPException]
  else [Print HTTPException].

(** Every registered poll is well formed, and exclusive when it is
    single-choice. *)
Definition registry_ok (b : bot) : Prop :=
  forall message_id p, active_polls b !! message_id = Some p ->
    poll_wf p /\ (multiple p = false -> exclusive (votes p)).

(** The triples [(i, option, votes)] of the options, in declared order. *)
Definition results_from (d : gmap Z (gset Z)) (i : Z) (opts : list pystr)
    : list (Z * pystr * Z) :=
  imap (fun j o => (i + Z.of_nat j, o, count d (i + Z.of_nat j))) opts.

(** The field of an option when nobody voted. *)
Definition empty_row (r : Z * pystr * Z) : field :=
  {| name := option_name r.1.1 r.1.2; value := str "0 votes (0.0%)"; inline := false |}.

(** ** Polls to run the claims on *)

Definition always : event -> bool := fun _ => true.

(** An instant of the year 2025. *)
Definition noon : Z := 63900000000000000.

Definition lunch (user : Z) : interaction :=
  {| ix_user_id := user; ix_channel_id := 5; ix_message_id := 100 |}.

Definition lunch_poll : poll_data :=
  {| title := str "Lunch?"; options := [str "Pizza"; str "Salad"];
     votes := empty_votes 2; multiple := false; author_id := 7;
     end_time := noon + us_per_minute; channel_id := 5 |}.

(** The bot after [/poll title:Lunch? options:Pizza, Salad duration:1]. *)
Definition lunch_bot : bot :=
  (create_poll always (lunch 7) (str "Lunch?") (str "Pizza, Salad") 1 false
     noon noon initial).2.

(** The same after voter 7 has voted for the first option. *)
Definition voted_bot : bot := (callback_on always 0 (lunch 7) noon lunch_bot).2.

(** Three and one votes. *)
Definition split_poll : poll_data :=
  {| title := str "Lunch?"; options := [str "Pizza"; str "Salad"];
     votes := <[0 := {[11; 12; 13]}]> (<[1 := {[14]}]> ∅);
     multiple := false; author_id := 7;
     end_time := noon + us_per_minute; channel_id := 5 |}.

(** A tie of two options before a third. *)
Definition tie_poll : poll_data :=
  {| title := str "Lunch?"; options := [str "Pizza"; str "Salad"; str "Soup"];
     votes := <[0 := {[11; 12]}]> (<[1 := {[13; 14]}]> (<[2 := ∅]> ∅));
     multiple := false; author_id := 7;
     end_time := noon + us_per_minute; channel_id := 5 |}.

(** A float which is a zero or finite and at most [c * 2 ^ g] in
    magnitude. *)
Definition capped (c g : Z) (x : spec_float) : Prop :=
  match x with
  | S754_zero _ => True
  | S754_finite _ m e => e <= g /\ Z.pos m <= c * 2 ^ (g - e)
  | _ => False
  end.

(** ** Notions used to state further properties *)

(** [sep.join(l)] for a separator of one code point. *)
Fixpoint join (sep : N) (l : list pystr) : pystr :=
  match l with
  | [] => []
  | [w] => w
  | w :: l' => w ++ sep :: join sep l'
  end.

(** How many times a code point occurs in a string. *)
Definition occurrences (c : N) (s : pystr) : nat := length (filter (fun x => x = c) s).

(** The voters of a poll: the union of its vote sets. *)
Definition voters (d : gmap Z (gset Z)) : gset Z :=
  map_fold (fun _ s acc => s ∪ acc) ∅ d.

(** The view as the constructor builds it, child by child, with the limit
    of the library; [new_PollView] above is the view of a constructor which
    returned.

    [PollButton(i, option)] *)
Definition new_PollButton (i : Z) (option_text : pystr) : PollButton :=
  {| option_id := i; label := option_text; custom_id := str "poll_" ++ str_of_int i |}.

(** [View.add_item] of the library: a view holds at most 25 children, and
    one more raises [ValueError]. *)
Definition add_item (v : PollView) (item : PollButton) : result PollView :=
  if (25 <=? length (children v))%nat then Raise ValueError
  else Ok {| view_options := view_options v; view_multiple := view_multiple v;
             children := children v ++ [item] |}.

(** The loop of [PollView.__init__] with the limit of [add_item]. *)
Fixpoint add_items (i : Z) (opts : list pystr) (v : PollView) : result PollView :=
  match opts with
  | [] => Ok v
  | option :: rest =>
      let? v := add_item v (new_PollButton i option) in
      add_items (i + 1) rest v
  end.

(** [PollView(options, multiple)] *)
Definition PollView_init (opts : list pystr) (mult : bool) : result PollView :=
  add_items 0 opts {| view_options := opts; view_multiple := mult; children := [] |}.

(** A string which does not start with white space. *)
Definition head_ok (x : pystr) : Prop :=
  match x with [] => True | c :: _ => isspace c = false end.

(** The same poll as [lunch_poll] with multiple choices allowed, and the
    bot after it was created. *)
Definition buffet_poll : poll_data :=
  {| title := str "Lunch?"; options := [str "Pizza"; str "Salad"];
     votes := empty_votes 2; multiple := true; author_id := 7;
     end_time := noon + us_per_minute; channel_id := 5 |}.

Definition buffet_bot : bot :=
  (create_poll always (lunch 7) (str "Lunch?") (str "Pizza, Salad") 1 true
     noon noon initial).2.

(** One vote for the first option, none for the second. *)
Definition voted_poll : poll_data :=
  with_votes lunch_poll (<[0 := {[7]}]> (empty_votes 2)).

(** One, two and two votes: the winners are not the first option. *)
Definition upset_poll : poll_data :=
  {| title := str "Lunch?"; options := [str "Pizza"; str "Salad"; str "Soup"];
     votes := <[0 := {[11]}]> (<[1 := {[12; 13]}]> (<[2 := {[14; 15]}]> ∅));
     multiple := false; author_id := 7;
     end_time := noon + us_per_minute; channel_id := 5 |}.

(** * Properties *)

(** ** Binary digits and shifts *)

Lemma digits2_pos_size p : digits2_pos p = Pos.size p.
Proof. induction p; simpl; congruence. Qed.

Lemma Zdigits2_log2 m : 0 < m -> Zdigits2 m = Z.log2 m + 1.
Proof.
  destruct m as [|p|p]; try lia. intros _. simpl.
  rewrite digits2_pos_size. destruct p; simpl; lia.
Qed.

Lemma Zdigits2_nonneg m : 0 <= Zdigits2 m.
Proof. destruct m; simpl; lia. Qed.

Lemma Zdigits2_lt_pow m k : 0 <= m -> 0 <= k -> m < 2 ^ k -> Zdigits2 m <= k.
Proof.
  intros Hm Hk Hlt. destruct (Z.eq_dec m 0) as [->|Hne]; [simpl; lia|].
  rewrite Zdigits2_log2 by lia.
  assert (Z.log2 m < k) by (apply Z.log2_lt_pow2; lia). lia.
Qed.

Lemma Zdigits2_bound m : 0 <= m -> m < 2 ^ Zdigits2 m.
Proof.
  intros Hm. destruct (Z.eq_dec m 0) as [->|Hne]; [simpl; lia|].
  rewrite Zdigits2_log2 by lia.
  pose proof (Z.log2_spec m ltac:(lia)).
  replace (Z.log2 m + 1) with (Z.succ (Z.log2 m)) by lia. lia.
Qed.

Lemma Zdigits2_lower m : 0 < m -> 2 ^ (Zdigits2 m - 1) <= m.
Proof.
  intros Hm. rewrite Zdigits2_log2 by lia.
  pose proof (Z.log2_spec m ltac:(lia)).
  replace (Z.log2 m + 1 - 1) with (Z.log2 m) by lia. lia.
Qed.

Lemma Zdigits2_mono a b : 0 <= a <= b -> Zdigits2 a <= Zdigits2 b.
Proof.
  intros H. apply Zdigits2_lt_pow; [lia|apply Zdigits2_nonneg|].
  pose proof (Zdigits2_bound b). lia.
Qed.

Lemma Zdigits2_succ m : 0 <= m -> Zdigits2 (m + 1) <= Zdigits2 m + 1.
Proof.
  intros Hm. pose proof (Zdigits2_bound m Hm). pose proof (Zdigits2_nonneg m).
  apply Zdigits2_lt_pow; try lia.
  rewrite Z.pow_add_r by lia. change (2 ^ 1) with 2. lia.
Qed.

Lemma Zdigits2_shiftr m n :
  0 <= m -> 0 <= n -> 0 < Z.shiftr m n -> Zdigits2 (Z.shiftr m n) + n <= Zdigits2 m.
Proof.
  intros Hm Hn Hpos. rewrite Z.shiftr_div_pow2 in * by lia.
  pose proof (Zdigits2_bound m Hm) as Hb.
  pose proof (Zdigits2_nonneg m) as Hd.
  destruct (Z_lt_le_dec (Zdigits2 m) n) as [Hlt|Hle].
  - assert (m < 2 ^ n).
    { eapply Z.lt_le_trans; [exact Hb|]. apply Z.pow_le_mono_r; lia. }
    rewrite Z.div_small in Hpos by lia. lia.
  - assert (m / 2 ^ n < 2 ^ (Zdigits2 m - n)).
    { apply Z.div_lt_upper_bound; [apply Z.pow_pos_nonneg; lia|].
      rewrite <- Z.pow_add_r by lia.
      replace (n + (Zdigits2 m - n)) with (Zdigits2 m) by lia. lia. }
    assert (Zdigits2 (m / 2 ^ n) <= Zdigits2 m - n) by (apply Zdigits2_lt_pow; lia).
    lia.
Qed.

Lemma Zdigits2_mul a b : 0 <= a -> 0 <= b -> Zdigits2 (a * b) <= Zdigits2 a + Zdigits2 b.
Proof.
  intros Ha Hb.
  pose proof (Zdigits2_bound a Ha). pose proof (Zdigits2_bound b Hb).
  pose proof (Zdigits2_nonneg a). pose proof (Zdigits2_nonneg b).
  apply Zdigits2_lt_pow; [nia|lia|].
  rewrite Z.pow_add_r by lia. nia.
Qed.

Lemma Zdigits2_div a b :
  0 <= a -> 0 < b -> 0 < a / b -> Zdigits2 (a / b) <= Zdigits2 a - Zdigits2 b + 1.
Proof.
  intros Ha Hb Hq.
  pose proof (Zdigits2_bound a Ha) as Hua. pose proof (Zdigits2_lower b Hb) as Hlb.
  pose proof (Zdigits2_nonneg a). pose proof (Zdigits2_nonneg b).
  assert (1 <= Zdigits2 b) by (rewrite Zdigits2_log2 by lia; pose proof (Z.log2_nonneg b); lia).
  destruct (Z_lt_le_dec (Zdigits2 a) (Zdigits2 b - 1)) as [Hlt|Hle].
  - assert (a < b).
    { eapply Z.lt_le_trans; [exact Hua|]. etrans; [|exact Hlb].
      apply Z.pow_le_mono_r; lia. }
    rewrite Z.div_small in Hq by lia. lia.
  - apply Zdigits2_lt_pow; [lia|lia|].
    apply Z.div_lt_upper_bound; [lia|].
    eapply Z.lt_le_trans; [exact Hua|].
    replace (Zdigits2 a) with ((Zdigits2 b - 1) + (Zdigits2 a - Zdigits2 b + 1)) at 1 by lia.
    rewrite Z.pow_add_r by lia.
    apply Z.mul_le_mono_nonneg_r; [apply Z.pow_nonneg; lia|lia].
Qed.

Lemma iter_pos_shr_1 p mrs :
  0 <= shr_m mrs -> shr_m (iter_pos shr_1 p mrs) = Z.shiftr (shr_m mrs) (Z.pos p).
Proof.
  assert (H1 : forall r, 0 <= shr_m r -> shr_m (shr_1 r) = Z.shiftr (shr_m r) 1).
  { intros [m r s] Hm. simpl in *. rewrite Z.shiftr_div_pow2 by lia.
    change (2 ^ 1) with 2.
    destruct m as [|[q|q|]|]; try lia; simpl shr_m.
    - reflexivity.
    - rewrite Pos2Z.inj_xI. apply Z.div_unique with 1; lia.
    - rewrite Pos2Z.inj_xO. apply Z.div_unique with 0; lia.
    - reflexivity. }
  assert (Hnn : forall a n, 0 <= a -> 0 <= Z.shiftr a n).
  { intros. apply Z.shiftr_nonneg. lia. }
  revert mrs. induction p as [p IH|p IH|]; intros mrs Hm; simpl.
  - pose proof (H1 mrs Hm) as E1.
    assert (0 <= shr_m (shr_1 mrs)) as P1 by (rewrite E1; auto).
    pose proof (IH _ P1) as E2.
    assert (0 <= shr_m (iter_pos shr_1 p (shr_1 mrs))) as P2 by (rewrite E2; auto).
    rewrite (IH _ P2), E2, E1, !Z.shiftr_shiftr by lia. f_equal. lia.
  - pose proof (IH _ Hm) as E2.
    assert (0 <= shr_m (iter_pos shr_1 p mrs)) as P2 by (rewrite E2; auto).
    rewrite (IH _ P2), E2, !Z.shiftr_shiftr by lia. f_equal. lia.
  - auto.
Qed.

(** ** Rounding stays in range *)

Lemma fexp_unfold x : fexp prec emax x = Z.max (x - 53) (-1074).
Proof. reflexivity. Qed.

Lemma shr_record_of_loc_m m l : shr_m (shr_record_of_loc m l) = m.
Proof. destruct l as [|[]]; reflexivity. Qed.

Lemma shr_fexp_bound m e l B E :
  0 <= m -> Zdigits2 m + e <= B -> -1074 <= B -> e <= E ->
  let mrs := (shr_fexp prec emax m e l).1 in
  let e' := (shr_fexp prec emax m e l).2 in
  0 <= shr_m mrs /\ Zdigits2 (shr_m mrs) + e' <= B /\
  e' <= Z.max E (Z.max (B - 53) (-1074)).
Proof.
  intros Hm HB Hmin HE. unfold shr_fexp, shr.
  pose proof (Zdigits2_nonneg m) as Hd.
  set (n := fexp prec emax (Zdigits2 m + e) - e).
  assert (Hn : n + e <= Z.max (B - 53) (-1074)) by (unfold n; rewrite fexp_unfold; lia).
  destruct n as [|p|p] eqn:En; simpl; rewrite ?shr_record_of_loc_m.
  - split; [lia|]. split; lia.
  - rewrite iter_pos_shr_1 by (rewrite shr_record_of_loc_m; lia).
    rewrite shr_record_of_loc_m.
    assert (0 <= Z.shiftr m (Z.pos p)) by (apply Z.shiftr_nonneg; lia).
    split; [lia|]. split; [|lia].
    destruct (Z.eq_dec (Z.shiftr m (Z.pos p)) 0) as [->|Hne]; [simpl; lia|].
    pose proof (Zdigits2_shiftr m (Z.pos p) Hm ltac:(lia) ltac:(lia)). lia.
  - split; [lia|]. split; lia.
Qed.

Lemma round_nearest_even_bound m l : m <= round_nearest_even m l <= m + 1.
Proof. destruct l as [|[]]; simpl; try lia. destruct (Z.even m); lia. Qed.

Lemma binary_round_aux_bound sx mx ex lx B E :
  0 <= mx -> Zdigits2 mx + ex <= B -> ex <= E ->
  -1074 <= B <= 1023 -> -1074 <= E <= 971 ->
  fin_le sx (B + 1) (Z.max E (B - 52)) (binary_round_aux prec emax sx mx ex lx).
Proof.
  intros Hm HB HE HBr HEr. unfold binary_round_aux.
  pose proof (shr_fexp_bound mx ex lx B E Hm HB ltac:(lia) HE) as H1.
  destruct (shr_fexp prec emax mx ex lx) as [mrs' e'] eqn:E1. simpl in H1.
  destruct H1 as (Hm1 & Hd1 & He1).
  pose proof (round_nearest_even_bound (shr_m mrs') (loc_of_shr_record mrs')) as Hr.
  set (m1 := round_nearest_even (shr_m mrs') (loc_of_shr_record mrs')) in *.
  assert (Hd1' : Zdigits2 m1 + e' <= B + 1).
  { pose proof (Zdigits2_mono m1 (shr_m mrs' + 1) ltac:(lia)).
    pose proof (Zdigits2_succ (shr_m mrs') Hm1). lia. }
  pose proof (shr_fexp_bound m1 e' loc_Exact (B + 1) (Z.max E (Z.max (B - 53) (-1074)))
                ltac:(lia) Hd1' ltac:(lia) He1) as H2.
  destruct (shr_fexp prec emax m1 e' loc_Exact) as [mrs'' e''] eqn:E2. simpl in H2.
  destruct H2 as (Hm2 & Hd2 & He2).
  destruct (shr_m mrs'') as [|p|p] eqn:Em; simpl; [reflexivity| |lia].
  change (IntDef.Z.leb e'' (IntDef.Z.sub emax prec)) with (e'' <=? 971).
  destruct (Z.leb_spec e'' 971); simpl; [|lia].
  simpl in Hd2. split; [reflexivity|]. split; lia.
Qed.

Lemma fin_le_weaken s B E B' E' x : fin_le s B E x -> B <= B' -> E <= E' -> fin_le s B' E' x.
Proof. destruct x; simpl; intuition lia. Qed.

Lemma SFdiv_core_binary_unfold m1 e1 m2 e2 :
  SFdiv_core_binary prec emax m1 e1 m2 e2 =
  let e' := Z.min (fexp prec emax (Zdigits2 m1 + e1 - (Zdigits2 m2 + e2))) (e1 - e2) in
  let s := e1 - e2 - e' in
  let m' := match s with Zpos _ => Z.shiftl m1 s | Z0 => m1 | Zneg _ => 0 end in
  (m' / m2, e', new_location m2 (m' mod m2)).
Proof.
  unfold SFdiv_core_binary, Z.div, Z.modulo. cbv zeta.
  match goal with |- (let '(q, r) := ?d in _) = _ =>
    change d with (Z.div_eucl
      (match e1 - e2 - Z.min (fexp prec emax (Zdigits2 m1 + e1 - (Zdigits2 m2 + e2))) (e1 - e2) with
       | Zpos _ => Z.shiftl m1 (e1 - e2 - Z.min (fexp prec emax (Zdigits2 m1 + e1 - (Zdigits2 m2 + e2))) (e1 - e2))
       | Z0 => m1 | Zneg _ => 0 end) m2)
  end.
  destruct (Z.div_eucl _ m2); reflexivity.
Qed.

Lemma div_core_bound m1 e1 m2 e2 :
  0 < m1 -> 0 < m2 ->
  let qel := SFdiv_core_binary prec emax m1 e1 m2 e2 in
  0 <= qel.1.1 /\ qel.1.2 <= e1 - e2 /\
  Zdigits2 qel.1.1 + qel.1.2 <= Z.max (Zdigits2 m1 + e1 - (Zdigits2 m2 + e2) + 1) (e1 - e2).
Proof.
  intros H1 H2. rewrite SFdiv_core_binary_unfold. cbv zeta. simpl fst. simpl snd.
  set (e' := Z.min (fexp prec emax (Zdigits2 m1 + e1 - (Zdigits2 m2 + e2))) (e1 - e2)).
  assert (He' : e' <= e1 - e2) by (unfold e'; lia).
  set (s := e1 - e2 - e'). assert (Hs : 0 <= s) by (unfold s; lia).
  set (m' := match s with Zpos _ => Z.shiftl m1 s | Z0 => m1 | Zneg _ => 0 end).
  assert (Hm' : 0 < m' /\ Zdigits2 m' <= Zdigits2 m1 + s).
  { unfold m'. destruct s as [|p|p] eqn:Es; [split; lia| |lia].
    rewrite Z.shiftl_mul_pow2 by lia.
    assert (0 < 2 ^ Z.pos p) by (apply Z.pow_pos_nonneg; lia).
    split; [nia|].
    pose proof (Zdigits2_bound m1 ltac:(lia)). pose proof (Zdigits2_nonneg m1).
    apply Zdigits2_lt_pow; [nia|lia|].
    rewrite Z.pow_add_r by lia. nia. }
  destruct Hm' as [Hpos Hd].
  assert (0 <= m' / m2) by (apply Z.div_pos; lia).
  split; [lia|]. split; [lia|].
  destruct (Z.eq_dec (m' / m2) 0) as [->|Hne]; [simpl; lia|].
  pose proof (Zdigits2_div m' m2 ltac:(lia) H2 ltac:(lia)). unfold s in *. lia.
Qed.

Lemma int_truediv_bound a b B :
  b <> 0 -> Zdigits2 (Z.abs a) - Zdigits2 (Z.abs b) + 1 <= B -> 0 <= B <= 1023 ->
  exists x, int_truediv a b = Ok x /\
            fin_le (xorb (a <? 0) (b <? 0)) (B + 1) (Z.max 0 (B - 52)) x.
Proof.
  intros Hb HB HBr. unfold int_truediv.
  destruct (Z.eqb_spec b 0); [done|].
  destruct (Z.eqb_spec a 0) as [->|Ha].
  { eexists; split; [reflexivity|]. simpl. reflexivity. }
  pose proof (div_core_bound (Z.abs a) 0 (Z.abs b) 0 ltac:(lia) ltac:(lia)) as Hc.
  destruct (SFdiv_core_binary prec emax (Z.abs a) 0 (Z.abs b) 0) as [[q e] l].
  simpl in Hc. destruct Hc as (Hq & He & Hd).
  pose proof (binary_round_aux_bound (xorb (a <? 0) (b <? 0)) q e l B 0
                Hq ltac:(lia) ltac:(lia) ltac:(lia) ltac:(lia)) as Hr.
  destruct (binary_round_aux prec emax _ q e l); simpl in Hr; try done;
    eexists; (split; [reflexivity|]); simpl; done.
Qed.

Lemma float_mul_bound sx sy Bx By Ex Ey x y :
  fin_le sx Bx Ex x -> fin_le sy By Ey y ->
  -1074 <= Bx + By <= 1023 -> -1074 <= Ex + Ey <= 971 ->
  fin_le (xorb sx sy) (Bx + By + 1) (Z.max (Ex + Ey) (Bx + By - 52)) (float_mul x y).
Proof.
  intros Hx Hy HB HE.
  destruct x as [s1| | |s1 m1 e1], y as [s2| | |s2 m2 e2]; simpl in *; try done;
    try (destruct Hx as (-> & ? & ?)); try (destruct Hy as (-> & ? & ?)); subst; try done.
  pose proof (Zdigits2_mul (Z.pos m1) (Z.pos m2) ltac:(lia) ltac:(lia)) as Hm.
  change (Z.pos m1 * Z.pos m2) with (Z.pos (m1 * m2)) in Hm. simpl in Hm.
  apply (binary_round_aux_bound (xorb sx sy) (Z.pos (m1 * m2)) (e1 + e2) loc_Exact
           (Bx + By) (Ex + Ey)); simpl; lia.
Qed.

Lemma float_truediv_bound sx Bx Ex x sy my ey B E :
  fin_le sx Bx Ex x ->
  Bx - (Zdigits2 (Z.pos my) + ey) + 1 <= B -> Ex - ey <= E ->
  -1074 <= B <= 1023 -> -1074 <= E <= 971 -> E <= B ->
  exists z, float_truediv x (S754_finite sy my ey) = Ok z /\
            fin_le (xorb sx sy) (B + 1) (Z.max E (B - 52)) z.
Proof.
  intros Hx HB HE HBr HEr HEB. unfold float_truediv. eexists; split; [reflexivity|].
  destruct x as [s1| | |s1 m1 e1]; simpl in *; try done; [by subst|].
  destruct Hx as (-> & Hd1 & He1).
  pose proof (div_core_bound (Z.pos m1) e1 (Z.pos my) ey ltac:(lia) ltac:(lia)) as Hc.
  destruct (SFdiv_core_binary prec emax (Z.pos m1) e1 (Z.pos my) ey) as [[q e] l].
  simpl in Hc. destruct Hc as (Hq & He & Hd).
  apply (binary_round_aux_bound (xorb sx sy) q e l B E); simpl; lia.
Qed.

(** ** Rounding stays under a cap *)

Lemma shr_fexp_spec m e l :
  0 <= m ->
  let mrs := (shr_fexp prec emax m e l).1 in
  let e' := (shr_fexp prec emax m e l).2 in
  e' = Z.max e (fexp prec emax (Zdigits2 m + e)) /\
  shr_m mrs = Z.shiftr m (e' - e).
Proof.
  intros Hm. unfold shr_fexp, shr.
  set (n := fexp prec emax (Zdigits2 m + e) - e).
  assert (Hn : fexp prec emax (Zdigits2 m + e) = n + e) by (unfold n; lia).
  rewrite Hn. clearbody n.
  destruct n as [|p|p]; simpl fst; simpl snd; rewrite ?shr_record_of_loc_m.
  - split; [lia|]. replace (e - e) with 0 by lia. reflexivity.
  - rewrite iter_pos_shr_1 by (rewrite shr_record_of_loc_m; lia).
    rewrite shr_record_of_loc_m. split; [lia|]. f_equal. lia.
  - split; [lia|]. replace (e - e) with 0 by lia. reflexivity.
Qed.

Lemma Zdigits2_cap m c k :
  0 <= m -> 0 < c -> 0 <= k -> m <= c * 2 ^ k -> Zdigits2 m <= Zdigits2 c + k.
Proof.
  intros Hm Hc Hk Hle.
  pose proof (Zdigits2_bound c ltac:(lia)). pose proof (Zdigits2_nonneg c).
  assert (0 < 2 ^ k) by (apply Z.pow_pos_nonneg; lia).
  apply Zdigits2_lt_pow; [lia|lia|].
  rewrite Z.pow_add_r by lia. nia.
Qed.

Lemma shiftr_cap m c k n :
  0 <= m -> 0 < c -> 0 <= n <= k -> m <= c * 2 ^ k -> Z.shiftr m n <= c * 2 ^ (k - n).
Proof.
  intros Hm Hc Hn Hle. rewrite Z.shiftr_div_pow2 by lia.
  assert (0 < 2 ^ n) by (apply Z.pow_pos_nonneg; lia).
  replace k with ((k - n) + n) in Hle by lia. rewrite Z.pow_add_r in Hle by lia.
  apply Z.div_le_upper_bound; [lia|]. lia.
Qed.

Lemma shiftr_cap_strict m c k n :
  0 <= m -> 0 < c -> 0 <= n <= k -> m + 1 <= c * 2 ^ k -> Z.shiftr m n + 1 <= c * 2 ^ (k - n).
Proof.
  intros Hm Hc Hn Hle. rewrite Z.shiftr_div_pow2 by lia.
  assert (0 < 2 ^ n) by (apply Z.pow_pos_nonneg; lia).
  replace k with ((k - n) + n) in Hle by lia. rewrite Z.pow_add_r in Hle by lia.
  assert (m / 2 ^ n < c * 2 ^ (k - n)); [|lia].
  apply Z.div_lt_upper_bound; [lia|]. lia.
Qed.

Lemma binary_round_aux_cap sx mx ex lx c g :
  0 <= mx -> 0 < c -> Zdigits2 c <= 53 -> ex <= g -> -1074 <= g <= 971 ->
  mx + 1 <= c * 2 ^ (g - ex) ->
  capped c g (binary_round_aux prec emax sx mx ex lx).
Proof.
  intros Hm Hc Hdc Hex Hg Hcap. unfold binary_round_aux.
  pose proof (shr_fexp_spec mx ex lx Hm) as H1.
  destruct (shr_fexp prec emax mx ex lx) as [mrs' e'] eqn:E1. simpl in H1.
  destruct H1 as (He' & Hm').
  rewrite fexp_unfold in He'.
  pose proof (Zdigits2_cap mx c (g - ex) Hm Hc ltac:(lia) ltac:(lia)) as Hd.
  assert (He'g : ex <= e' <= g) by lia.
  assert (Hm1 : 0 <= shr_m mrs' /\ shr_m mrs' + 1 <= c * 2 ^ (g - e')).
  { rewrite Hm'. split; [apply Z.shiftr_nonneg; lia|].
    replace (g - e') with (g - ex - (e' - ex)) by lia.
    apply shiftr_cap_strict; lia. }
  pose proof (round_nearest_even_bound (shr_m mrs') (loc_of_shr_record mrs')) as Hr.
  set (m1 := round_nearest_even (shr_m mrs') (loc_of_shr_record mrs')) in *.
  pose proof (shr_fexp_spec m1 e' loc_Exact ltac:(lia)) as H2.
  destruct (shr_fexp prec emax m1 e' loc_Exact) as [mrs'' e''] eqn:E2. simpl in H2.
  destruct H2 as (He'' & Hm'').
  rewrite fexp_unfold in He''.
  pose proof (Zdigits2_cap m1 c (g - e') ltac:(lia) Hc ltac:(lia) ltac:(lia)) as Hd1.
  assert (He''g : e' <= e'' <= g) by lia.
  assert (Hm2 : shr_m mrs'' <= c * 2 ^ (g - e'')).
  { rewrite Hm''. replace (g - e'') with (g - e' - (e'' - e')) by lia.
    apply shiftr_cap; lia. }
  assert (Hnn : 0 <= shr_m mrs'') by (rewrite Hm''; apply Z.shiftr_nonneg; lia).
  destruct (shr_m mrs'') as [|p|p] eqn:Em; simpl; [done| |lia].
  change (IntDef.Z.leb e'' (IntDef.Z.sub emax prec)) with (e'' <=? 971).
  destruct (Z.leb_spec e'' 971); simpl; [|lia]. split; lia.
Qed.

(** ** Truncation and floor *)

Lemma py_int_ok s B E x : fin_le s B E x -> exists k, py_int x = Ok k.
Proof. destruct x as [| | |s' m [|p|p]]; simpl; try done; eauto. Qed.

Lemma py_int_floor B E x : fin_le false B E x -> py_int x = float_floor x.
Proof.
  destruct x as [| | |s' m [|p|p]]; simpl; try done.
  intros (-> & _). simpl. f_equal. apply Z.quot_div_nonneg; [lia|].
  apply Z.pow_pos_nonneg; lia.
Qed.

Lemma py_int_ceil B E x k :
  fin_le true B E x -> py_int x = Ok k -> float_floor (SFopp x) = Ok (- k).
Proof.
  destruct x as [| | |s' m [|p|p]]; simpl; try done.
  - intros _ [= <-]. reflexivity.
  - intros (-> & _) [= <-]. simpl. f_equal; lia.
  - intros (-> & _) [= <-]. simpl. f_equal; lia.
  - intros (-> & _) [= <-]. simpl. f_equal.
    assert (0 < 2 ^ Z.pos p) by (apply Z.pow_pos_nonneg; lia).
    change (Z.neg m) with (- Z.pos m). rewrite Z.quot_opp_l by lia.
    rewrite Z.quot_div_nonneg by lia. lia.
Qed.

(** ** Dictionaries of vote sets *)

Lemma elem_of_indices n i : i ∈ indices n <-> 0 <= i < Z.of_nat n.
Proof.
  unfold indices. rewrite elem_of_list_to_set, list_elem_of_fmap. split.
  - intros (k & -> & Hk). apply elem_of_seq in Hk. lia.
  - intros Hi. exists (Z.to_nat i). split; [lia|]. apply elem_of_seq. lia.
Qed.

Lemma dom_empty_votes n : dom (empty_votes n) = indices n.
Proof.
  unfold empty_votes, indices. rewrite dom_list_to_map_L.
  rewrite <- list_fmap_compose. reflexivity.
Qed.

Lemma lookup_empty_votes n i s : empty_votes n !! i = Some s -> s = ∅.
Proof.
  unfold empty_votes. intros H. apply elem_of_list_to_map_2 in H.
  apply list_elem_of_fmap in H as (k & [= _ ->] & _). reflexivity.
Qed.

Lemma dict_get_Some {V} (d : gmap Z V) k v : d !! k = Some v -> dict_get d k = Ok v.
Proof. unfold dict_get. by intros ->. Qed.

Lemma dict_get_None {V} (d : gmap Z V) k : d !! k = None -> dict_get d k = Raise (KeyError k).
Proof. unfold dict_get. by intros ->. Qed.

Lemma wf_lookup p i :
  poll_wf p -> is_Some (votes p !! i) <-> 0 <= i < Z.of_nat (length (options p)).
Proof. intros [Hd _]. rewrite <- elem_of_dom, Hd. apply elem_of_indices. Qed.

Lemma sum_votes_delete d k s :
  d !! k = Some s -> sum_votes d = sum_votes (delete k d) + len s.
Proof.
  intros H. unfold sum_votes.
  rewrite (map_fold_delete_L _ _ k s d); [reflexivity| |exact H].
  intros. lia.
Qed.

Lemma sum_votes_nonneg d : 0 <= sum_votes d.
Proof.
  unfold sum_votes. apply (map_fold_weak_ind (fun r _ => 0 <= r)); [lia|].
  intros i s m r _ Hr. unfold len. lia.
Qed.

Lemma len_le_sum_votes d k s : d !! k = Some s -> 0 <= len s <= sum_votes d.
Proof.
  intros H. rewrite (sum_votes_delete d k s H).
  pose proof (sum_votes_nonneg (delete k d)). unfold len. lia.
Qed.

Lemma sum_votes_empty_votes n : sum_votes (empty_votes n) = 0.
Proof.
  unfold sum_votes.
  apply (map_fold_weak_ind (fun r m => (forall i s, m !! i = Some s -> s = ∅) -> r = 0)).
  - done.
  - intros i s m r Hi IH Hall.
    rewrite IH; [|intros j t Hj; apply (Hall j); rewrite lookup_insert_ne; [done|congruence]].
    rewrite (Hall i s) by apply lookup_insert_eq. reflexivity.
  - intros i s. apply lookup_empty_votes.
Qed.

(** ** The renderers do not raise *)

Arguments float_of_int : simpl never.
Arguments float_mul : simpl never.
Arguments float_truediv : simpl never.
Arguments int_truediv : simpl never.

Lemma float_of_int_100 : float_of_int 100 = S754_finite false 7036874417766400 (-46).
Proof. reflexivity. Qed.

Lemma float_of_int_10 : float_of_int 10 = S754_finite false 5629499534213120 (-49).
Proof. reflexivity. Qed.

Lemma float_of_int_60 : float_of_int 60 = S754_finite false 8444249301319680 (-47).
Proof. reflexivity. Qed.

Lemma ratio_bound n total :
  0 <= n <= total -> 0 < total ->
  exists q, int_truediv n total = Ok q /\ fin_le false 2 0 q.
Proof.
  intros Hn Ht.
  destruct (int_truediv_bound n total 1) as (q & Hq & Hf); [lia| |lia|].
  - pose proof (Zdigits2_mono (Z.abs n) (Z.abs total) ltac:(lia)). lia.
  - exists q. split; [exact Hq|].
    replace (n <? 0) with false in Hf by (symmetry; apply Z.ltb_ge; lia).
    replace (total <? 0) with false in Hf by (symmetry; apply Z.ltb_ge; lia).
    exact Hf.
Qed.

Lemma tenth_bound q :
  fin_le false 2 0 q ->
  exists x, truediv_int (PyFloat (float_mul q (float_of_int 100))) 10 = Ok x /\
            fin_le false 8 6 x.
Proof.
  intros Hq.
  assert (Hc : fin_le false 7 (-46) (float_of_int 100)).
  { rewrite float_of_int_100. simpl. lia. }
  pose proof (float_mul_bound false false 2 7 0 (-46) _ _ Hq Hc ltac:(lia) ltac:(lia)) as Hp.
  simpl in Hp. unfold truediv_int. rewrite float_of_int_10.
  destruct (float_truediv_bound false (2 + 7 + 1) (Z.max (0 + -46) (2 + 7 - 52)) _
              false 5629499534213120 (-49) 7 6 Hp) as (x & Hx & Hf);
    try (simpl; lia).
  exists x. split; [exact Hx|]. simpl in Hf. exact Hf.
Qed.

Lemma ratio_cap n t q :
  0 <= n <= t -> 0 < t -> int_truediv n t = Ok q -> capped 33 (-5) q.
Proof.
  intros Hn Ht. unfold int_truediv.
  destruct (Z.eqb_spec t 0); [lia|].
  destruct (Z.eqb_spec n 0) as [->|Hn0]; [by intros [= <-]|].
  rewrite SFdiv_core_binary_unfold. cbv zeta.
  rewrite !Z.abs_eq by lia. rewrite fexp_unfold.
  pose proof (Zdigits2_mono n t ltac:(lia)) as Hd.
  set (e' := Z.min (Z.max (Zdigits2 n + 0 - (Zdigits2 t + 0) - 53) (-1074)) (0 - 0)).
  assert (He' : -1074 <= e' <= -53) by (unfold e'; lia).
  replace (0 - 0 - e') with (- e') by lia.
  destruct (- e') as [|s|s] eqn:Hs; try lia.
  rewrite Z.shiftl_mul_pow2 by lia.
  assert (Hpow : 2 ^ (-5 - e') * 32 = 2 ^ Z.pos s).
  { replace (Z.pos s) with ((-5 - e') + 5) by lia. rewrite Z.pow_add_r by lia.
    reflexivity. }
  assert (0 < 2 ^ (-5 - e')) by (apply Z.pow_pos_nonneg; lia).
  assert (Hq : n * 2 ^ Z.pos s / t <= 2 ^ Z.pos s).
  { apply Z.div_le_upper_bound; [lia|]. nia. }
  assert (Hq0 : 0 <= n * 2 ^ Z.pos s / t) by (apply Z.div_pos; nia).
  pose proof (binary_round_aux_cap (xorb (n <? 0) (t <? 0)) (n * 2 ^ Z.pos s / t) e'
                (new_location t ((n * 2 ^ Z.pos s) mod t)) 33 (-5)
                Hq0 ltac:(lia) ltac:(simpl; lia) ltac:(lia) ltac:(lia) ltac:(lia)) as Hcap.
  destruct (binary_round_aux _ _ _ _ _ _); simpl in Hcap; try done; by intros [= <-].
Qed.

Lemma mul_cap q : capped 33 (-5) q -> capped 13 3 (float_mul q (float_of_int 100)).
Proof.
  rewrite float_of_int_100.
  destruct q as [s| | |s m e]; simpl; try done. intros (He & Hm).
  assert (0 < 2 ^ (-5 - e)) by (apply Z.pow_pos_nonneg; lia).
  apply binary_round_aux_cap; try lia; [simpl; lia|].
  replace (3 - (e + -46)) with ((-5 - e) + 54) by lia.
  rewrite Z.pow_add_r by lia.
  change (Z.pos (m * 7036874417766400)) with (Z.pos m * 7036874417766400).
  change (2 ^ 54) with 18014398509481984. nia.
Qed.

Lemma div_cap p x :
  capped 13 3 p -> float_truediv p (float_of_int 10) = Ok x -> capped 21 (-1) x.
Proof.
  rewrite float_of_int_10. unfold float_truediv. intros Hp [= <-].
  destruct p as [s| | |s m e]; simpl in *; try done. destruct Hp as (He & Hm).
  rewrite SFdiv_core_binary_unfold. cbv zeta. rewrite fexp_unfold.
  pose proof (Zdigits2_cap (Z.pos m) 13 (3 - e) ltac:(lia) ltac:(lia) ltac:(lia) Hm) as Hd.
  change (Zdigits2 13) with 4 in Hd.
  change (Zdigits2 5629499534213120) with 53.
  set (e' := Z.min (Z.max (Zdigits2 (Z.pos m) + e - (53 + -49) - 53) (-1074)) (e - -49)).
  assert (He' : e' <= -50 /\ e' <= e + 49) by (unfold e'; lia).
  set (sh := e - -49 - e'). assert (Hsh : 0 <= sh) by (unfold sh; lia).
  set (m' := match sh with Z.pos _ => Z.shiftl (Z.pos m) sh | 0 => Z.pos m | Z.neg _ => 0 end).
  assert (Hm' : m' = Z.pos m * 2 ^ sh).
  { unfold m'. destruct sh as [|k|k] eqn:Hk; [simpl; lia| |lia].
    by rewrite Z.shiftl_mul_pow2 by lia. }
  assert (Hq0 : 0 <= m' / 5629499534213120).
  { apply Z.div_pos; [|lia]. rewrite Hm'. assert (0 < 2 ^ sh) by (apply Z.pow_pos_nonneg; lia). nia. }
  apply binary_round_aux_cap; try lia; [simpl; lia|].
  assert (HP : 0 < 2 ^ (-50 - e')) by (apply Z.pow_pos_nonneg; lia).
  replace (-1 - e') with ((-50 - e') + 49) by lia. rewrite Z.pow_add_r by lia.
  assert (Hprod : m' <= 13 * 2 ^ 52 * 2 ^ (-50 - e') * 2 ^ 50).
  { rewrite Hm'. assert (0 < 2 ^ sh) by (apply Z.pow_pos_nonneg; lia).
    assert (Hx : 2 ^ (3 - e) * 2 ^ sh = 2 ^ 52 * 2 ^ (-50 - e') * 2 ^ 50).
    { rewrite <- !Z.pow_add_r by lia. f_equal. unfold sh. lia. }
    nia. }
  assert (Hq : m' / 5629499534213120 * 5629499534213120 <= m').
  { pose proof (Z.mul_div_le m' 5629499534213120 ltac:(lia)). lia. }
  change (2 ^ 52) with 4503599627370496 in Hprod.
  change (2 ^ 50) with 1125899906842624 in Hprod.
  change (2 ^ 49) with 562949953421312. nia.
Qed.

Lemma py_int_cap B E x k :
  fin_le false B E x -> capped 21 (-1) x -> py_int x = Ok k -> 0 <= k <= 10.
Proof.
  destruct x as [s| | |s m [|p|p]]; simpl; try done.
  - intros _ _ [= <-]. lia.
  - intros _ [He _]. lia.
  - intros _ [He _]. lia.
  - intros (-> & _) [He Hm] [= <-]. simpl.
    assert (HP : 0 < 2 ^ Z.pos p) by (apply Z.pow_pos_nonneg; lia).
    rewrite Z.quot_div_nonneg by lia.
    replace (-1 - Z.neg p) with (Z.pos p - 1) in Hm by lia.
    assert (H2 : 2 ^ Z.pos p = 2 * 2 ^ (Z.pos p - 1)).
    { replace (Z.pos p) with (1 + (Z.pos p - 1)) at 1 by lia.
      rewrite Z.pow_add_r by lia. reflexivity. }
    split; [apply Z.div_pos; lia|].
    assert (Z.pos m / 2 ^ Z.pos p < 11); [|lia].
    apply Z.div_lt_upper_bound; lia.
Qed.

Lemma percentage_bar_ok n total :
  0 <= n <= total ->
  exists pct x k,
    percentage_of n total = Ok pct /\
    truediv_int pct 10 = Ok x /\ py_int x = Ok k /\ float_floor x = Ok k /\
    0 <= k <= 10 /\
    bar_of pct = Ok (bar k).
Proof.
  intros Hn. unfold percentage_of, bar_of. destruct (Z.ltb_spec 0 total) as [Ht|Ht].
  - destruct (ratio_bound n total Hn Ht) as (q & Hq0 & Hq).
    pose proof (ratio_cap n total q Hn Ht Hq0) as Hcq. rewrite Hq0. cbn [result_bind].
    destruct (tenth_bound q Hq) as (x & Hx & Hf).
    pose proof (div_cap _ x (mul_cap q Hcq) Hx) as Hcx.
    destruct (py_int_ok _ _ _ _ Hf) as (k & Hk).
    pose proof (py_int_cap _ _ x k Hf Hcx Hk) as Hk10.
    eexists _, x, k. split; [reflexivity|]. rewrite Hx. cbn [result_bind].
    rewrite Hk. cbn [result_bind]. rewrite <- (py_int_floor _ _ _ Hf). done.
  - eexists _, (S754_zero false), 0. repeat split; (reflexivity || lia).
Qed.

Lemma Zdigits2_datetime d : Z.abs d < datetime_end -> Zdigits2 (Z.abs d) <= 59.
Proof.
  intros H. apply Zdigits2_lt_pow; [lia|lia|].
  eapply Z.lt_le_trans; [exact H|]. vm_compute. discriminate.
Qed.

Lemma minutes_left_ok end_time now :
  datetime_ok end_time = true -> datetime_ok now = true ->
  exists s q k,
    total_seconds (end_time - now) = Ok s /\
    float_truediv s (float_of_int 60) = Ok q /\
    fin_le (end_time - now <? 0) 48 47 q /\
    py_int q = Ok k /\ minutes_left end_time now = Ok k.
Proof.
  unfold datetime_ok. intros He Hn.
  apply andb_true_iff in He as [He1 He2]. apply andb_true_iff in Hn as [Hn1 Hn2].
  apply Z.leb_le in He1, Hn1. apply Z.ltb_lt in He2, Hn2.
  pose proof (Zdigits2_datetime (end_time - now) ltac:(lia)) as Hd.
  destruct (int_truediv_bound (end_time - now) us_per_second 40) as (s & Hs & Hf);
    [done|change (Zdigits2 (Z.abs us_per_second)) with 20; lia|lia|].
  change (us_per_second <? 0) with false in Hf. rewrite xorb_false_r in Hf.
  simpl in Hf.
  destruct (float_truediv_bound _ _ _ s false 8444249301319680 (-47) 47 47 Hf)
    as (q & Hq & Hfq); try (simpl; lia).
  rewrite xorb_false_r in Hfq. simpl in Hfq.
  destruct (py_int_ok _ _ _ _ Hfq) as (k & Hk).
  exists s, q, k. unfold minutes_left, total_seconds.
  rewrite Hs, float_of_int_60. cbn [result_bind]. rewrite Hq. cbn [result_bind]. done.
Qed.

Lemma append_fields_nil e : append_fields e [] = e.
Proof. destruct e. unfold append_fields. simpl. by rewrite app_nil_r. Qed.

Lemma append_fields_app e a b :
  append_fields (append_fields e a) b = append_fields e (a ++ b).
Proof. unfold append_fields. simpl. by rewrite app_assoc. Qed.

Lemma add_tally_fields_ok d i opts embed :
  (forall j, (j < length opts)%nat -> is_Some (d !! (i + Z.of_nat j))) ->
  exists fs,
    add_tally_fields d (sum_votes d) i opts embed = Ok (append_fields embed fs) /\
    length fs = length opts /\
    forall j option, opts !! j = Some option ->
      exists f, fs !! j = Some f /\
                tally_row (fun _ o => o) d (sum_votes d) (i + Z.of_nat j) option f.
Proof.
  revert i embed. induction opts as [|option rest IH]; intros i embed Hkeys.
  - exists []. simpl. rewrite append_fields_nil. repeat split. intros j o Hj. done.
  - destruct (Hkeys 0%nat ltac:(simpl; lia)) as [s Hs].
    rewrite Z.add_0_r in Hs. simpl.
    rewrite (dict_get_Some _ _ _ Hs). cbn [result_bind].
    destruct (percentage_bar_ok (len s) (sum_votes d) (len_le_sum_votes d i s Hs))
      as (pct & x & k & Hp & Hx & _ & Hk & Hk10 & Hbar).
    rewrite Hp. cbn [result_bind]. rewrite Hbar. cbn [result_bind].
    destruct (IH (i + 1) (add_field embed option (tally_text (bar k) (len s) pct) false))
      as (fs & Hfs & Hlen & Hrows).
    { intros j Hj. replace (i + 1 + Z.of_nat j) with (i + Z.of_nat (S j)) by lia.
      apply Hkeys. simpl. lia. }
    eexists (_ :: fs). split; [|split].
    + rewrite Hfs. unfold add_field. rewrite append_fields_app. reflexivity.
    + simpl. by rewrite Hlen.
    + intros [|j] o Hj; simpl in Hj.
      * injection Hj as <-. eexists. split; [reflexivity|].
        rewrite Z.add_0_r. exists s, pct, x, k. done.
      * destruct (Hrows j o Hj) as (f & Hf & Hrow). exists f. split; [exact Hf|].
        replace (i + Z.of_nat (S j)) with (i + 1 + Z.of_nat j) by lia. exact Hrow.
Qed.

Lemma wf_keys p :
  poll_wf p ->
  forall j, (j < length (options p))%nat -> is_Some (votes p !! (0 + Z.of_nat j)).
Proof. intros Hwf j Hj. apply wf_lookup; [done|lia]. Qed.

Lemma sum_votes_by_index d n : dom d = indices n -> sum_votes d = total_by_index d n.
Proof.
  revert d. induction n as [|n IH]; intros d Hd.
  - apply dom_empty_inv_L in Hd. subst d. reflexivity.
  - assert (Hn : Z.of_nat n ∈ dom d) by (rewrite Hd; apply elem_of_indices; lia).
    apply elem_of_dom in Hn as [s Hs].
    rewrite (sum_votes_delete d _ s Hs).
    unfold total_by_index. rewrite seq_S, fmap_app, foldr_app. simpl.
    assert (Hfold : forall (l : list Z) a, foldr Z.add a l = foldr Z.add 0 l + a).
    { induction l as [|x l IHl]; intros a; simpl; [lia|]. rewrite IHl. lia. }
    rewrite Hfold. f_equal.
    + rewrite IH.
      * unfold total_by_index. f_equal. apply list_fmap_ext. intros k i Hi.
        apply lookup_seq in Hi as [-> Hk]. unfold count.
        rewrite lookup_delete_ne by lia. reflexivity.
      * rewrite dom_delete_L, Hd. apply set_eq. intros i.
        rewrite elem_of_difference, !elem_of_indices, elem_of_singleton. lia.
    + unfold count. rewrite Hs. simpl. lia.
Qed.

Lemma create_poll_embed_rows p now :
  poll_wf p -> datetime_ok now = true ->
  exists fs k,
    create_poll_embed p now =
      Ok (set_footer (append_fields (new_poll_embed p) fs)
            (str "Time remaining: " ++ str_of_int k ++ str " minutes")) /\
    minutes_left (end_time p) now = Ok k /\
    length fs = length (options p) /\
    forall j option, options p !! j = Some option ->
      exists f, fs !! j = Some f /\
                tally_row (fun _ o => o) (votes p)
                  (total_by_index (votes p) (length (options p))) (Z.of_nat j) option f.
Proof.
  intros Hwf Hnow. unfold create_poll_embed.
  destruct (add_tally_fields_ok (votes p) 0 (options p) (new_poll_embed p) (wf_keys p Hwf))
    as (fs & -> & Hlen & Hrows).
  cbn [result_bind].
  destruct (minutes_left_ok (end_time p) now (proj2 Hwf) Hnow)
    as (s & q & k & _ & _ & _ & _ & Hk).
  rewrite Hk. cbn [result_bind]. exists fs, k. split; [reflexivity|].
  split; [done|]. split; [done|]. intros j o Hj.
  destruct (Hrows j o Hj) as (f & Hf & Hrow). exists f. split; [done|].
  rewrite <- (sum_votes_by_index _ _ (proj1 Hwf)). exact Hrow.
Qed.

Lemma create_poll_embed_ok p now :
  poll_wf p -> datetime_ok now = true ->
  exists e, create_poll_embed p now = Ok e.
Proof.
  intros Hwf Hnow.
  destruct (create_poll_embed_rows p now Hwf Hnow) as (fs & k & -> & _). eauto.
Qed.

(** ** The vote toggle *)

Lemma toggle_absent d mult u i : d !! i = None -> toggle d mult u i = Raise (KeyError i).
Proof. intros H. unfold toggle. by rewrite (dict_get_None _ _ H). Qed.

Lemma toggle_retract d mult u i s :
  d !! i = Some s -> u ∈ s ->
  toggle d mult u i = Ok (<[i := s ∖ {[u]}]> d, str "Removed vote from").
Proof.
  intros H Hu. unfold toggle. rewrite (dict_get_Some _ _ _ H). cbn [result_bind].
  by rewrite decide_True.
Qed.

Lemma toggle_cast d mult u i s :
  d !! i = Some s -> u ∉ s ->
  toggle d mult u i =
  Ok (if mult then <[i := s ∪ {[u]}]> d
      else <[i := discard u s ∪ {[u]}]> (discard u <$> d), str "Voted for").
Proof.
  intros H Hu. unfold toggle. rewrite (dict_get_Some _ _ _ H). cbn [result_bind].
  rewrite decide_False by done. destruct mult; simpl.
  - by rewrite (dict_get_Some _ _ _ H).
  - rewrite (dict_get_Some _ _ (discard u s)); [done|]. by rewrite lookup_fmap, H.
Qed.

Lemma toggle_dom d mult u i va : toggle d mult u i = Ok va -> dom va.1 = dom d.
Proof.
  destruct (d !! i) as [s|] eqn:H; [|by rewrite toggle_absent].
  assert (Hi : i ∈ dom d) by (apply elem_of_dom; eauto).
  destruct (decide (u ∈ s)) as [Hu|Hu].
  - rewrite (toggle_retract _ _ _ _ _ H Hu). intros Heq. injection Heq as Heq.
    subst va. simpl. rewrite dom_insert_L. set_solver.
  - rewrite (toggle_cast _ _ _ _ _ H Hu). intros Heq. injection Heq as Heq.
    subst va. simpl. destruct mult; rewrite dom_insert_L, ?dom_fmap_L; set_solver.
Qed.

Lemma with_votes_wf p d : poll_wf p -> dom d = dom (votes p) -> poll_wf (with_votes p d).
Proof. intros [Hd Ht] Hdom. split; simpl; [congruence|done]. Qed.

(** The handler of a vote on a registered poll, step by step. *)
Lemma callback_on_registered platform option_id ix now b p :
  active_polls b !! ix_message_id ix = Some p ->
  callback_on platform option_id ix now b =
  match toggle (votes p) (multiple p) (ix_user_id ix) option_id with
  | Raise e => (Raise e, b)
  | Ok va =>
      let p' := with_votes p va.1 in
      let polls := <[ix_message_id ix := p']> (active_polls b) in
      let reply := str "You " ++ va.2 ++ str " option " ++
                   str_of_int (option_id + 1) ++ str "!" in
      match create_poll_embed p' now with
      | Raise e => (Raise e, {| active_polls := polls; trace := trace b |})
      | Ok embed =>
          if platform (EditEmbed (ix_message_id ix) embed) then
            if platform (SendMessage ix reply) then
              (Ok tt, {| active_polls := polls;
                         trace := (trace b ++ [EditEmbed (ix_message_id ix) embed]) ++
                                  [SendMessage ix reply] |})
            else
              (Raise HTTPException,
               {| active_polls := polls;
                  trace := trace b ++ [EditEmbed (ix_message_id ix) embed] |})
          else (Raise HTTPException, {| active_polls := polls; trace := trace b |})
      end
  end.
Proof.
  intros Hp. unfold callback_on, bind, get_polls, lift, put_polls, call, emit.
  rewrite Hp. destruct (toggle _ _ _ _) as [va|e]; [|reflexivity]. simpl.
  destruct (create_poll_embed _ _) as [embed|e]; [|reflexivity].
  destruct (platform (EditEmbed _ _)); [|reflexivity]. simpl.
  destruct (platform (SendMessage _ _)); reflexivity.
Qed.

Lemma callback_on_polls platform option_id ix now b p :
  active_polls b !! ix_message_id ix = Some p ->
  active_polls (callback_on platform option_id ix now b).2 =
  match toggle (votes p) (multiple p) (ix_user_id ix) option_id with
  | Raise _ => active_polls b
  | Ok va => <[ix_message_id ix := with_votes p va.1]> (active_polls b)
  end.
Proof.
  intros Hp. rewrite (callback_on_registered _ _ _ _ _ _ Hp).
  destruct (toggle _ _ _ _) as [va|e]; [|reflexivity]. cbv zeta.
  destruct (create_poll_embed _ _) as [embed|e]; [|reflexivity].
  destruct (platform (EditEmbed _ _)); [|reflexivity].
  destruct (platform (SendMessage _ _)); reflexivity.
Qed.

Lemma callback_on_unregistered platform option_id ix now b :
  active_polls b !! ix_message_id ix = None ->
  callback_on platform option_id ix now b =
  call platform (SendMessage ix (str "This poll has already ended!")) b.
Proof. intros Hp. unfold callback_on, bind, get_polls. by rewrite Hp. Qed.

(** ** The claims about the vote toggle *)

(** C1. A vote on an option of a registered poll retracts the voter's vote
    on that option when there is one, with the answer "Removed vote from":
    the option's set loses the voter and no other set changes.  Otherwise
    the voter is added to the option's set, with the answer "Voted for";
    in a multiple-choice poll no other set changes, in a single-choice poll
    every other set loses the voter.  Nothing else of the poll changes.  The
    registry holds the updated poll whatever the platform does, and the
    answer reaches the voter when the platform carries out the edit and the
    reply. *)
Theorem callback_toggles_vote platform option_id ix now b p :
  active_polls b !! ix_message_id ix = Some p ->
  poll_wf p ->
  0 <= option_id < Z.of_nat (length (options p)) ->
  datetime_ok now = true ->
  let u := ix_user_id ix in
  exists s r b' p' embed,
    votes p !! option_id = Some s /\
    callback platform option_id ix now (Some b) = (r, Some b') /\
    active_polls b' = <[ix_message_id ix := p']> (active_polls b) /\
    (title p' = title p /\ options p' = options p /\ multiple p' = multiple p /\
     author_id p' = author_id p /\ end_time p' = end_time p /\
     channel_id p' = channel_id p) /\
    (u ∈ s ->
     votes p' !! option_id = Some (s ∖ {[u]}) /\
     forall j, j <> option_id -> votes p' !! j = votes p !! j) /\
    ((u ∉ s) -> multiple p = true ->
     votes p' !! option_id = Some (s ∪ {[u]}) /\
     forall j, j <> option_id -> votes p' !! j = votes p !! j) /\
    ((u ∉ s) -> multiple p = false ->
     votes p' !! option_id = Some (s ∪ {[u]}) /\
     (forall j sj, j <> option_id -> votes p !! j = Some sj ->
        votes p' !! j = Some (sj ∖ {[u]})) /\
     (forall j, votes p !! j = None -> votes p' !! j = None)) /\
    let action :=
      if decide (u ∈ s) then str "Removed vote from" else str "Voted for" in
    let reply :=
      str "You " ++ action ++ str " option " ++ str_of_int (option_id + 1) ++ str "!" in
    create_poll_embed p' now = Ok embed /\
    (platform (EditEmbed (ix_message_id ix) embed) = true ->
     platform (SendMessage ix reply) = true ->
     r = Ok tt /\
     trace b' = trace b ++ [EditEmbed (ix_message_id ix) embed; SendMessage ix reply]).
Proof.
  intros Hp Hwf Hi Hnow u.
  destruct (proj2 (wf_lookup p option_id Hwf) Hi) as [s Hs].
  set (d' := if decide (u ∈ s) then <[option_id := s ∖ {[u]}]> (votes p)
             else if multiple p then <[option_id := s ∪ {[u]}]> (votes p)
             else <[option_id := discard u s ∪ {[u]}]> (discard u <$> votes p)).
  set (action := if decide (u ∈ s) then str "Removed vote from" else str "Voted for").
  assert (Ht : toggle (votes p) (multiple p) u option_id = Ok (d', action)).
  { unfold d', action. destruct (decide (u ∈ s)) as [Hu|Hu].
    - by apply toggle_retract.
    - rewrite (toggle_cast _ _ _ _ _ Hs Hu). by destruct (multiple p). }
  assert (Hwf' : poll_wf (with_votes p d')).
  { apply with_votes_wf; [done|]. by apply (toggle_dom _ _ _ _ _ Ht). }
  destruct (create_poll_embed_ok _ now Hwf' Hnow) as (embed & He).
  assert (Hsets :
    (u ∈ s ->
     d' !! option_id = Some (s ∖ {[u]}) /\
     forall j, j <> option_id -> d' !! j = votes p !! j) /\
    ((u ∉ s) -> multiple p = true ->
     d' !! option_id = Some (s ∪ {[u]}) /\
     forall j, j <> option_id -> d' !! j = votes p !! j) /\
    ((u ∉ s) -> multiple p = false ->
     d' !! option_id = Some (s ∪ {[u]}) /\
     (forall j sj, j <> option_id -> votes p !! j = Some sj -> d' !! j = Some (sj ∖ {[u]})) /\
     (forall j, votes p !! j = None -> d' !! j = None))).
  { unfold d'. split; [|split].
    - intros Hu. rewrite decide_True by done. split; [by rewrite lookup_insert_eq|].
      intros j Hj. by rewrite lookup_insert_ne.
    - intros Hu Hm. rewrite decide_False, Hm by done. split; [by rewrite lookup_insert_eq|].
      intros j Hj. by rewrite lookup_insert_ne.
    - intros Hu Hm. rewrite decide_False, Hm by done. split; [|split].
      + rewrite lookup_insert_eq. f_equal. unfold discard. set_solver.
      + intros j sj Hj Hsj. rewrite lookup_insert_ne, lookup_fmap, Hsj by done. reflexivity.
      + intros j Hj. destruct (decide (option_id = j)) as [<-|Hne]; [congruence|].
        by rewrite lookup_insert_ne, lookup_fmap, Hj. }
  unfold callback. rewrite (callback_on_registered _ _ _ _ _ _ Hp).
  fold u. rewrite Ht. cbv zeta. cbn [fst snd]. rewrite He.
  destruct Hsets as (Hretract & Hmulti & Hsingle).
  subst action.
  assert (Hfields : title (with_votes p d') = title p /\
                    options (with_votes p d') = options p /\
                    multiple (with_votes p d') = multiple p /\
                    author_id (with_votes p d') = author_id p /\
                    end_time (with_votes p d') = end_time p /\
                    channel_id (with_votes p d') = channel_id p) by done.
  destruct (platform (EditEmbed _ _)) eqn:H1; [destruct (platform (SendMessage _ _)) eqn:H2|];
    eexists s, _, _, (with_votes p d'), embed; (split; [exact Hs|]); (split; [reflexivity|]);
    cbn [active_polls trace]; (split; [reflexivity|]);
    (split; [exact Hfields|]); (split; [exact Hretract|]);
    (split; [exact Hmulti|]); (split; [exact Hsingle|]);
    (split; [exact He|]); intros; try congruence.
  split; [done|]. by rewrite <- app_assoc.
Qed.

(** C8. A vote whose option index is not an index of the poll's options
    raises [KeyError] at the first lookup: the handler ends there, and
    neither the vote sets nor anything else of the bot has changed. *)
Theorem callback_rejects_unknown_option platform option_id ix now b p :
  active_polls b !! ix_message_id ix = Some p ->
  poll_wf p ->
  ~ (0 <= option_id < Z.of_nat (length (options p))) ->
  callback platform option_id ix now (Some b) = (Raise (KeyError option_id), Some b).
Proof.
  intros Hp Hwf Hi. unfold callback. rewrite (callback_on_registered _ _ _ _ _ _ Hp).
  rewrite toggle_absent; [reflexivity|].
  destruct (votes p !! option_id) eqn:H; [|done].
  exfalso. apply Hi. apply (wf_lookup p option_id Hwf). eauto.
Qed.

(** C10. A vote on a registered poll changes nothing but the vote sets of
    that poll: its title, options, multiple-choice flag, author, end time
    and channel are the same, its vote sets are still one per option index,
    and every other poll of the registry is the same. *)
Theorem callback_frame platform option_id ix now b p :
  active_polls b !! ix_message_id ix = Some p ->
  poll_wf p ->
  exists r b' p',
    callback platform option_id ix now (Some b) = (r, Some b') /\
    active_polls b' !! ix_message_id ix = Some p' /\
    title p' = title p /\ options p' = options p /\ multiple p' = multiple p /\
    author_id p' = author_id p /\ end_time p' = end_time p /\
    channel_id p' = channel_id p /\
    dom (votes p') = indices (length (options p')) /\
    forall message_id, message_id <> ix_message_id ix ->
      active_polls b' !! message_id = active_polls b !! message_id.
Proof.
  intros Hp Hwf. unfold callback.
  pose proof (callback_on_polls platform option_id ix now b p Hp) as Hpolls.
  destruct (callback_on platform option_id ix now b) as [r b'] eqn:Hc. simpl in Hpolls.
  destruct (toggle (votes p) (multiple p) (ix_user_id ix) option_id) as [va|e] eqn:Ht.
  - exists r, b', (with_votes p va.1). split; [reflexivity|].
    rewrite Hpolls, lookup_insert_eq. repeat (split; [reflexivity|]). split.
    + simpl. rewrite (toggle_dom _ _ _ _ _ Ht). apply Hwf.
    + intros m Hm. by rewrite lookup_insert_ne.
  - exists r, b', p. split; [reflexivity|]. rewrite Hpolls.
    split; [exact Hp|]. repeat (split; [reflexivity|]). split; [apply Hwf|done].
Qed.

(** ** Exclusivity of single-choice polls *)

Lemma exclusive_empty_votes n : exclusive (empty_votes n).
Proof.
  intros v i j si sj Hi _ Hv _. apply lookup_empty_votes in Hi. subst si.
  set_solver.
Qed.

Lemma toggle_exclusive d u i va :
  exclusive d -> toggle d false u i = Ok va -> exclusive va.1.
Proof.
  intros Hex. destruct (d !! i) as [s|] eqn:H; [|by rewrite toggle_absent].
  destruct (decide (u ∈ s)) as [Hu|Hu].
  - rewrite (toggle_retract _ _ _ _ _ H Hu). intros Heq. injection Heq as Heq.
    subst va. simpl. intros v j1 j2 s1 s2 H1 H2 Hv1 Hv2.
    assert (Hsub : forall j t, <[i := s ∖ {[u]}]> d !! j = Some t ->
                     exists t0, d !! j = Some t0 /\ t ⊆ t0).
    { intros j t. destruct (decide (i = j)) as [->|Hne].
      - rewrite lookup_insert_eq. intros Ht. injection Ht as <-.
        exists s. split; [done|set_solver].
      - rewrite lookup_insert_ne by done. intros Ht. exists t. split; [done|set_solver]. }
    destruct (Hsub _ _ H1) as (t1 & Ht1 & Hs1). destruct (Hsub _ _ H2) as (t2 & Ht2 & Hs2).
    apply (Hex v j1 j2 t1 t2); [done|done|set_solver|set_solver].
  - rewrite (toggle_cast _ _ _ _ _ H Hu). intros Heq. injection Heq as Heq.
    subst va. simpl. intros v j1 j2 s1 s2 H1 H2 Hv1 Hv2.
    assert (Hin : forall j t, <[i := discard u s ∪ {[u]}]> (discard u <$> d) !! j = Some t ->
                    v ∈ t -> (v = u /\ j = i) \/
                             (v <> u /\ exists t0, d !! j = Some t0 /\ v ∈ t0)).
    { intros j t. destruct (decide (i = j)) as [->|Hne].
      - rewrite lookup_insert_eq. intros Ht Hv. injection Ht as <-.
        destruct (decide (v = u)) as [->|Hvu]; [by left|right].
        split; [done|]. exists s. split; [done|]. unfold discard in Hv. set_solver.
      - rewrite lookup_insert_ne by done. rewrite lookup_fmap.
        destruct (d !! j) as [t0|] eqn:Hj; simpl; [|done].
        intros Ht Hv. injection Ht as <-. right. unfold discard in Hv.
        split; [set_solver|]. exists t0. split; [done|set_solver]. }
    destruct (Hin _ _ H1 Hv1) as [[-> ->]|[Hn1 (t1 & Ht1 & Hm1)]];
      destruct (Hin _ _ H2 Hv2) as [[? ->]|[Hn2 (t2 & Ht2 & Hm2)]]; try done.
    by apply (Hex v j1 j2 t1 t2).
Qed.

(** ** What the handlers do to the registry *)

Lemma call_polls platform ev b : active_polls (call platform ev b).2 = active_polls b.
Proof. unfold call, emit, lift. by destruct (platform ev). Qed.

Lemma create_poll_polls platform ix title options duration multiple now now' b :
  active_polls (create_poll platform ix title options duration multiple now now' b).2
    = active_polls b \/
  exists end_time,
    datetime_ok end_time = true /\
    (2 <= length (strip <$> str_split comma options) <= 10)%nat /\
    active_polls (create_poll platform ix title options duration multiple now now' b).2
    = <[ix_message_id ix :=
          {| title := title; options := strip <$> str_split comma options;
             votes := empty_votes (length (strip <$> str_split comma options));
             multiple := multiple; author_id := ix_user_id ix;
             end_time := end_time; channel_id := ix_channel_id ix |}]> (active_polls b).
Proof.
  unfold create_poll.
  destruct (Nat.ltb_spec (length (strip <$> str_split comma options)) 2);
    [left; apply call_polls|].
  destruct (Nat.ltb_spec 10 (length (strip <$> str_split comma options)));
    [left; apply call_polls|].
  unfold bind, lift, get_polls, put_polls, emit, call.
  destruct (timedelta_minutes duration) as [td|e]; [|by left].
  unfold datetime_add. destruct (datetime_ok (now + td)) eqn:Hok; [|by left].
  destruct (create_poll_embed _ now') as [embed|e]; [|by left].
  destruct (platform (SendPoll _ _ _)); [|by left]. simpl.
  destruct (platform (OriginalResponse _)); [|by left]. simpl.
  right. exists (now + td). split; [done|]. split; [lia|done].
Qed.

Lemma end_poll_registered platform message_id b p :
  active_polls b !! message_id = Some p ->
  end_poll platform message_id b =
  match results_embed p with
  | Raise e => (Raise e, b)
  | Ok embed =>
      (Ok tt, {| active_polls := delete message_id (active_polls b);
                 trace := trace b ++ closure_trace platform p message_id embed |})
  end.
Proof.
  intros Hp. unfold end_poll, bind, get_polls, lift. rewrite Hp.
  destruct (results_embed p) as [embed|e]; [|reflexivity].
  unfold del_poll, try_except, bind, call, emit, lift, get_polls, put_polls, closure_trace.
  destruct (platform (FetchMessage _ _)); simpl;
    [destruct (platform (EditResults _ _)); simpl;
     [destruct (platform (ChannelSend _ _)); simpl|]|].
  all: rewrite Hp; simpl; rewrite <- ?app_assoc; reflexivity.
Qed.

Lemma end_poll_unregistered platform message_id b :
  active_polls b !! message_id = None -> end_poll platform message_id b = (Ok tt, b).
Proof. intros Hp. unfold end_poll, bind, get_polls, ret. by rewrite Hp. Qed.

Lemma end_poll_timer_eq platform message_id duration b :
  end_poll_timer platform message_id duration b = end_poll platform message_id b.
Proof.
  unfold end_poll_timer, bind, get_polls, ret. case_decide as Hd; [reflexivity|].
  apply not_elem_of_dom in Hd. by rewrite end_poll_unregistered.
Qed.

Lemma end_poll_polls platform message_id b :
  active_polls (end_poll platform message_id b).2 = active_polls b \/
  active_polls (end_poll platform message_id b).2 = delete message_id (active_polls b).
Proof.
  destruct (active_polls b !! message_id) as [p|] eqn:Hp.
  - rewrite (end_poll_registered _ _ _ _ Hp). destruct (results_embed p); [by right|by left].
  - rewrite (end_poll_unregistered _ _ _ Hp). by left.
Qed.

Lemma poll_wf_created title options multiple author end_time channel :
  datetime_ok end_time = true ->
  poll_wf {| title := title; options := options;
             votes := empty_votes (length options); multiple := multiple;
             author_id := author; end_time := end_time; channel_id := channel |}.
Proof. intros H. split; simpl; [apply dom_empty_votes|done]. Qed.

Lemma step_registry_ok b b' : registry_ok b -> step b b' -> registry_ok b'.
Proof.
  intros Hok Hstep m p.
  destruct Hstep as [pf ix ttl opts dur mult now now'|pf mid dur|pf mid|pf oid ix now].
  - destruct (create_poll_polls pf ix ttl opts dur mult now now' b)
      as [->|(end_time & Hend & _ & ->)]; [apply Hok|].
    destruct (decide (ix_message_id ix = m)) as [->|Hne].
    + rewrite lookup_insert_eq. intros Hp. injection Hp as <-. split.
      * by apply poll_wf_created.
      * intros _. simpl. apply exclusive_empty_votes.
    + rewrite lookup_insert_ne by done. apply Hok.
  - rewrite end_poll_timer_eq.
    destruct (end_poll_polls pf mid b) as [->| ->]; [apply Hok|].
    intros Hp. apply lookup_delete_Some in Hp as [_ Hp]. exact (Hok _ _ Hp).
  - destruct (end_poll_polls pf mid b) as [->| ->]; [apply Hok|].
    intros Hp. apply lookup_delete_Some in Hp as [_ Hp]. exact (Hok _ _ Hp).
  - destruct (active_polls b !! ix_message_id ix) as [p0|] eqn:Hp0.
    + rewrite (callback_on_polls _ _ _ _ _ _ Hp0).
      destruct (toggle _ _ _ _) as [va|e] eqn:Ht; [|apply Hok].
      destruct (decide (ix_message_id ix = m)) as [->|Hne].
      * rewrite lookup_insert_eq. intros Hp. injection Hp as <-.
        destruct (Hok _ _ Hp0) as [Hwf Hex]. split.
        -- apply with_votes_wf; [done|]. by apply (toggle_dom _ _ _ _ _ Ht).
        -- simpl. intros Hm. rewrite Hm in Ht. by apply (toggle_exclusive _ _ _ _ (Hex Hm) Ht).
      * rewrite lookup_insert_ne by done. apply Hok.
    + rewrite (callback_on_unregistered _ _ _ _ _ Hp0), call_polls. apply Hok.
Qed.

Lemma reachable_registry_ok b : reachable b -> registry_ok b.
Proof.
  induction 1 as [|b b' _ IH Hstep].
  - intros m p Hp. simpl in Hp. by rewrite lookup_empty in Hp.
  - by apply (step_registry_ok b).
Qed.

Lemma callback_registered_polls platform option_id ix now b p va :
  active_polls b !! ix_message_id ix = Some p ->
  toggle (votes p) (multiple p) (ix_user_id ix) option_id = Ok va ->
  exists r b',
    callback platform option_id ix now (Some b) = (r, Some b') /\
    active_polls b' = <[ix_message_id ix := with_votes p va.1]> (active_polls b).
Proof.
  intros Hp Ht. unfold callback.
  pose proof (callback_on_polls platform option_id ix now b p Hp) as Hpolls.
  rewrite Ht in Hpolls.
  destruct (callback_on platform option_id ix now b) as [r b']. eauto.
Qed.

Lemma toggle_cast_single d u i s va :
  d !! i = Some s -> u ∉ s -> toggle d false u i = Ok va ->
  (exists t, va.1 !! i = Some t /\ u ∈ t) /\
  (forall j t, j <> i -> va.1 !! j = Some t -> u ∉ t).
Proof.
  intros H Hu. rewrite (toggle_cast _ _ _ _ _ H Hu). intros Heq.
  injection Heq as Heq. subst va. simpl. split.
  - eexists. rewrite lookup_insert_eq. split; [reflexivity|set_solver].
  - intros j t Hne. rewrite lookup_insert_ne by done. rewrite lookup_fmap.
    destruct (d !! j) as [t0|]; simpl; [|done].
    intros Ht. injection Ht as <-. unfold discard. set_solver.
Qed.

(** C2. In every state the bot can reach, no voter is in two vote sets of
    a single-choice poll; and when a voter votes for an option A of such a
    poll and then for another option B, the voter is in the set of B and
    not in the set of A. *)
Theorem single_choice_exclusive b ix p :
  reachable b ->
  active_polls b !! ix_message_id ix = Some p ->
  multiple p = false ->
  exclusive (votes p) /\
  forall platform platform' now now' A B,
    0 <= A < Z.of_nat (length (options p)) ->
    0 <= B < Z.of_nat (length (options p)) ->
    A <> B ->
    exists r b'' p'' sA sB,
      callback platform' B ix now' (callback platform A ix now (Some b)).2 = (r, Some b'') /\
      active_polls b'' !! ix_message_id ix = Some p'' /\
      votes p'' !! A = Some sA /\ votes p'' !! B = Some sB /\
      ix_user_id ix ∈ sB /\ ix_user_id ix ∉ sA.
Proof.
  intros Hreach Hp Hsingle.
  destruct (reachable_registry_ok b Hreach _ _ Hp) as [Hwf Hex].
  specialize (Hex Hsingle). split; [exact Hex|].
  intros pf pf' now now' A B HA HB Hne.
  set (u := ix_user_id ix).
  destruct (proj2 (wf_lookup p A Hwf) HA) as [sA HsA].
  destruct (proj2 (wf_lookup p B Hwf) HB) as [sB HsB].
  (* the first vote leaves the voter out of the set of B *)
  assert (exists d1 a1 tB, toggle (votes p) false u A = Ok (d1, a1) /\
            d1 !! B = Some tB /\ (u ∉ tB) /\ dom d1 = dom (votes p))
    as (d1 & a1 & tB & Ht1 & HtB & HuB & Hdom1).
  { destruct (decide (u ∈ sA)) as [Hu|Hu].
    - eexists _, _, sB. split; [by apply toggle_retract|].
      rewrite lookup_insert_ne by done. split; [done|]. split.
      + intros HuB. apply Hne. by apply (Hex u A B sA sB).
      + rewrite dom_insert_L. assert (A ∈ dom (votes p)) by (apply elem_of_dom; eauto).
        set_solver.
    - eexists _, _, (discard u sB). split; [by apply toggle_cast|].
      rewrite lookup_insert_ne by done. rewrite lookup_fmap, HsB. split; [done|].
      split; [unfold discard; set_solver|].
      rewrite dom_insert_L, dom_fmap_L.
      assert (A ∈ dom (votes p)) by (apply elem_of_dom; eauto). set_solver. }
  rewrite <- Hsingle in Ht1.
  destruct (callback_registered_polls pf A ix now b p _ Hp Ht1) as (r1 & b1 & -> & Hb1).
  cbn [snd fst] in *.
  assert (Hp1 : active_polls b1 !! ix_message_id ix = Some (with_votes p d1))
    by (rewrite Hb1; apply lookup_insert_eq).
  destruct (toggle d1 false u B) as [va|e] eqn:Ht2;
    [|by rewrite (toggle_cast _ _ _ _ _ HtB HuB) in Ht2].
  destruct (toggle_cast_single _ _ _ _ _ HtB HuB Ht2) as [(t & Ht & Hut) Hothers].
  assert (Ht2' : toggle (votes (with_votes p d1)) (multiple (with_votes p d1)) u B = Ok va)
    by (simpl; by rewrite Hsingle).
  destruct (callback_registered_polls pf' B ix now' b1 _ _ Hp1 Ht2') as (r2 & b2 & -> & Hb2).
  assert (HA2 : is_Some (va.1 !! A)).
  { apply elem_of_dom. rewrite (toggle_dom _ _ _ _ _ Ht2), Hdom1. apply elem_of_dom. eauto. }
  destruct HA2 as [tA HtA].
  exists r2, b2, (with_votes (with_votes p d1) va.1), tA, t.
  split; [reflexivity|]. split; [rewrite Hb2; apply lookup_insert_eq|].
  simpl. split; [done|]. split; [done|]. split; [done|]. by apply (Hothers A).
Qed.

(** The vote sets after a voter has voted twice in a row for the option of
    set [s]. *)
Lemma toggle_twice d mult u i s :
  d !! i = Some s ->
  exists va vb,
    toggle d mult u i = Ok va /\ toggle va.1 mult u i = Ok vb /\
    vb.1 = <[i := s]> (if mult then d else discard u <$> d).
Proof.
  intros H. destruct (decide (u ∈ s)) as [Hu|Hu].
  - assert (Hs : s ∖ {[u]} ∪ {[u]} = s).
    { apply set_eq. intros x. rewrite elem_of_union, elem_of_difference, elem_of_singleton.
      destruct (decide (x = u)); naive_solver. }
    eexists _, _. split; [by apply toggle_retract|]. simpl.
    rewrite (toggle_cast _ _ _ _ (s ∖ {[u]})); [|apply lookup_insert_eq|set_solver].
    split; [reflexivity|]. simpl.
    destruct mult.
    + by rewrite Hs, insert_insert_eq.
    + rewrite fmap_insert, insert_insert_eq.
      replace (discard u (s ∖ {[u]}) ∪ {[u]}) with s; [done|].
      rewrite <- Hs at 1. unfold discard. set_solver.
  - assert (Hs : forall t : gset Z, u ∉ t -> (t ∪ {[u]}) ∖ {[u]} = t) by set_solver.
    rewrite (toggle_cast _ _ _ _ _ H Hu). destruct mult.
    + eexists _, _. split; [reflexivity|]. simpl.
      rewrite (toggle_retract _ _ _ _ (s ∪ {[u]})); [|apply lookup_insert_eq|set_solver].
      split; [reflexivity|]. simpl. by rewrite insert_insert_eq, Hs.
    + eexists _, _. split; [reflexivity|]. simpl.
      rewrite (toggle_retract _ _ _ _ (discard u s ∪ {[u]}));
        [|apply lookup_insert_eq|set_solver].
      split; [reflexivity|]. simpl. rewrite insert_insert_eq. f_equal.
      unfold discard. set_solver.
Qed.

(** C3, amended. Two votes in a row by the same voter for the same option
    of a registered poll leave the set of that option as it was and, in a
    single-choice poll, clear the voter from every other set.  So the vote
    sets are back to what they were exactly when the poll is
    multiple-choice or the voter had no vote on another option. *)
Theorem double_toggle platform platform' option_id ix now now' b p :
  active_polls b !! ix_message_id ix = Some p ->
  poll_wf p ->
  0 <= option_id < Z.of_nat (length (options p)) ->
  exists r b'' p'' s,
    callback platform' option_id ix now'
      (callback platform option_id ix now (Some b)).2 = (r, Some b'') /\
    active_polls b'' !! ix_message_id ix = Some p'' /\
    votes p !! option_id = Some s /\
    votes p'' = <[option_id := s]>
                  (if multiple p then votes p else discard (ix_user_id ix) <$> votes p) /\
    (votes p'' = votes p <->
     multiple p = true \/
     forall j t, j <> option_id -> votes p !! j = Some t -> ix_user_id ix ∉ t).
Proof.
  intros Hp Hwf Hi. set (u := ix_user_id ix).
  destruct (proj2 (wf_lookup p option_id Hwf) Hi) as [s Hs].
  destruct (toggle_twice (votes p) (multiple p) u option_id s Hs) as (va & vb & Ha & Hb & Heq).
  destruct (callback_registered_polls platform option_id ix now b p _ Hp Ha)
    as (r1 & b1 & -> & Hb1).
  cbn [snd].
  assert (Hp1 : active_polls b1 !! ix_message_id ix = Some (with_votes p va.1))
    by (rewrite Hb1; apply lookup_insert_eq).
  destruct (callback_registered_polls platform' option_id ix now' b1 _ vb Hp1 Hb)
    as (r2 & b2 & -> & Hb2).
  exists r2, b2, (with_votes (with_votes p va.1) vb.1), s.
  split; [reflexivity|]. split; [rewrite Hb2; apply lookup_insert_eq|].
  split; [exact Hs|]. simpl. split; [exact Heq|]. rewrite Heq.
  destruct (multiple p).
  - split; [by left|]. intros _. by apply insert_id.
  - split.
    + intros Hsame. right. intros j t Hne Hj Hu.
      assert (Hl : (<[option_id := s]> (discard u <$> votes p)) !! j = Some t)
        by (by rewrite Hsame).
      rewrite lookup_insert_ne, lookup_fmap, Hj in Hl by done. simpl in Hl.
      injection Hl as Hl. unfold discard in Hl. set_solver.
    + intros [Hm|Hfree]; [done|]. apply map_eq. intros j.
      destruct (decide (option_id = j)) as [<-|Hne].
      * by rewrite lookup_insert_eq.
      * rewrite lookup_insert_ne, lookup_fmap by done.
        destruct (votes p !! j) as [t|] eqn:Hj; simpl; [|done].
        f_equal. unfold discard. specialize (Hfree j t ltac:(done) Hj). set_solver.
Qed.

(** ** The claims about the tally *)

(** C7. The embed of a poll has one field per option, in declared order;
    the field of an option carries the size of its vote set, the percentage
    [votes / total * 100] of the total over all options (0 when the total
    is 0) and a bar of [floor(percentage / 10)] filled segments, at most
    ten, followed by ten minus as many empty ones; the segments are written
    with the code points which the source file has.  With 3 and 1 votes the
    fields read 75.0% behind 7 filled and 3 empty segments and 25.0% behind
    2 filled and 8 empty ones. *)
Theorem tally_rendering p now :
  poll_wf p -> datetime_ok now = true ->
  let votes_of := fun j : nat => Z.of_nat (size (default ∅ (votes p !! Z.of_nat j))) in
  let total := foldr Z.add 0 (votes_of <$> seq 0 (length (options p))) in
  exists e,
    create_poll_embed p now = Ok e /\
    length (embed_fields e) = length (options p) /\
    (forall j option, options p !! j = Some option ->
       exists pct x k,
         is_Some (votes p !! Z.of_nat j) /\
         (0 < total ->
          exists q, int_truediv (votes_of j) total = Ok q /\
                    pct = PyFloat (float_mul q (float_of_int 100))) /\
         (total <= 0 -> pct = PyInt 0) /\
         truediv_int pct 10 = Ok x /\ float_floor x = Ok k /\ 0 <= k <= 10 /\
         embed_fields e !! j =
           Some {| name := option;
                   value := concat (replicate (Z.to_nat k) [8218; 241; 224]%N) ++
                            concat (replicate (Z.to_nat (10 - k)) [8218; 241; 235]%N) ++
                            str " " ++ str_of_int (votes_of j) ++ str " votes (" ++
                            format_1f pct ++ str "%)";
                   inline := false |}) /\
    (forall o1 o2 s1 s2,
       options p = [o1; o2] ->
       votes p !! 0 = Some s1 -> votes p !! 1 = Some s2 -> size s1 = 3%nat -> size s2 = 1%nat ->
       embed_fields e =
         [{| name := o1;
             value := concat (replicate 7 [8218; 241; 224]%N) ++
                      concat (replicate 3 [8218; 241; 235]%N) ++
                      str " 3 votes (75.0%)"; inline := false |};
          {| name := o2;
             value := concat (replicate 2 [8218; 241; 224]%N) ++
                      concat (replicate 8 [8218; 241; 235]%N) ++
                      str " 1 votes (25.0%)"; inline := false |}]).
Proof.
  intros Hwf Hnow votes_of total.
  destruct (create_poll_embed_rows p now Hwf Hnow) as (fs & k & -> & _ & Hlen & Hrows).
  change total with (total_by_index (votes p) (length (options p))).
  eexists. split; [reflexivity|]. cbn [set_footer append_fields embed_fields new_poll_embed].
  rewrite app_nil_l. split; [exact Hlen|]. split.
  - intros j o Hj.
    destruct (Hrows j o Hj) as (f & Hf & s & pct & x & k' & Hs & Hp & Hx & Hk & Hk10 & ->).
    assert (Hv : votes_of j = len s) by (unfold votes_of; rewrite Hs; reflexivity).
    exists pct, x, k'. split; [by eexists|]. rewrite Hv. split; [|split].
    + intros Htot. unfold percentage_of in Hp.
      replace (0 <? total_by_index (votes p) (length (options p))) with true in Hp
        by (symmetry; apply Z.ltb_lt; lia).
      destruct (int_truediv _ _) as [q|]; [|discriminate]. injection Hp as <-. eauto.
    + intros Htot. unfold percentage_of in Hp.
      replace (0 <? total_by_index (votes p) (length (options p))) with false in Hp
        by (symmetry; apply Z.ltb_ge; lia).
      by injection Hp as <-.
    + repeat (split; [done|]). rewrite Hf. unfold tally_text, bar, str_mul.
      by rewrite <- !app_assoc.
  - intros o1 o2 s1 s2 Hopts H1 H2 Hn1 Hn2. rewrite Hopts in Hrows, Hlen.
    assert (Htot : total_by_index (votes p) (length (options p)) = 4).
    { rewrite Hopts.
      change (total_by_index (votes p) (length [o1; o2]))
        with (count (votes p) 0 + (count (votes p) 1 + 0)).
      unfold count. rewrite H1, H2. unfold len. simpl. lia. }
    rewrite Hopts in Htot. rewrite Htot in Hrows.
    destruct (Hrows 0%nat o1 eq_refl) as (f1 & Hf1 & t1 & pct1 & x1 & k1 & Ht1 & Hp1 & Hx1 & Hk1 & _ & ->).
    destruct (Hrows 1%nat o2 eq_refl) as (f2 & Hf2 & t2 & pct2 & x2 & k2 & Ht2 & Hp2 & Hx2 & Hk2 & _ & ->).
    change (Z.of_nat 0) with 0 in Ht1. change (Z.of_nat 1) with 1 in Ht2.
    rewrite H1 in Ht1. rewrite H2 in Ht2. injection Ht1 as <-. injection Ht2 as <-.
    unfold len in *. rewrite Hn1 in *. rewrite Hn2 in *.
    vm_compute in Hp1. injection Hp1 as <-. vm_compute in Hx1. injection Hx1 as <-.
    vm_compute in Hk1. injection Hk1 as <-.
    vm_compute in Hp2. injection Hp2 as <-. vm_compute in Hx2. injection Hx2 as <-.
    vm_compute in Hk2. injection Hk2 as <-.
    destruct fs as [|g1 [|g2 [|g3 fs]]]; simpl in Hlen; try lia.
    simpl in Hf1, Hf2. injection Hf1 as ->. injection Hf2 as ->.
    vm_compute. reflexivity.
Qed.

(** C9, amended. The footer of the embed shows [int()] of the quotient by
    60 of the seconds from now to the end time: the quotient is truncated
    towards zero.  That is its floor as long as the end time is not passed;
    once it is passed it is the ceiling, which is never negative one for a
    fraction of a minute. *)
Theorem remaining_time_truncates p now :
  poll_wf p -> datetime_ok now = true ->
  exists e s q k,
    create_poll_embed p now = Ok e /\
    embed_footer e = Some (str "Time remaining: " ++ str_of_int k ++ str " minutes") /\
    total_seconds (end_time p - now) = Ok s /\
    float_truediv s (float_of_int 60) = Ok q /\
    py_int q = Ok k /\
    (now <= end_time p -> float_floor q = Ok k /\ 0 <= k) /\
    (end_time p < now -> float_floor (SFopp q) = Ok (- k) /\ k <= 0).
Proof.
  intros Hwf Hnow.
  destruct (create_poll_embed_rows p now Hwf Hnow) as (fs & k & -> & Hk & _).
  destruct (minutes_left_ok (end_time p) now (proj2 Hwf) Hnow)
    as (s & q & k' & Hs & Hq & Hf & Hint & Hk').
  rewrite Hk in Hk'. injection Hk' as <-.
  eexists _, s, q, k. split; [reflexivity|]. split; [reflexivity|].
  split; [done|]. split; [done|]. split; [done|]. split.
  - intros Hle. replace (end_time p - now <? 0) with false in Hf
      by (symmetry; apply Z.ltb_ge; lia).
    rewrite <- (py_int_floor _ _ _ Hf). split; [done|].
    destruct q as [| | |sq m [|e|e]]; simpl in Hf, Hint; try done;
      try (destruct Hf as (-> & _)); injection Hint as <-; simpl; try lia.
    apply Z.quot_pos; lia.
  - intros Hlt. replace (end_time p - now <? 0) with true in Hf
      by (symmetry; apply Z.ltb_lt; lia).
    split; [by apply (py_int_ceil _ _ _ _ Hf)|].
    destruct q as [| | |sq m [|e|e]]; simpl in Hf, Hint; try done;
      try (destruct Hf as (-> & _)); injection Hint as <-; simpl; try lia.
    change (Z.neg m) with (- Z.pos m). rewrite Z.quot_opp_l by lia.
    assert (0 <= Z.pos m ÷ Z.pow_pos 2 e) by (apply Z.quot_pos; lia). lia.
Qed.

(** ** The results embed *)

Lemma collect_results_ok d i opts acc :
  (forall j, (j < length opts)%nat -> is_Some (d !! (i + Z.of_nat j))) ->
  collect_results d i opts acc = Ok (acc ++ results_from d i opts).
Proof.
  revert i acc. induction opts as [|o rest IH]; intros i acc Hkeys.
  - simpl. by rewrite app_nil_r.
  - destruct (Hkeys 0%nat ltac:(simpl; lia)) as [s Hs]. rewrite Z.add_0_r in Hs.
    simpl. rewrite (dict_get_Some _ _ _ Hs). cbn [result_bind].
    rewrite IH.
    + rewrite <- app_assoc. do 2 f_equal. unfold results_from. simpl.
      rewrite Z.add_0_r. unfold count at 2. rewrite Hs. simpl. f_equal.
      apply imap_ext. intros j o' _. simpl.
      replace (i + 1 + Z.of_nat j) with (i + Z.of_nat (S j)) by lia. reflexivity.
    + intros j Hj. replace (i + 1 + Z.of_nat j) with (i + Z.of_nat (S j)) by lia.
      apply Hkeys. simpl. lia.
Qed.

Lemma elem_of_results_from d i opts r :
  r ∈ results_from d i opts ->
  exists j, opts !! j = Some r.1.2 /\ r.1.1 = i + Z.of_nat j /\ r.2 = count d r.1.1.
Proof.
  unfold results_from. intros Hr. apply elem_of_lookup_imap in Hr as (j & o & -> & Ho).
  exists j. simpl. done.
Qed.

Lemma foldl_max_spec l x :
  foldl Z.max x l ∈ x :: l /\ forall y, y ∈ x :: l -> y <= foldl Z.max x l.
Proof.
  revert x. induction l as [|z l IH]; intros x; simpl.
  - split; [set_solver|]. intros y Hy. apply list_elem_of_singleton in Hy. lia.
  - destruct (IH (Z.max x z)) as [Hin Hmax]. split.
    + apply elem_of_cons in Hin as [Heq|Hin]; [|set_solver].
      rewrite Heq. destruct (Z.max_spec x z) as [[_ ->]|[_ ->]]; set_solver.
    + intros y Hy. apply elem_of_cons in Hy as [->|Hy].
      * etrans; [|apply (Hmax (Z.max x z)); set_solver]. lia.
      * apply elem_of_cons in Hy as [->|Hy].
        -- etrans; [|apply (Hmax (Z.max x z)); set_solver]. lia.
        -- apply Hmax. set_solver.
Qed.

Lemma py_max_spec l :
  l <> [] -> exists m, py_max l = Ok m /\ m ∈ l /\ forall y, y ∈ l -> y <= m.
Proof.
  destruct l as [|x l]; [done|]. intros _. eexists. split; [reflexivity|].
  apply foldl_max_spec.
Qed.

Lemma add_result_fields_ok field_name d rs embed :
  0 < sum_votes d ->
  (forall r, r ∈ rs -> is_Some (d !! r.1.1) /\ r.2 = count d r.1.1) ->
  exists fs,
    add_result_fields field_name (sum_votes d) rs embed = Ok (append_fields embed fs) /\
    Forall2 (fun r f => tally_row field_name d (sum_votes d) r.1.1 r.1.2 f) rs fs.
Proof.
  intros Htot. revert embed. induction rs as [|[[i o] n] rs IH]; intros embed Hrs.
  - exists []. simpl. rewrite append_fields_nil. split; [done|constructor].
  - destruct (Hrs (i, o, n) ltac:(set_solver)) as [[s Hs] Hn]. simpl in Hs, Hn.
    unfold count in Hn. rewrite Hs in Hn. simpl in Hn. subst n.
    destruct (percentage_bar_ok (len s) (sum_votes d) (len_le_sum_votes d i s Hs))
      as (pct & x & k & Hp & Hx & _ & Hk & Hk10 & Hbar).
    pose proof Hp as Hp'. unfold percentage_of in Hp'.
    replace (0 <? sum_votes d) with true in Hp' by (symmetry; apply Z.ltb_lt; lia).
    destruct (int_truediv (len s) (sum_votes d)) as [q|e] eqn:Hq; [|done].
    cbn [result_bind] in Hp'. injection Hp' as Hp'.
    destruct (IH (add_field embed (field_name i o) (tally_text (bar k) (len s) pct) false))
      as (fs & Hfs & Hrows); [intros r Hr; apply Hrs; set_solver|].
    eexists (_ :: fs). split.
    + cbn [add_result_fields]. rewrite Hq. cbn [result_bind]. rewrite Hp', Hbar.
      cbn [result_bind]. rewrite Hfs. unfold add_field. rewrite append_fields_app.
      reflexivity.
    + constructor; [|exact Hrows]. exists s, pct, x, k. done.
Qed.

Lemma add_empty_fields_eq rs embed :
  add_empty_fields rs embed = append_fields embed (empty_row <$> rs).
Proof.
  revert embed. induction rs as [|[[i o] n] rs IH]; intros embed; simpl.
  - by rewrite append_fields_nil.
  - rewrite IH. unfold add_field. by rewrite append_fields_app.
Qed.

Lemma results_from_keys p r :
  poll_wf p -> r ∈ results_from (votes p) 0 (options p) ->
  is_Some (votes p !! r.1.1) /\ r.2 = count (votes p) r.1.1.
Proof.
  intros Hwf Hr. apply elem_of_results_from in Hr as (j & Hj & Hi & Hn).
  split; [|done]. rewrite Hi. apply wf_keys; [done|]. by apply lookup_lt_Some in Hj.
Qed.

Lemma results_embed_rows p :
  poll_wf p ->
  let rs := results_from (votes p) 0 (options p) in
  let total := sum_votes (votes p) in
  exists fs,
    results_embed p =
      Ok (set_footer (append_fields (new_results_embed p) fs) (str "Poll has ended")) /\
    (0 < total ->
     exists max_votes ws os,
       max_votes ∈ rs.*2 /\ (forall n, n ∈ rs.*2 -> n <= max_votes) /\
       fs = ws ++ os /\
       Forall2 (fun r f => tally_row winner_name (votes p) total r.1.1 r.1.2 f)
         (filter (fun r => r.2 = max_votes) rs) ws /\
       Forall2 (fun r f => tally_row option_name (votes p) total r.1.1 r.1.2 f)
         (filter (fun r => r.2 <> max_votes) rs) os) /\
    (total = 0 -> fs = empty_row <$> rs).
Proof.
  intros Hwf rs total. unfold results_embed.
  rewrite (collect_results_ok _ _ _ _ (wf_keys p Hwf)). rewrite app_nil_l.
  cbn [result_bind]. fold rs. fold total.
  destruct (Z.ltb_spec 0 total) as [Htot|Htot].
  - assert (Hne : rs.*2 <> []).
    { intros Hnil. apply fmap_nil_inv in Hnil.
      assert (Hopts : options p = []).
      { destruct (options p) as [|o l] eqn:Ho; [done|].
        unfold rs, results_from in Hnil. rewrite ?Ho in Hnil. done. }
      destruct Hwf as [Hd _]. rewrite Hopts in Hd. apply dom_empty_inv_L in Hd.
      unfold total in Htot. rewrite Hd in Htot. unfold sum_votes in Htot.
      rewrite map_fold_empty in Htot. lia. }
    destruct (py_max_spec _ Hne) as (m & -> & Hin & Hmax). cbn [result_bind].
    unfold total in *.
    destruct (add_result_fields_ok winner_name (votes p)
                (filter (fun r => r.2 = m) rs) (new_results_embed p) Htot)
      as (ws & -> & Hws).
    { intros r Hr. apply list_elem_of_filter in Hr as [_ Hr]. by apply results_from_keys. }
    cbn [result_bind].
    destruct (add_result_fields_ok option_name (votes p)
                (filter (fun r => r.2 <> m) rs)
                (append_fields (new_results_embed p) ws) Htot)
      as (os & -> & Hos).
    { intros r Hr. apply list_elem_of_filter in Hr as [_ Hr]. by apply results_from_keys. }
    cbn [result_bind]. rewrite append_fields_app.
    exists (ws ++ os). split; [reflexivity|]. split; [|lia].
    intros _. exists m, ws, os. done.
  - cbn [result_bind]. rewrite add_empty_fields_eq. eexists. split; [reflexivity|].
    split; [lia|done].
Qed.

Lemma results_embed_ok p : poll_wf p -> exists embed, results_embed p = Ok embed.
Proof. intros Hwf. destruct (results_embed_rows p Hwf) as (fs & -> & _). eauto. Qed.

(** ** The claims about closure *)

Lemma Forall2_impl_l {A B} (P : A -> Prop) (R R' : A -> B -> Prop) l k :
  Forall P l -> Forall2 R l k -> (forall x y, P x -> R x y -> R' x y) -> Forall2 R' l k.
Proof.
  intros HP HR Himpl. induction HR as [|x y l k Hxy HR IH]; [constructor|].
  apply Forall_cons in HP as [Hx HP]. constructor; auto.
Qed.

(** C5. When a poll with votes is closed, the fields of the options whose
    vote count is the maximum come first, all of them when several tie,
    each named with the trophy mark and "Winning Option:" before the option;
    the fields of the other options follow, named "Option i+1:" before the
    option; every field shows the bar, the count and the percentage of its
    option.  When nobody voted, every option is listed as "Option i+1:"
    with "0 votes (0.0%)".  No winner's name is the name of a numbered
    option.  With 1, 2 and 2 votes the second and third options are listed
    as winners at 40.0%, before the first at 20.0%. *)
Theorem closure_lists_winners_first p :
  poll_wf p ->
  let votes_of := fun j : nat => Z.of_nat (size (default ∅ (votes p !! Z.of_nat j))) in
  let n := length (options p) in
  let total := foldr Z.add 0 (votes_of <$> seq 0 n) in
  let rs := imap (fun j option => (Z.of_nat j, option, votes_of j)) (options p) in
  let shows := fun (votes : Z) (text : pystr) =>
    exists q x k,
      int_truediv votes total = Ok q /\
      truediv_int (PyFloat (float_mul q (float_of_int 100))) 10 = Ok x /\
      float_floor x = Ok k /\ 0 <= k <= 10 /\
      text = concat (replicate (Z.to_nat k) [8218; 241; 224]%N) ++
             concat (replicate (Z.to_nat (10 - k)) [8218; 241; 235]%N) ++
             str " " ++ str_of_int votes ++ str " votes (" ++
             format_1f (PyFloat (float_mul q (float_of_int 100))) ++ str "%)" in
  exists embed,
    results_embed p = Ok embed /\
    (0 < total ->
     exists max_votes ws os,
       (exists j, (j < n)%nat /\ votes_of j = max_votes) /\
       (forall j, (j < n)%nat -> votes_of j <= max_votes) /\
       embed_fields embed = ws ++ os /\
       Forall2 (fun r f =>
                  name f = [63743; 252; 232; 220]%N ++ str " Winning Option: " ++ r.1.2 /\
                  shows r.2 (value f) /\ inline f = false)
         (filter (fun r => r.2 = max_votes) rs) ws /\
       Forall2 (fun r f =>
                  name f = str "Option " ++ str_of_int (r.1.1 + 1) ++ str ": " ++ r.1.2 /\
                  shows r.2 (value f) /\ inline f = false)
         (filter (fun r => r.2 <> max_votes) rs) os) /\
    (total = 0 ->
     embed_fields embed =
       imap (fun j option =>
               {| name := str "Option " ++ str_of_int (Z.of_nat j + 1) ++ str ": " ++ option;
                  value := str "0 votes (0.0%)"; inline := false |}) (options p)) /\
    (forall o j o',
       [63743; 252; 232; 220]%N ++ str " Winning Option: " ++ o <>
       str "Option " ++ str_of_int (j + 1) ++ str ": " ++ o') /\
    (forall o1 o2 o3 s1 s2 s3,
       options p = [o1; o2; o3] ->
       votes p !! 0 = Some s1 -> votes p !! 1 = Some s2 -> votes p !! 2 = Some s3 ->
       size s1 = 1%nat -> size s2 = 2%nat -> size s3 = 2%nat ->
       embed_fields embed =
         [{| name := [63743; 252; 232; 220]%N ++ str " Winning Option: " ++ o2;
             value := concat (replicate 4 [8218; 241; 224]%N) ++
                      concat (replicate 6 [8218; 241; 235]%N) ++
                      str " 2 votes (40.0%)"; inline := false |};
          {| name := [63743; 252; 232; 220]%N ++ str " Winning Option: " ++ o3;
             value := concat (replicate 4 [8218; 241; 224]%N) ++
                      concat (replicate 6 [8218; 241; 235]%N) ++
                      str " 2 votes (40.0%)"; inline := false |};
          {| name := str "Option 1: " ++ o1;
             value := concat (replicate 2 [8218; 241; 224]%N) ++
                      concat (replicate 8 [8218; 241; 235]%N) ++
                      str " 1 votes (20.0%)"; inline := false |}]).
Proof.
  intros Hwf votes_of n total rs shows.
  destruct (results_embed_rows p Hwf) as (fs & -> & Hpos & Hzero).
  rewrite (sum_votes_by_index _ _ (proj1 Hwf)) in Hpos, Hzero.
  change (total_by_index (votes p) (length (options p))) with total in Hpos, Hzero.
  change (results_from (votes p) 0 (options p)) with rs in Hpos, Hzero.
  assert (Hkeys : forall r, r ∈ rs -> exists s, votes p !! r.1.1 = Some s /\ r.2 = len s).
  { intros r Hr. destruct (results_from_keys p r Hwf Hr) as ([s Hs] & Hn).
    exists s. split; [done|]. rewrite Hn. unfold count. by rewrite Hs. }
  assert (Hrow : forall field_name r f,
             (exists s, votes p !! r.1.1 = Some s /\ r.2 = len s) ->
             0 < total ->
             tally_row field_name (votes p) total r.1.1 r.1.2 f ->
             name f = field_name r.1.1 r.1.2 /\ shows r.2 (value f) /\ inline f = false).
  { intros field_name r f (s & Hs & Hn) Htot (s' & pct & x & k & Hs' & Hp & Hx & Hk & Hk10 & ->).
    rewrite Hs in Hs'. injection Hs' as <-. rewrite <- Hn in *.
    unfold percentage_of in Hp.
    replace (0 <? total) with true in Hp by (symmetry; apply Z.ltb_lt; lia).
    destruct (int_truediv r.2 total) as [q|] eqn:Hq; [|discriminate]. injection Hp as <-.
    split; [reflexivity|]. split; [|reflexivity].
    exists q, x, k. repeat (split; [done|]). cbn [value]. unfold tally_text, bar, str_mul.
    by rewrite <- !app_assoc. }
  eexists. split; [reflexivity|].
  cbn [set_footer append_fields embed_fields new_results_embed]. rewrite app_nil_l.
  split; [|split; [|split]].
  - intros Htot. destruct (Hpos Htot) as (m & ws & os & Hin & Hmax & -> & Hws & Hos).
    exists m, ws, os. split; [|split; [|split; [reflexivity|split]]].
    + apply list_elem_of_fmap in Hin as (r & -> & Hr).
      apply elem_of_lookup_imap in Hr as (j & o & -> & Ho).
      exists j. split; [by apply lookup_lt_Some in Ho|reflexivity].
    + intros j Hj. apply Hmax. destruct (lookup_lt_is_Some_2 (options p) j Hj) as [o Ho].
      apply list_elem_of_fmap. exists (Z.of_nat j, o, votes_of j). split; [reflexivity|].
      apply elem_of_lookup_imap. eauto.
    + eapply (Forall2_impl_l (fun r => r ∈ rs)); [|exact Hws|].
      * apply Forall_forall. intros r Hr. by apply list_elem_of_filter in Hr as [_ Hr].
      * intros r f Hr Hf. exact (Hrow winner_name r f (Hkeys r Hr) Htot Hf).
    + eapply (Forall2_impl_l (fun r => r ∈ rs)); [|exact Hos|].
      * apply Forall_forall. intros r Hr. by apply list_elem_of_filter in Hr as [_ Hr].
      * intros r f Hr Hf. exact (Hrow option_name r f (Hkeys r Hr) Htot Hf).
  - intros Htot. rewrite (Hzero Htot). unfold rs. rewrite fmap_imap. reflexivity.
  - intros o j o'. simpl. discriminate.
  - intros o1 o2 o3 s1 s2 s3 Hopts H1 H2 H3 Hn1 Hn2 Hn3.
    assert (Hrs : rs = [(0, o1, 1); (1, o2, 2); (2, o3, 2)]).
    { unfold rs, votes_of. rewrite Hopts. cbn [imap compose]. 
      change (Z.of_nat 0) with 0. change (Z.of_nat 1) with 1. change (Z.of_nat 2) with 2.
      rewrite H1, H2, H3. cbn [from_option id]. rewrite Hn1, Hn2, Hn3. reflexivity. }
    assert (Htot : total = 5).
    { unfold total, n, votes_of. rewrite Hopts. cbn [length seq fmap list_fmap foldr].
      change (Z.of_nat 0) with 0. change (Z.of_nat 1) with 1. change (Z.of_nat 2) with 2.
      rewrite H1, H2, H3. cbn [from_option id]. rewrite Hn1, Hn2, Hn3. reflexivity. }
    destruct (Hpos ltac:(lia)) as (m & ws & os & Hin & Hmax & -> & Hws & Hos).
    rewrite Hrs in Hin, Hmax, Hws, Hos. rewrite Htot in Hws, Hos.
    assert (Hm : m = 2).
    { assert (2 <= m) by (apply Hmax; set_solver).
      cbn [fmap list_fmap snd] in Hin. set_solver by lia. }
    subst m.
    change (filter (fun r : Z * pystr * Z => r.2 = 2) [(0, o1, 1); (1, o2, 2); (2, o3, 2)])
      with [(1, o2, 2); (2, o3, 2)] in Hws.
    change (filter (fun r : Z * pystr * Z => r.2 <> 2) [(0, o1, 1); (1, o2, 2); (2, o3, 2)])
      with [(0, o1, 1)] in Hos.
    apply Forall2_cons_inv_l in Hws as (g2 & ws' & Hg2 & Hws & ->).
    apply Forall2_cons_inv_l in Hws as (g3 & ws'' & Hg3 & Hws & ->).
    apply Forall2_nil_inv_l in Hws as ->.
    apply Forall2_cons_inv_l in Hos as (g1 & os' & Hg1 & Hos & ->).
    apply Forall2_nil_inv_l in Hos as ->.
    destruct Hg1 as (t1 & pct1 & x1 & k1 & Ht1 & Hp1 & Hx1 & Hk1 & _ & ->).
    destruct Hg2 as (t2 & pct2 & x2 & k2 & Ht2 & Hp2 & Hx2 & Hk2 & _ & ->).
    destruct Hg3 as (t3 & pct3 & x3 & k3 & Ht3 & Hp3 & Hx3 & Hk3 & _ & ->).
    cbn [fst snd] in *.
    rewrite H1 in Ht1. rewrite H2 in Ht2. rewrite H3 in Ht3.
    injection Ht1 as <-. injection Ht2 as <-. injection Ht3 as <-.
    unfold len in *. rewrite Hn1 in *. rewrite Hn2 in *. rewrite Hn3 in *.
    vm_compute in Hp1. injection Hp1 as <-. vm_compute in Hx1. injection Hx1 as <-.
    vm_compute in Hk1. injection Hk1 as <-.
    vm_compute in Hp2. injection Hp2 as <-. vm_compute in Hx2. injection Hx2 as <-.
    vm_compute in Hk2. injection Hk2 as <-.
    vm_compute in Hp3. injection Hp3 as <-. vm_compute in Hx3. injection Hx3 as <-.
    vm_compute in Hk3. injection Hk3 as <-.
    vm_compute. reflexivity.
Qed.

(** C6. Closing a registered poll removes it from the registry whatever
    the platform does with the results: a failed call is caught and
    printed.  From then on closing it again, by hand or by the timer, does
    nothing, and a vote on it changes no poll and is answered with "This
    poll has already ended!". *)
Theorem closure_is_final platform message_id b p :
  active_polls b !! message_id = Some p ->
  poll_wf p ->
  exists embed b',
    results_embed p = Ok embed /\
    end_poll platform message_id b = (Ok tt, b') /\
    active_polls b' = delete message_id (active_polls b) /\
    trace b' = trace b ++ closure_trace platform p message_id embed /\
    (platform (FetchMessage (channel_id p) message_id)
     && platform (EditResults message_id embed)
     && platform (ChannelSend (channel_id p) embed) = false ->
     last (trace b') = Some (Print HTTPException)) /\
    (forall platform', end_poll platform' message_id b' = (Ok tt, b')) /\
    (forall platform' duration,
       end_poll_timer platform' message_id duration b' = (Ok tt, b')) /\
    (forall platform' option_id ix now,
       ix_message_id ix = message_id ->
       exists r b'',
         callback platform' option_id ix now (Some b') = (r, Some b'') /\
         active_polls b'' = active_polls b' /\
         (platform' (SendMessage ix (str "This poll has already ended!")) = true ->
          r = Ok tt /\
          trace b'' = trace b' ++ [SendMessage ix (str "This poll has already ended!")]) /\
         (platform' (SendMessage ix (str "This poll has already ended!")) = false ->
          r = Raise HTTPException /\ b'' = b')).
Proof.
  intros Hp Hwf. destruct (results_embed_ok p Hwf) as (embed & He).
  rewrite (end_poll_registered _ _ _ _ Hp), He.
  eexists embed, _. split; [reflexivity|]. split; [reflexivity|].
  cbn [active_polls trace]. split; [reflexivity|]. split; [reflexivity|].
  assert (Hgone : delete message_id (active_polls b) !! message_id = None)
    by apply lookup_delete_eq.
  split; [|split; [|split]].
  - unfold closure_trace. intros Hfail.
    destruct (platform (FetchMessage _ _)); simpl in Hfail;
      [destruct (platform (EditResults _ _)); simpl in Hfail;
       [destruct (platform (ChannelSend _ _)); [done|]|]|];
      by rewrite last_app.
  - intros pf'. by apply end_poll_unregistered.
  - intros pf' dur. rewrite end_poll_timer_eq. by apply end_poll_unregistered.
  - intros pf' oid ix now Hix. unfold callback.
    rewrite callback_on_unregistered by (by rewrite Hix).
    unfold call, emit, lift.
    destruct (pf' (SendMessage _ _)); eexists _, _; (split; [reflexivity|]);
      cbn [active_polls trace]; (split; [reflexivity|]); split; intros; done.
Qed.

(** ** The claim about creation *)

(** C4, amended. The command answers "At least 2 options required!" when
    the option list has fewer than 2 entries and "Maximum 10 options
    allowed!" when it has more than 10, and registers no poll then.  With 2
    to 10 entries it sends neither answer, whether or not an entry is
    empty once trimmed; when the end time is a date and the platform
    publishes the poll, the poll is registered under the identifier of the
    published message, with the trimmed entries as options and an empty
    vote set for each. *)
Theorem create_poll_validation platform ix title options duration multiple now now' b :
  let option_list := strip <$> str_split comma options in
  let n := length option_list in
  let rb := create_poll platform ix title options duration multiple now now' b in
  ((n < 2)%nat ->
   rb = call platform (SendMessage ix (str "At least 2 options required!")) b) /\
  ((10 < n)%nat ->
   rb = call platform (SendMessage ix (str "Maximum 10 options allowed!")) b) /\
  ((n < 2)%nat \/ (10 < n)%nat -> active_polls rb.2 = active_polls b) /\
  ((2 <= n <= 10)%nat ->
   (exists evs, trace rb.2 = trace b ++ evs /\ forall ix' c, SendMessage ix' c ∉ evs) /\
   forall td end_time,
     timedelta_minutes duration = Ok td ->
     datetime_add now td = Ok end_time ->
     datetime_ok now' = true ->
     let poll :=
       {| title := title; options := option_list; votes := empty_votes n;
          multiple := multiple; author_id := ix_user_id ix;
          end_time := end_time; channel_id := ix_channel_id ix |} in
     exists embed,
       create_poll_embed poll now' = Ok embed /\
       (platform (SendPoll ix embed (new_PollView option_list multiple)) = true ->
        platform (OriginalResponse ix) = true ->
        rb = (Ok tt,
              {| active_polls := <[ix_message_id ix := poll]> (active_polls b);
                 trace := trace b ++
                          [SendPoll ix embed (new_PollView option_list multiple);
                           OriginalResponse ix;
                           CreateTask (ix_message_id ix) duration] |}))).
Proof.
  intros option_list n rb. unfold rb, create_poll. fold option_list. fold n.
  destruct (Nat.ltb_spec n 2) as [Hlo|Hlo].
  { split; [done|]. split; [lia|]. split; [intros _; apply call_polls|lia]. }
  destruct (Nat.ltb_spec 10 n) as [Hhi|Hhi].
  { split; [lia|]. split; [done|]. split; [intros _; apply call_polls|lia]. }
  split; [lia|]. split; [lia|]. split; [lia|]. intros _. split.
  - unfold call, bind, lift, get_polls, put_polls, emit.
    destruct (timedelta_minutes duration) as [td|e];
      [|exists []; split; [by rewrite app_nil_r|set_solver]].
    destruct (datetime_add now td) as [end_time|e];
      [|exists []; split; [by rewrite app_nil_r|set_solver]].
    destruct (create_poll_embed _ now') as [embed|e];
      [|exists []; split; [by rewrite app_nil_r|set_solver]].
    destruct (platform (SendPoll _ _ _));
      [|exists []; split; [by rewrite app_nil_r|set_solver]].
    cbn [fst snd active_polls trace].
    destruct (platform (OriginalResponse _)).
    + eexists [_; _; _]. cbn [fst snd active_polls trace]. split.
      * rewrite <- !app_assoc. reflexivity.
      * intros ix' c Hin. repeat (apply elem_of_cons in Hin as [Hin|Hin]; [done|]).
        by apply elem_of_nil in Hin.
    + eexists [_]. cbn [fst snd active_polls trace]. split; [reflexivity|].
      intros ix' c Hin. repeat (apply elem_of_cons in Hin as [Hin|Hin]; [done|]).
      by apply elem_of_nil in Hin.
  - intros td end_time Htd Hend Hnow'.
    set (poll := {| title := title; options := option_list; votes := empty_votes n;
                    multiple := multiple; author_id := ix_user_id ix;
                    end_time := end_time; channel_id := ix_channel_id ix |}).
    assert (Hwf : poll_wf poll).
    { unfold poll, n. apply poll_wf_created. unfold datetime_add in Hend.
      destruct (datetime_ok (now + td)) eqn:Hok; [|done]. by injection Hend as <-. }
    destruct (create_poll_embed_ok poll now' Hwf Hnow') as (embed & He).
    exists embed. split; [exact He|]. intros Hsend Horig.
    unfold call, bind, lift, get_polls, put_polls, emit.
    rewrite Htd. cbv beta iota. rewrite Hend. cbv beta iota. fold poll.
    rewrite He. cbv beta iota. rewrite Hsend. cbn [fst snd active_polls trace].
    rewrite Horig. cbn [fst snd active_polls trace]. by rewrite <- !app_assoc.
Qed.

(** ** The claims at work on the example polls *)

Lemma lunch_bot_reachable : reachable lunch_bot.
Proof.
  exact (reachable_step _ _ reachable_initial
           (step_create initial always (lunch 7) (str "Lunch?") (str "Pizza, Salad")
              1 false noon noon)).
Defined.

Lemma callback_toggles_vote_witness :
  exists r b' p' embed,
    callback always 1 (lunch 7) noon (Some voted_bot) = (r, Some b') /\
    active_polls b' !! 100 = Some p' /\
    votes p' !! 0 = Some ∅ /\ votes p' !! 1 = Some {[7]} /\
    r = Ok tt /\
    trace b' = trace voted_bot ++
               [EditEmbed 100 embed; SendMessage (lunch 7) (str "You Voted for option 2!")].
Proof.
  destruct (callback_toggles_vote always 1 (lunch 7) noon voted_bot voted_poll)
    as (s & r & b' & p' & embed & Hs & Hc & Hpolls & _ & _ & _ & Hsingle & He & Hreply).
  - vm_compute. reflexivity.
  - split; vm_compute; reflexivity.
  - simpl. lia.
  - reflexivity.
  - assert (Hs' : s = ∅).
    { assert (H : votes voted_poll !! 1 = Some ∅) by (vm_compute; reflexivity).
      rewrite H in Hs. by injection Hs. }
    subst s. cbn [lunch ix_user_id ix_message_id] in *.
    destruct Hsingle as (H1 & H0 & _); [apply not_elem_of_empty | reflexivity |].
    exists r, b', p', embed. split; [exact Hc|].
    split; [rewrite Hpolls; apply lookup_insert_eq|].
    split; [rewrite (H0 0 {[7]}); [f_equal; set_solver | lia | vm_compute; reflexivity]|].
    split; [rewrite H1; f_equal; set_solver|].
    cbv zeta in Hreply. rewrite decide_False in Hreply by apply not_elem_of_empty.
    apply Hreply; reflexivity.
Defined.

Lemma callback_rejects_unknown_option_witness :
  callback always 2 (lunch 7) noon (Some lunch_bot) = (Raise (KeyError 2), Some lunch_bot) /\
  callback always (-1) (lunch 7) noon (Some lunch_bot) = (Raise (KeyError (-1)), Some lunch_bot).
Proof.
  split.
  - apply (callback_rejects_unknown_option always 2 (lunch 7) noon lunch_bot lunch_poll).
    + vm_compute. reflexivity.
    + split; vm_compute; reflexivity.
    + simpl. lia.
  - apply (callback_rejects_unknown_option always (-1) (lunch 7) noon lunch_bot lunch_poll).
    + vm_compute. reflexivity.
    + split; vm_compute; reflexivity.
    + simpl. lia.
Defined.

Lemma callback_frame_witness :
  exists r b' p',
    callback always 1 (lunch 8) noon (Some lunch_bot) = (r, Some b') /\
    active_polls b' !! 100 = Some p' /\
    options p' = [str "Pizza"; str "Salad"] /\ end_time p' = noon + us_per_minute /\
    dom (votes p') = indices 2.
Proof.
  destruct (callback_frame always 1 (lunch 8) noon lunch_bot lunch_poll)
    as (r & b' & p' & Hc & Hp' & _ & Ho & _ & _ & He & _ & Hd & _).
  - vm_compute. reflexivity.
  - split; vm_compute; reflexivity.
  - exists r, b', p'. split; [exact Hc|]. split; [exact Hp'|].
    split; [exact Ho|]. split; [exact He|]. rewrite Ho in Hd. exact Hd.
Defined.

Lemma single_choice_exclusive_witness :
  exclusive (votes lunch_poll) /\
  exists r b'' p'' sA sB,
    callback always 1 (lunch 7) noon (callback always 0 (lunch 7) noon (Some lunch_bot)).2
      = (r, Some b'') /\
    active_polls b'' !! 100 = Some p'' /\
    votes p'' !! 0 = Some sA /\ votes p'' !! 1 = Some sB /\ 7 ∈ sB /\ 7 ∉ sA.
Proof.
  destruct (single_choice_exclusive lunch_bot (lunch 7) lunch_poll) as [Hex Hab].
  - exact lunch_bot_reachable.
  - vm_compute. reflexivity.
  - reflexivity.
  - split; [exact Hex|]. apply (Hab always always noon noon 0 1); simpl; lia.
Defined.

Lemma double_toggle_witness :
  exists r b'' p'',
    callback always 0 (lunch 7) noon (callback always 0 (lunch 7) noon (Some lunch_bot)).2
      = (r, Some b'') /\
    active_polls b'' !! 100 = Some p'' /\
    votes p'' = votes lunch_poll.
Proof.
  destruct (double_toggle always always 0 (lunch 7) noon noon lunch_bot lunch_poll)
    as (r & b'' & p'' & s & Hc & Hp'' & _ & _ & Hiff).
  - vm_compute. reflexivity.
  - split; vm_compute; reflexivity.
  - simpl. lia.
  - exists r, b'', p''. split; [exact Hc|]. split; [exact Hp''|].
    apply Hiff. right. intros j t _ Hj. apply lookup_empty_votes in Hj. subst t.
    apply not_elem_of_empty.
Defined.

(** C3 as stated fails: voter 7 holds a vote on the first option of a
    single-choice poll and votes twice for the second one; the vote on the
    first option is gone. *)
Lemma double_toggle_counterexample :
  exists p r b'' p'',
    reachable voted_bot /\
    active_polls voted_bot !! 100 = Some p /\
    callback always 1 (lunch 7) noon (callback always 1 (lunch 7) noon (Some voted_bot)).2
      = (r, Some b'') /\
    active_polls b'' !! 100 = Some p'' /\
    7 ∈ default ∅ (votes p !! 0) /\ (7 ∉ default ∅ (votes p'' !! 0)) /\
    votes p'' <> votes p.
Proof.
  eexists _, _, _, _. split.
  { exact (reachable_step _ _ lunch_bot_reachable
             (step_vote lunch_bot always 0 (lunch 7) noon)). }
  split; [vm_compute; reflexivity|]. split; [vm_compute; reflexivity|].
  split; [vm_compute; reflexivity|].
  assert (Hin : 7 ∈ default (∅ : gset Z)
                  ((<[0 := {[7]}]> (<[1 := ∅]> (∅ : gmap Z (gset Z)))) !! 0)).
  { rewrite lookup_insert_eq. simpl. by apply elem_of_singleton. }
  assert (Hout : 7 ∉ default (∅ : gset Z)
                   ((<[0 := ∅]> (<[1 := ∅]> (∅ : gmap Z (gset Z)))) !! 0)).
  { rewrite lookup_insert_eq. simpl. apply not_elem_of_empty. }
  split; [exact Hin|]. split; [exact Hout|].
  intros Heq. apply Hout.
  change (7 ∈ default (∅ : gset Z)
            ((<[0 := {[7]}]> (<[1 := ∅]> (∅ : gmap Z (gset Z)))) !! 0)) in Hin.
  vm_compute in Heq. vm_compute. vm_compute in Hin. congruence.
Qed.

Lemma create_poll_validation_witness :
  exists embed,
    create_poll always (lunch 7) (str "Lunch?") (str "Pizza, Salad") 1 false noon noon initial
    = (Ok tt,
       {| active_polls := <[100 := lunch_poll]> ∅;
          trace := [SendPoll (lunch 7) embed
                      (new_PollView [str "Pizza"; str "Salad"] false);
                    OriginalResponse (lunch 7); CreateTask 100 1] |}) /\
    create_poll always (lunch 7) (str "Lunch?") (str "Pizza") 1 false noon noon initial
    = call always (SendMessage (lunch 7) (str "At least 2 options required!")) initial.
Proof.
  destruct (create_poll_validation always (lunch 7) (str "Lunch?") (str "Pizza, Salad")
              1 false noon noon initial) as (_ & _ & _ & Hacc).
  destruct Hacc as [_ Hreg]; [vm_compute; lia|].
  destruct (Hreg us_per_minute (noon + us_per_minute)) as (embed & _ & Hrb);
    [reflexivity|reflexivity|reflexivity|].
  exists embed. split; [exact (Hrb eq_refl eq_refl)|].
  destruct (create_poll_validation always (lunch 7) (str "Lunch?") (str "Pizza")
              1 false noon noon initial) as (Hlow & _).
  apply Hlow. vm_compute. lia.
Defined.

(** C4 as stated fails: the second of three entries is empty once trimmed,
    and the poll is created and registered with it. *)
Lemma create_poll_validation_counterexample :
  strip <$> str_split comma (str "Pizza, ,Salad") = [str "Pizza"; []; str "Salad"] /\
  exists b' p,
    create_poll always (lunch 7) (str "Lunch?") (str "Pizza, ,Salad") 1 false noon noon initial
    = (Ok tt, b') /\
    active_polls b' !! 100 = Some p /\
    options p = [str "Pizza"; []; str "Salad"] /\
    forall ix c, SendMessage ix c ∉ trace b'.
Proof.
  split; [reflexivity|]. eexists _, _.
  split; [vm_compute; reflexivity|]. split; [vm_compute; reflexivity|].
  split; [reflexivity|].
  intros ix c Hin. cbn [trace] in Hin.
  repeat (apply elem_of_cons in Hin as [Hin|Hin]; [discriminate Hin|]).
  by apply elem_of_nil in Hin.
Qed.

Lemma closure_lists_winners_first_witness :
  exists embed,
    results_embed upset_poll = Ok embed /\
    embed_fields embed =
      [{| name := [63743; 252; 232; 220]%N ++ str " Winning Option: Salad";
          value := concat (replicate 4 [8218; 241; 224]%N) ++
                   concat (replicate 6 [8218; 241; 235]%N) ++
                   str " 2 votes (40.0%)"; inline := false |};
       {| name := [63743; 252; 232; 220]%N ++ str " Winning Option: Soup";
          value := concat (replicate 4 [8218; 241; 224]%N) ++
                   concat (replicate 6 [8218; 241; 235]%N) ++
                   str " 2 votes (40.0%)"; inline := false |};
       {| name := str "Option 1: Pizza";
          value := concat (replicate 2 [8218; 241; 224]%N) ++
                   concat (replicate 8 [8218; 241; 235]%N) ++
                   str " 1 votes (20.0%)"; inline := false |}].
Proof.
  destruct (closure_lists_winners_first upset_poll) as (embed & He & _ & _ & _ & Hex).
  - split; vm_compute; reflexivity.
  - exists embed. split; [exact He|].
    apply (Hex (str "Pizza") (str "Salad") (str "Soup") {[11]} {[12; 13]} {[14; 15]});
      vm_compute; reflexivity.
Defined.

Lemma closure_is_final_witness :
  exists b',
    end_poll always 100 lunch_bot = (Ok tt, b') /\
    active_polls b' = delete 100 (active_polls lunch_bot) /\
    end_poll always 100 b' = (Ok tt, b').
Proof.
  destruct (closure_is_final always 100 lunch_bot lunch_poll)
    as (embed & b' & _ & Hend & Hpolls & _ & _ & Hagain & _).
  - vm_compute. reflexivity.
  - split; vm_compute; reflexivity.
  - exists b'. split; [exact Hend|]. split; [exact Hpolls|]. apply Hagain.
Defined.

Lemma tally_rendering_witness :
  exists e,
    create_poll_embed split_poll noon = Ok e /\
    embed_fields e =
      [{| name := str "Pizza";
          value := concat (replicate 7 [8218; 241; 224]%N) ++
                   concat (replicate 3 [8218; 241; 235]%N) ++
                   str " 3 votes (75.0%)"; inline := false |};
       {| name := str "Salad";
          value := concat (replicate 2 [8218; 241; 224]%N) ++
                   concat (replicate 8 [8218; 241; 235]%N) ++
                   str " 1 votes (25.0%)"; inline := false |}].
Proof.
  destruct (tally_rendering split_poll noon) as (e & He & _ & _ & Hex).
  - split; vm_compute; reflexivity.
  - reflexivity.
  - exists e. split; [exact He|].
    apply (Hex (str "Pizza") (str "Salad") {[11; 12; 13]} {[14]});
      vm_compute; reflexivity.
Defined.

Lemma remaining_time_truncates_witness :
  exists e k,
    create_poll_embed lunch_poll noon = Ok e /\
    embed_footer e = Some (str "Time remaining: " ++ str_of_int k ++ str " minutes") /\
    0 <= k.
Proof.
  destruct (remaining_time_truncates lunch_poll noon)
    as (e & s & q & k & He & Hfoot & _ & _ & _ & Hfuture & _).
  - split; vm_compute; reflexivity.
  - reflexivity.
  - exists e, k. split; [exact He|]. split; [exact Hfoot|].
    apply Hfuture. vm_compute. discriminate.
Defined.

(** C9 as stated fails: thirty seconds after the end time the quotient is
    minus one half; its floor is minus one, and the footer shows 0. *)
Lemma remaining_time_truncates_counterexample :
  let now := end_time lunch_poll + 30 * us_per_second in
  datetime_ok now = true /\
  minutes_left (end_time lunch_poll) now = Ok 0 /\
  (end_time lunch_poll - now) / us_per_minute = -1 /\
  exists e, create_poll_embed lunch_poll now = Ok e /\
            embed_footer e = Some (str "Time remaining: 0 minutes").
Proof.
  cbv zeta. split; [reflexivity|]. split; [vm_compute; reflexivity|].
  split; [reflexivity|]. eexists. split; vm_compute; reflexivity.
Qed.

(** * Further properties of the code *)

(** ** Decimal texts and buttons *)

Lemma uint_digits_inj u v : uint_digits u = uint_digits v -> u = v.
Proof.
  revert v. induction u as [|u IH|u IH|u IH|u IH|u IH|u IH|u IH|u IH|u IH|u IH];
    intros [|v|v|v|v|v|v|v|v|v|v] H; simpl in H; try discriminate H;
    try reflexivity; injection H as H; f_equal; by apply IH.
Qed.

Lemma pos_to_uint_inj p q : Pos.to_uint p = Pos.to_uint q -> p = q.
Proof.
  intros H. pose proof (Unsigned.of_to p) as Hp. pose proof (Unsigned.of_to q) as Hq.
  rewrite H in Hp. rewrite Hp in Hq. by injection Hq.
Qed.

Lemma uint_digits_head u c s : uint_digits u = c :: s -> (48 <= c <= 57)%N.
Proof. destruct u; simpl; intros H; try discriminate H; injection H as <- _; lia. Qed.

Lemma str_of_int_inj a b : str_of_int a = str_of_int b -> a = b.
Proof.
  assert (Hzero : forall p, uint_digits (Pos.to_uint p) <> str "0").
  { intros p H. change (str "0") with (uint_digits (Decimal.D0 Decimal.Nil)) in H.
    apply uint_digits_inj in H. pose proof (Unsigned.of_to p) as Hp.
    rewrite H in Hp. discriminate Hp. }
  assert (Hminus : forall p q, uint_digits (Pos.to_uint p) <> str "-" ++ uint_digits (Pos.to_uint q)).
  { intros p q H. change (str "-") with [45%N] in H. apply uint_digits_head in H. lia. }
  destruct a as [|p|p], b as [|q|q]; simpl; intros H; try reflexivity.
  - symmetry in H. by apply Hzero in H.
  - discriminate H.
  - by apply Hzero in H.
  - f_equal. by apply pos_to_uint_inj, uint_digits_inj.
  - by apply Hminus in H.
  - discriminate H.
  - symmetry in H. by apply Hminus in H.
  - injection H as H. f_equal. by apply pos_to_uint_inj, uint_digits_inj.
Qed.

Lemma add_buttons_imap i opts items :
  add_buttons i opts items =
  items ++ imap (fun j o => {| option_id := i + Z.of_nat j; label := o;
                               custom_id := str "poll_" ++ str_of_int (i + Z.of_nat j) |}) opts.
Proof.
  revert i items. induction opts as [|o rest IH]; intros i items; simpl.
  - by rewrite app_nil_r.
  - rewrite IH, <- app_assoc. simpl. rewrite Z.add_0_r. do 2 f_equal.
    apply imap_ext. intros j x _. unfold compose.
    replace (i + 1 + Z.of_nat j) with (i + Z.of_nat (S j)) by lia. reflexivity.
Qed.

Lemma add_items_ok i opts v :
  (length (children v) + length opts <= 25)%nat ->
  add_items i opts v =
  Ok {| view_options := view_options v; view_multiple := view_multiple v;
        children := add_buttons i opts (children v) |}.
Proof.
  revert i v. induction opts as [|o rest IH]; intros i v Hlen; simpl in *.
  - by destruct v.
  - unfold add_item. replace (25 <=? length (children v))%nat with false
      by (symmetry; apply Nat.leb_gt; lia).
    cbn [result_bind]. rewrite IH; [reflexivity|].
    cbn [children]. rewrite length_app. simpl. lia.
Qed.

Lemma add_items_full i opts v :
  (25 < length (children v) + length opts)%nat -> (length (children v) <= 25)%nat ->
  add_items i opts v = Raise ValueError.
Proof.
  revert i v. induction opts as [|o rest IH]; intros i v Hlen Hv; simpl in *; [lia|].
  unfold add_item. destruct (Nat.leb_spec 25 (length (children v))) as [Hfull|Hroom].
  - reflexivity.
  - cbn [result_bind]. apply IH; cbn [children]; rewrite length_app; simpl; lia.
Qed.

(** X1. [PollView.__init__] gives the view one button per option, in the
    order of the options, as long as there are at most 25 of them: the
    button of the option at position [j] carries the index [j], the option
    as its label and the identifier poll_j, no two buttons of a view share
    an identifier, and the view is the one which [create_poll] sends.  With
    more than 25 options the constructor raises ValueError, which is what
    [add_item] does for the 26th child. *)
Theorem poll_view_buttons opts mult :
  ((length opts <= 25)%nat ->
   exists v,
     PollView_init opts mult = Ok v /\ v = new_PollView opts mult /\
     view_options v = opts /\ view_multiple v = mult /\
     length (children v) = length opts /\
     (forall j o, opts !! j = Some o ->
        children v !! j =
          Some {| option_id := Z.of_nat j; label := o;
                  custom_id := str "poll_" ++ str_of_int (Z.of_nat j) |}) /\
     NoDup (custom_id <$> children v)) /\
  ((25 < length opts)%nat -> PollView_init opts mult = Raise ValueError).
Proof.
  split.
  - intros Hlen. exists (new_PollView opts mult).
    split; [|split; [reflexivity|split; [reflexivity|split; [reflexivity|]]]].
    { unfold PollView_init. rewrite add_items_ok by (simpl; lia). reflexivity. }
    unfold new_PollView. cbn [children]. rewrite add_buttons_imap, app_nil_l.
    split; [by rewrite length_imap|]. split.
    + intros j o Hj. rewrite list_lookup_imap, Hj. reflexivity.
    + apply NoDup_alt. intros i j x Hi Hj.
      rewrite list_lookup_fmap, list_lookup_imap in Hi, Hj.
      destruct (opts !! i) as [oi|]; [|discriminate].
      destruct (opts !! j) as [oj|]; [|discriminate].
      cbn [fmap option_fmap option_map custom_id] in Hi, Hj.
      assert (Heq : str "poll_" ++ str_of_int (0 + Z.of_nat i) =
                    str "poll_" ++ str_of_int (0 + Z.of_nat j)) by congruence.
      apply app_inv_head, str_of_int_inj in Heq. lia.
  - intros Hlen. unfold PollView_init. apply add_items_full; simpl; lia.
Qed.

Lemma poll_view_buttons_witness :
  (exists v,
     PollView_init [str "Pizza"; str "Salad"] false = Ok v /\
     children v = [{| option_id := 0; label := str "Pizza"; custom_id := str "poll_0" |};
                   {| option_id := 1; label := str "Salad"; custom_id := str "poll_1" |}]) /\
  PollView_init (replicate 26 (str "x")) false = Raise ValueError.
Proof.
  destruct (poll_view_buttons [str "Pizza"; str "Salad"] false) as (Hok & _).
  destruct (poll_view_buttons (replicate 26 (str "x")) false) as (_ & Hfull).
  split.
  - destruct Hok as (v & Hv & -> & _); [simpl; lia|].
    exists (new_PollView [str "Pizza"; str "Salad"] false). split; [exact Hv | reflexivity].
  - apply Hfull. simpl. lia.
Defined.


(** ** Votes *)

(** What a vote does to the sets, whatever the index. *)
Lemma toggle_members d mult u i va :
  toggle d mult u i = Ok va ->
  exists s,
    d !! i = Some s /\
    (forall j, is_Some (va.1 !! j) <-> is_Some (d !! j)) /\
    (forall w j, w <> u ->
       w ∈ default ∅ (va.1 !! j) <-> w ∈ default ∅ (d !! j)) /\
    (u ∈ default ∅ (va.1 !! i) <-> u ∉ s) /\
    (mult = true -> forall j, j <> i -> va.1 !! j = d !! j) /\
    (mult = false -> u ∉ s -> forall j, j <> i -> u ∉ default ∅ (va.1 !! j)) /\
    (u ∈ s -> forall j, j <> i -> va.1 !! j = d !! j).
Proof.
  destruct (d !! i) as [s|] eqn:H; [|by rewrite toggle_absent].
  destruct (decide (u ∈ s)) as [Hu|Hu].
  - rewrite (toggle_retract _ _ _ _ _ H Hu). intros Heq. injection Heq as Heq.
    subst va. cbn [fst]. exists s. split; [done|]. split; [|split; [|split; [|split; [|split]]]].
    + intros j. destruct (decide (i = j)) as [<-|Hne].
      * rewrite lookup_insert_eq, H. split; eauto.
      * by rewrite lookup_insert_ne.
    + intros w j Hw. destruct (decide (i = j)) as [<-|Hne].
      * rewrite lookup_insert_eq, H. simpl. set_solver.
      * by rewrite lookup_insert_ne.
    + rewrite lookup_insert_eq. simpl. set_solver.
    + intros _ j Hne. by rewrite lookup_insert_ne.
    + done.
    + intros _ j Hne. by rewrite lookup_insert_ne.
  - rewrite (toggle_cast _ _ _ _ _ H Hu). intros Heq. injection Heq as Heq.
    subst va. cbn [fst]. exists s. split; [done|].
    destruct mult; (split; [|split; [|split; [|split; [|split]]]]); try done.
    + intros j. destruct (decide (i = j)) as [<-|Hne].
      * rewrite lookup_insert_eq, H. split; eauto.
      * by rewrite lookup_insert_ne.
    + intros w j Hw. destruct (decide (i = j)) as [<-|Hne].
      * rewrite lookup_insert_eq, H. simpl. set_solver.
      * by rewrite lookup_insert_ne.
    + rewrite lookup_insert_eq. simpl. set_solver.
    + intros _ j Hne. by rewrite lookup_insert_ne.
    + intros j. destruct (decide (i = j)) as [<-|Hne].
      * rewrite lookup_insert_eq, H. split; eauto.
      * rewrite lookup_insert_ne, lookup_fmap by done.
        destruct (d !! j); simpl; split; eauto.
    + intros w j Hw. destruct (decide (i = j)) as [<-|Hne].
      * rewrite lookup_insert_eq, H. simpl. unfold discard. set_solver.
      * rewrite lookup_insert_ne, lookup_fmap by done.
        destruct (d !! j); simpl; [|done]. unfold discard. set_solver.
    + rewrite lookup_insert_eq. simpl. set_solver.
    + intros _ _ j Hne. rewrite lookup_insert_ne, lookup_fmap by done.
      destruct (d !! j); simpl; [|set_solver]. unfold discard. set_solver.
Qed.

(** X2. A click on a button of a registered poll concerns the clicking user
    only: for every other user, membership in every vote set is as before;
    and when the option exists, the clicking user is in its vote set
    afterwards exactly when they were not in it before. *)
Theorem callback_concerns_one_voter platform option_id ix now b p :
  active_polls b !! ix_message_id ix = Some p ->
  exists r b' p',
    callback platform option_id ix now (Some b) = (r, Some b') /\
    active_polls b' !! ix_message_id ix = Some p' /\
    (forall w j, w <> ix_user_id ix ->
       w ∈ default ∅ (votes p' !! j) <-> w ∈ default ∅ (votes p !! j)) /\
    (forall s, votes p !! option_id = Some s ->
       ix_user_id ix ∈ default ∅ (votes p' !! option_id) <-> ix_user_id ix ∉ s).
Proof.
  intros Hp. unfold callback.
  pose proof (callback_on_polls platform option_id ix now b p Hp) as Hpolls.
  destruct (callback_on platform option_id ix now b) as [r b']. cbn [snd] in Hpolls.
  destruct (toggle (votes p) (multiple p) (ix_user_id ix) option_id) as [va|e] eqn:Ht.
  - destruct (toggle_members _ _ _ _ _ Ht) as (s & Hs & _ & Hothers & Hflip & _).
    exists r, b', (with_votes p va.1). split; [reflexivity|].
    split; [rewrite Hpolls; apply lookup_insert_eq|]. cbn [votes with_votes].
    split; [exact Hothers|]. intros s' Hs'. rewrite Hs in Hs'. by injection Hs' as <-.
  - exists r, b', p. split; [reflexivity|]. split; [by rewrite Hpolls|].
    split; [done|]. intros s Hs. exfalso.
    destruct (decide (ix_user_id ix ∈ s)) as [Hu|Hu].
    + by rewrite (toggle_retract _ _ _ _ _ Hs Hu) in Ht.
    + by rewrite (toggle_cast _ _ _ _ _ Hs Hu) in Ht.
Qed.

Lemma callback_concerns_one_voter_witness :
  exists r b' p',
    callback always 0 (lunch 7) noon (Some lunch_bot) = (r, Some b') /\
    active_polls b' !! 100 = Some p' /\
    7 ∈ default ∅ (votes p' !! 0) /\
    (8 ∈ default ∅ (votes p' !! 1) <-> 8 ∈ default ∅ (votes lunch_poll !! 1)).
Proof.
  destruct (callback_concerns_one_voter always 0 (lunch 7) noon lunch_bot lunch_poll)
    as (r & b' & p' & Hc & Hp & Hothers & Hflip).
  { vm_compute. reflexivity. }
  exists r, b', p'. split; [exact Hc|]. split; [exact Hp|]. split.
  - apply (Hflip ∅); [vm_compute; reflexivity | apply not_elem_of_empty].
  - apply Hothers. simpl. lia.
Defined.

(** X3. A click on an existing option of a registered poll changes the count
    of that option by exactly one: one less when the user had voted for it,
    one more otherwise, in single-choice and multiple-choice polls alike. *)
Theorem callback_changes_count_by_one platform option_id ix now b p s :
  active_polls b !! ix_message_id ix = Some p ->
  votes p !! option_id = Some s ->
  exists r b' p' s',
    callback platform option_id ix now (Some b) = (r, Some b') /\
    active_polls b' !! ix_message_id ix = Some p' /\
    votes p' !! option_id = Some s' /\
    len s' = if decide (ix_user_id ix ∈ s) then len s - 1 else len s + 1.
Proof.
  intros Hp Hs. set (u := ix_user_id ix).
  assert (exists va s', toggle (votes p) (multiple p) u option_id = Ok va /\
            va.1 !! option_id = Some s' /\
            len s' = if decide (u ∈ s) then len s - 1 else len s + 1)
    as (va & s' & Ht & Hs' & Hlen).
  { destruct (decide (u ∈ s)) as [Hu|Hu].
    - eexists _, _. split; [by apply toggle_retract|]. cbn [fst].
      split; [apply lookup_insert_eq|]. unfold len.
      rewrite size_difference by set_solver. rewrite size_singleton.
      assert (size s <> 0%nat) by (intros H0; apply size_empty_inv in H0; set_solver).
      lia.
    - rewrite (toggle_cast _ _ _ _ _ Hs Hu).
      assert (Hadd : forall t : gset Z, u ∉ t -> len (t ∪ {[u]}) = len t + 1).
      { intros t Ht. unfold len. rewrite size_union by set_solver.
        rewrite size_singleton. lia. }
      destruct (multiple p); eexists _, _; (split; [reflexivity|]); cbn [fst];
        (split; [apply lookup_insert_eq|]).
      + by apply Hadd.
      + replace (discard u s) with s by (unfold discard; set_solver). by apply Hadd. }
  destruct (callback_registered_polls platform option_id ix now b p va Hp Ht)
    as (r & b' & Hc & Hb').
  exists r, b', (with_votes p va.1), s'. split; [exact Hc|].
  split; [rewrite Hb'; apply lookup_insert_eq|]. split; [exact Hs'|exact Hlen].
Qed.

Lemma callback_changes_count_by_one_witness :
  exists r b' p' s',
    callback always 0 (lunch 7) noon (Some lunch_bot) = (r, Some b') /\
    active_polls b' !! 100 = Some p' /\
    votes p' !! 0 = Some s' /\ len s' = 1.
Proof.
  destruct (callback_changes_count_by_one always 0 (lunch 7) noon lunch_bot lunch_poll ∅)
    as (r & b' & p' & s' & Hc & Hp & Hs & Hlen).
  { vm_compute. reflexivity. }
  { vm_compute. reflexivity. }
  exists r, b', p', s'. repeat split; [exact Hc | exact Hp | exact Hs |].
  rewrite Hlen. rewrite decide_False by apply not_elem_of_empty. reflexivity.
Defined.

(** X4. [PollButton.callback] neither registers nor removes a poll: the
    message ids of [active_polls] are the same after it, whatever it returns
    or raises; and when the Poll cog is not loaded it returns at once, with no
    effect. *)
Theorem callback_keeps_registry_keys platform option_id ix now b :
  exists r b',
    callback platform option_id ix now (Some b) = (r, Some b') /\
    dom (active_polls b') = dom (active_polls b) /\
    callback platform option_id ix now None = (Ok tt, None).
Proof.
  unfold callback.
  destruct (active_polls b !! ix_message_id ix) as [p|] eqn:Hp.
  - pose proof (callback_on_polls platform option_id ix now b p Hp) as Hpolls.
    destruct (callback_on platform option_id ix now b) as [r b']. cbn [snd] in Hpolls.
    exists r, b'. split; [reflexivity|]. split; [|reflexivity]. rewrite Hpolls.
    destruct (toggle _ _ _ _); [|done]. rewrite dom_insert_L.
    assert (ix_message_id ix ∈ dom (active_polls b)) by (apply elem_of_dom; eauto).
    set_solver.
  - rewrite (callback_on_unregistered _ _ _ _ _ Hp).
    pose proof (call_polls platform (SendMessage ix (str "This poll has already ended!")) b) as Hc.
    destruct (call platform _ b) as [r b']. cbn [snd] in Hc.
    exists r, b'. split; [reflexivity|]. split; [by rewrite Hc|reflexivity].
Qed.

Lemma callback_keeps_registry_keys_witness :
  exists r b',
    callback always 0 (lunch 7) noon (Some lunch_bot) = (r, Some b') /\
    dom (active_polls b') = dom (active_polls lunch_bot).
Proof.
  destruct (callback_keeps_registry_keys always 0 (lunch 7) noon lunch_bot)
    as (r & b' & Hc & Hdom & _).
  exists r, b'. split; [exact Hc | exact Hdom].
Defined.

(** X5. In a multiple-choice poll the options are independent: after a click
    on option [A] and then one on another option [B] by the same user, the
    user's membership is flipped in the vote set of [A] and in the vote set of
    [B], and the vote set of every other option is as before. *)
Theorem multiple_choice_independent platform platform' now now' A B ix b p sA sB :
  active_polls b !! ix_message_id ix = Some p ->
  multiple p = true ->
  votes p !! A = Some sA -> votes p !! B = Some sB -> A <> B ->
  exists r b'' p'' tA tB,
    callback platform' B ix now' (callback platform A ix now (Some b)).2 = (r, Some b'') /\
    active_polls b'' !! ix_message_id ix = Some p'' /\
    votes p'' !! A = Some tA /\ votes p'' !! B = Some tB /\
    (ix_user_id ix ∈ tA <-> ix_user_id ix ∉ sA) /\
    (ix_user_id ix ∈ tB <-> ix_user_id ix ∉ sB) /\
    forall j, j <> A -> j <> B -> votes p'' !! j = votes p !! j.
Proof.
  intros Hp Hm HA HB Hne. set (u := ix_user_id ix).
  destruct (toggle (votes p) (multiple p) u A) as [va|e] eqn:Ht1.
  2:{ exfalso. destruct (decide (u ∈ sA)) as [Hu|Hu].
      - by rewrite (toggle_retract _ _ _ _ _ HA Hu) in Ht1.
      - by rewrite (toggle_cast _ _ _ _ _ HA Hu) in Ht1. }
  destruct (toggle_members _ _ _ _ _ Ht1) as (s1 & Hs1 & _ & _ & Hflip1 & Hind1 & _ & Hret1).
  rewrite HA in Hs1. injection Hs1 as <-.
  assert (Hsame1 : forall j, j <> A -> va.1 !! j = votes p !! j) by (by apply Hind1).
  destruct (callback_registered_polls platform A ix now b p va Hp Ht1) as (r1 & b1 & -> & Hb1).
  cbn [snd].
  assert (Hp1 : active_polls b1 !! ix_message_id ix = Some (with_votes p va.1))
    by (rewrite Hb1; apply lookup_insert_eq).
  assert (HB1 : va.1 !! B = Some sB) by (rewrite Hsame1; done).
  destruct (toggle va.1 (multiple p) u B) as [vb|e] eqn:Ht2.
  2:{ exfalso. destruct (decide (u ∈ sB)) as [Hu|Hu].
      - by rewrite (toggle_retract _ _ _ _ _ HB1 Hu) in Ht2.
      - by rewrite (toggle_cast _ _ _ _ _ HB1 Hu) in Ht2. }
  destruct (toggle_members _ _ _ _ _ Ht2) as (s2 & Hs2 & Hkeys2 & _ & Hflip2 & Hind2 & _).
  rewrite HB1 in Hs2. injection Hs2 as <-.
  assert (Hsame2 : forall j, j <> B -> vb.1 !! j = va.1 !! j) by (apply Hind2; done).
  destruct (callback_registered_polls platform' B ix now' b1 (with_votes p va.1) vb Hp1 Ht2)
    as (r2 & b2 & -> & Hb2).
  assert (HtA : is_Some (va.1 !! A)).
  { destruct (toggle_members _ _ _ _ _ Ht1) as (_ & _ & Hk & _). apply Hk. eauto. }
  destruct HtA as [tA HtA].
  assert (HtB : is_Some (vb.1 !! B)) by (apply Hkeys2; eauto).
  destruct HtB as [tB HtB].
  exists r2, b2, (with_votes (with_votes p va.1) vb.1), tA, tB.
  split; [reflexivity|]. split; [rewrite Hb2; apply lookup_insert_eq|].
  cbn [votes with_votes]. split; [by rewrite Hsame2|]. split; [exact HtB|].
  split; [by rewrite HtA in Hflip1|]. split; [by rewrite HtB in Hflip2|].
  intros j HjA HjB. by rewrite Hsame2, Hsame1.
Qed.

Lemma multiple_choice_independent_witness :
  exists r b'' p'' tA tB,
    callback always 1 (lunch 7) noon (callback always 0 (lunch 7) noon (Some buffet_bot)).2
      = (r, Some b'') /\
    active_polls b'' !! 100 = Some p'' /\
    votes p'' !! 0 = Some tA /\ votes p'' !! 1 = Some tB /\
    7 ∈ tA /\ 7 ∈ tB.
Proof.
  destruct (multiple_choice_independent always always noon noon 0 1 (lunch 7)
              buffet_bot buffet_poll ∅ ∅)
    as (r & b'' & p'' & tA & tB & Hc & Hp & HA & HB & HtA & HtB & _).
  { vm_compute. reflexivity. }
  { reflexivity. }
  { vm_compute. reflexivity. }
  { vm_compute. reflexivity. }
  { lia. }
  exists r, b'', p'', tA, tB.
  split; [exact Hc|]. split; [exact Hp|]. split; [exact HA|]. split; [exact HB|].
  split; [apply HtA | apply HtB]; apply not_elem_of_empty.
Defined.

Lemma sum_votes_insert d i s :
  d !! i = None -> sum_votes (<[i := s]> d) = sum_votes d + len s.
Proof.
  intros H. unfold sum_votes. rewrite map_fold_insert_L; [done| |done]. intros. lia.
Qed.

Lemma voters_insert d i s : d !! i = None -> voters (<[i := s]> d) = s ∪ voters d.
Proof.
  intros H. unfold voters. rewrite map_fold_insert_L; [done| |done].
  intros. set_solver.
Qed.

Lemma elem_of_voters d v : v ∈ voters d <-> exists i s, d !! i = Some s /\ v ∈ s.
Proof.
  induction d as [|i s d Hi IH] using map_ind.
  - unfold voters. rewrite map_fold_empty. split; [set_solver|].
    intros (i & s & H & _). by rewrite lookup_empty in H.
  - rewrite (voters_insert _ _ _ Hi), elem_of_union, IH. split.
    + intros [Hv|(j & t & Hj & Hv)].
      * exists i, s. by rewrite lookup_insert_eq.
      * exists j, t. rewrite lookup_insert_ne; [done|]. intros ->. congruence.
    + intros (j & t & Hj & Hv). destruct (decide (i = j)) as [<-|Hne].
      * rewrite lookup_insert_eq in Hj. injection Hj as <-. by left.
      * rewrite lookup_insert_ne in Hj by done. right. eauto.
Qed.

Lemma exclusive_total d : exclusive d -> sum_votes d = Z.of_nat (size (voters d)).
Proof.
  induction d as [|i s d Hi IH] using map_ind; intros Hex.
  - reflexivity.
  - rewrite (sum_votes_insert _ _ _ Hi), (voters_insert _ _ _ Hi).
    rewrite size_union.
    + rewrite IH; [unfold len; lia|].
      intros v j1 j2 s1 s2 H1 H2. apply (Hex v j1 j2 s1 s2).
      * rewrite lookup_insert_ne; [done|]. intros ->. congruence.
      * rewrite lookup_insert_ne; [done|]. intros ->. congruence.
    + intros v Hv Hv'. apply elem_of_voters in Hv' as (j & t & Hj & Hvt).
      assert (i = j); [|congruence].
      apply (Hex v i j s t); [apply lookup_insert_eq| |done|done].
      rewrite lookup_insert_ne; [done|]. intros ->. congruence.
Qed.

(** X6. In every reachable state, the total of a registered single-choice
    poll (the [total_votes] of the tally and of the results) is the number of
    distinct users holding a vote. *)
Theorem single_choice_total_is_voters b message_id p :
  reachable b ->
  active_polls b !! message_id = Some p ->
  multiple p = false ->
  sum_votes (votes p) = Z.of_nat (size (voters (votes p))).
Proof.
  intros Hreach Hp Hm. apply exclusive_total.
  by apply (reachable_registry_ok b Hreach message_id p Hp).
Qed.

Lemma voted_bot_reachable : reachable voted_bot.
Proof.
  exact (reachable_step _ _ lunch_bot_reachable
           (step_vote lunch_bot always 0 (lunch 7) noon)).
Qed.

Lemma single_choice_total_is_voters_witness :
  active_polls voted_bot !! 100 = Some voted_poll /\
  sum_votes (votes voted_poll) = Z.of_nat (size (voters (votes voted_poll))).
Proof.
  split; [vm_compute; reflexivity|].
  apply (single_choice_total_is_voters voted_bot 100 voted_poll).
  - exact voted_bot_reachable.
  - vm_compute. reflexivity.
  - reflexivity.
Defined.

(** X7. Closing a poll concerns no other poll: [end_poll_timer], once its
    sleep is over, does what [end_poll] does; every other registry entry is
    unchanged; no entry is added; and the closure only appends to what the bot
    has sent, and schedules no timer. *)
Theorem end_poll_frame platform message_id duration b :
  end_poll_timer platform message_id duration b = end_poll platform message_id b /\
  (forall m, m <> message_id ->
     active_polls (end_poll platform message_id b).2 !! m = active_polls b !! m) /\
  dom (active_polls (end_poll platform message_id b).2) ⊆ dom (active_polls b) /\
  exists evs, trace (end_poll platform message_id b).2 = trace b ++ evs /\
              forall m d, CreateTask m d ∉ evs.
Proof.
  split; [apply end_poll_timer_eq|].
  destruct (active_polls b !! message_id) as [p|] eqn:Hp.
  - rewrite (end_poll_registered _ _ _ _ Hp).
    destruct (results_embed p) as [embed|e]; cbn [snd active_polls trace].
    + split; [intros m Hm; by rewrite lookup_delete_ne|].
      split; [rewrite dom_delete_L; set_solver|].
      eexists. split; [reflexivity|]. intros m d Hin. unfold closure_trace in Hin.
      destruct (platform (FetchMessage _ _));
        [destruct (platform (EditResults _ _)); [destruct (platform (ChannelSend _ _))|]|];
        repeat (apply elem_of_cons in Hin as [Hin|Hin]; [discriminate Hin|]);
        by apply elem_of_nil in Hin.
    + split; [done|]. split; [done|]. exists []. split; [by rewrite app_nil_r|].
      intros m d Hin. by apply elem_of_nil in Hin.
  - rewrite (end_poll_unregistered _ _ _ Hp). cbn [snd].
    split; [done|]. split; [done|]. exists []. split; [by rewrite app_nil_r|].
    intros m d Hin. by apply elem_of_nil in Hin.
Qed.

Lemma end_poll_frame_witness :
  end_poll_timer always 100 1 lunch_bot = end_poll always 100 lunch_bot /\
  active_polls (end_poll always 100 lunch_bot).2 !! 101 = active_polls lunch_bot !! 101.
Proof.
  destruct (end_poll_frame always 100 1 lunch_bot) as (Ht & Hother & _).
  split; [exact Ht|]. apply Hother. lia.
Defined.

(** ** Splitting and trimming *)

Lemma str_split_nonempty sep s : str_split sep s <> [].
Proof.
  destruct s as [|c s]; simpl; [done|].
  destruct (c =? sep)%N; [done|]. by destruct (str_split sep s).
Qed.

Lemma length_str_split sep s : length (str_split sep s) = S (occurrences sep s).
Proof.
  unfold occurrences, pystr. induction s as [|c s IH]; [reflexivity|]. cbn [str_split].
  destruct (N.eqb_spec c sep) as [->|Hne].
  - rewrite filter_cons_True by done. cbn [length]. by rewrite IH.
  - rewrite filter_cons_False by done.
    destruct (str_split sep s) as [|w ws]; cbn [length] in *; [done|exact IH].
Qed.

Lemma join_str_split sep s : join sep (str_split sep s) = s.
Proof.
  induction s as [|c s IH]; [reflexivity|]. simpl.
  pose proof (str_split_nonempty sep s) as Hne.
  destruct (N.eqb_spec c sep) as [->|Hc].
  - destruct (str_split sep s) as [|w ws] eqn:Hs; [done|].
    change (join sep ([] :: w :: ws)) with ([] ++ sep :: join sep (w :: ws)).
    by rewrite IH.
  - destruct (str_split sep s) as [|w ws] eqn:Hs; [done|].
    destruct ws as [|w' ws]; simpl in *; by rewrite <- IH.
Qed.

Lemma str_split_no_sep sep s : Forall (fun w => sep ∉ w) (str_split sep s).
Proof.
  induction s as [|c s IH]; simpl.
  - constructor; [set_solver|constructor].
  - destruct (N.eqb_spec c sep) as [->|Hc].
    + constructor; [set_solver|exact IH].
    + destruct (str_split sep s) as [|w ws]; [constructor; [set_solver|constructor]|].
      inversion IH as [|? ? Hw Hws]; subst. constructor; [set_solver|exact Hws].
Qed.


Lemma lstrip_spec s :
  exists pre, s = pre ++ lstrip s /\ Forall (fun c => isspace c = true) pre /\
              head_ok (lstrip s).
Proof.
  induction s as [|c s (pre & Hs & Hpre & Hok)]; simpl.
  - exists []. done.
  - destruct (isspace c) eqn:Hc.
    + exists (c :: pre). split; [simpl; by rewrite <- Hs|]. split; [by constructor|done].
    + exists []. split; [done|]. split; [constructor|done].
Qed.

Lemma lstrip_head_ok x : head_ok x -> lstrip x = x.
Proof. destruct x as [|c x]; simpl; [done|]. by intros ->. Qed.

Lemma strip_spec s :
  exists pre suf,
    s = pre ++ strip s ++ suf /\
    Forall (fun c => isspace c = true) pre /\ Forall (fun c => isspace c = true) suf /\
    head_ok (strip s) /\ head_ok (rev (strip s)).
Proof.
  destruct (lstrip_spec s) as (pre & Hs & Hpre & Hok).
  destruct (lstrip_spec (rev (lstrip s))) as (suf & Hr & Hsuf & Hok').
  unfold strip, rstrip. exists pre, (rev suf).
  assert (Hy : lstrip s = rev (lstrip (rev (lstrip s))) ++ rev suf).
  { rewrite <- rev_app_distr, <- Hr. by rewrite rev_involutive. }
  split; [by rewrite <- Hy|]. split; [done|].
  split; [by apply Forall_rev in Hsuf|]. split.
  - rewrite Hy in Hok. destruct (rev (lstrip (rev (lstrip s)))); [done|exact Hok].
  - by rewrite rev_involutive.
Qed.

Lemma strip_idempotent s : strip (strip s) = strip s.
Proof.
  destruct (strip_spec s) as (_ & _ & _ & _ & _ & Hh & Hl).
  unfold strip at 1, rstrip. rewrite (lstrip_head_ok _ Hh), (lstrip_head_ok _ Hl).
  apply rev_involutive.
Qed.

Lemma strip_no_sep sep s : sep ∉ s -> sep ∉ strip s.
Proof.
  intros Hs Hin. apply Hs. destruct (strip_spec s) as (pre & suf & Heq & _).
  rewrite Heq. set_solver.
Qed.

(** ** Creation *)

(** What [create_poll] leaves behind: either the poll, its announcement
    and its timer, or no poll and no timer. *)
Lemma create_poll_cases platform ix title options duration multiple now now' b :
  let option_list := strip <$> str_split comma options in
  let rb := create_poll platform ix title options duration multiple now now' b in
  exists evs,
    trace rb.2 = trace b ++ evs /\
    ((exists end_time embed,
        rb.1 = Ok tt /\ (2 <= length option_list <= 10)%nat /\
        datetime_ok end_time = true /\
        active_polls rb.2 =
          <[ix_message_id ix :=
              {| title := title; options := option_list;
                 votes := empty_votes (length option_list);
                 multiple := multiple; author_id := ix_user_id ix;
                 end_time := end_time; channel_id := ix_channel_id ix |}]> (active_polls b) /\
        evs = [SendPoll ix embed (new_PollView option_list multiple);
               OriginalResponse ix; CreateTask (ix_message_id ix) duration]) \/
     (active_polls rb.2 = active_polls b /\ forall m d, CreateTask m d ∉ evs)).
Proof.
  intros option_list rb. unfold rb, create_poll. fold option_list.
  assert (Hnone : forall (b0 : bot) (r : result unit),
            exists evs, trace (r, b0).2 = trace b0 ++ evs /\
              ((exists (end_time : Z) (embed : Embed), False) \/
               (active_polls (r, b0).2 = active_polls b0 /\ forall m d, CreateTask m d ∉ evs))).
  { intros b0 r. exists []. split; [by rewrite app_nil_r|]. right. split; [done|].
    intros m d Hin. by apply elem_of_nil in Hin. }
  assert (Hcall : forall c,
            exists evs, trace (call platform (SendMessage ix c) b).2 = trace b ++ evs /\
              (active_polls (call platform (SendMessage ix c) b).2 = active_polls b /\
               forall m d, CreateTask m d ∉ evs)).
  { intros c. unfold call, emit, lift. destruct (platform (SendMessage ix c)).
    - exists [SendMessage ix c]. split; [done|]. split; [done|]. intros m d Hin.
      apply elem_of_cons in Hin as [Hin|Hin]; [discriminate Hin|by apply elem_of_nil in Hin].
    - exists []. split; [by rewrite app_nil_r|]. split; [done|]. intros m d Hin.
      by apply elem_of_nil in Hin. }
  destruct (Nat.ltb_spec (length option_list) 2) as [Hlo|Hlo].
  { destruct (Hcall (str "At least 2 options required!")) as (evs & Ht & Hrest). eauto. }
  destruct (Nat.ltb_spec 10 (length option_list)) as [Hhi|Hhi].
  { destruct (Hcall (str "Maximum 10 options allowed!")) as (evs & Ht & Hrest). eauto. }
  unfold call, bind, lift, get_polls, put_polls, emit.
  destruct (timedelta_minutes duration) as [td|e];
    [|exists []; split; [by rewrite app_nil_r|right; split; [done|set_solver]]].
  unfold datetime_add. destruct (datetime_ok (now + td)) eqn:Hok;
    [|exists []; split; [by rewrite app_nil_r|right; split; [done|set_solver]]].
  destruct (create_poll_embed _ now') as [embed|e];
    [|exists []; split; [by rewrite app_nil_r|right; split; [done|set_solver]]].
  destruct (platform (SendPoll _ _ _));
    [|exists []; split; [by rewrite app_nil_r|right; split; [done|set_solver]]].
  cbn [fst snd active_polls trace].
  destruct (platform (OriginalResponse _)); cbn [fst snd active_polls trace].
  - eexists. split; [by rewrite <- !app_assoc|]. left. exists (now + td), embed.
    split; [done|]. split; [lia|]. split; [done|]. split; reflexivity.
  - eexists [_]. split; [reflexivity|]. right. split; [done|]. intros m d Hin.
    apply elem_of_cons in Hin as [Hin|Hin]; [discriminate Hin|by apply elem_of_nil in Hin].
Qed.

(** X8. [create_poll] is all or nothing: it touches no entry but the one of
    its own message; when it raises, the registry is unchanged; and either it
    returns normally, having stored the new poll (the trimmed options, one
    empty vote set each, total 0) and scheduled its timer, or it schedules no
    timer and the registry is unchanged. What the bot has sent is only
    extended. *)
Theorem create_poll_all_or_nothing platform ix ttl opts duration mult now now' b :
  let rb := create_poll platform ix ttl opts duration mult now now' b in
  (forall m, m <> ix_message_id ix -> active_polls rb.2 !! m = active_polls b !! m) /\
  (forall e, rb.1 = Raise e -> active_polls rb.2 = active_polls b) /\
  exists evs,
    trace rb.2 = trace b ++ evs /\
    ((CreateTask (ix_message_id ix) duration ∈ evs /\
      rb.1 = Ok tt /\
      exists p, active_polls rb.2 = <[ix_message_id ix := p]> (active_polls b) /\
                options p = strip <$> str_split comma opts /\
                votes p = empty_votes (length (options p)) /\
                sum_votes (votes p) = 0) \/
     ((forall m d, CreateTask m d ∉ evs) /\ active_polls rb.2 = active_polls b)).
Proof.
  intros rb.
  destruct (create_poll_cases platform ix ttl opts duration mult now now' b)
    as (evs & Htrace & [(end_time & embed & Hok & Hn & Hend & Hpolls & Hevs)|[Hpolls Hno]]);
    fold rb in Htrace, Hpolls.
  - fold rb in Hok. split; [intros m Hm; by rewrite Hpolls, lookup_insert_ne|].
    split; [intros e He; congruence|]. exists evs. split; [exact Htrace|]. left.
    split; [rewrite Hevs; set_solver|]. split; [exact Hok|]. eexists.
    split; [exact Hpolls|]. cbn [options votes]. split; [done|]. split; [done|].
    apply sum_votes_empty_votes.
  - split; [intros m _; by rewrite Hpolls|]. split; [done|].
    exists evs. split; [exact Htrace|]. by right.
Qed.

Lemma create_poll_all_or_nothing_witness :
  let rb := create_poll always (lunch 8) (str "Dinner?") (str "Pizza") 1 false noon noon
              lunch_bot in
  active_polls rb.2 !! 101 = active_polls lunch_bot !! 101 /\
  exists evs, trace rb.2 = trace lunch_bot ++ evs.
Proof.
  destruct (create_poll_all_or_nothing always (lunch 8) (str "Dinner?") (str "Pizza") 1 false
              noon noon lunch_bot) as (Hother & _ & evs & Htr & _).
  split; [apply Hother; simpl; lia | exists evs; exact Htr].
Defined.

(** X9. The number of parsed options is the number of commas of the
    [options] text plus one; joining the pieces with commas gives the text
    back, and no piece holds a comma. So a text without comma is always
    answered with the at-least-2 message, and a text with ten or more commas
    with the maximum-10 message, and nothing else happens. *)
Theorem create_poll_counts_commas platform ix ttl opts duration mult now now' b :
  let commas := occurrences comma opts in
  let rb := create_poll platform ix ttl opts duration mult now now' b in
  length (strip <$> str_split comma opts) = S commas /\
  join comma (str_split comma opts) = opts /\
  Forall (fun w => comma ∉ w) (str_split comma opts) /\
  (commas = 0%nat ->
   rb = call platform (SendMessage ix (str "At least 2 options required!")) b) /\
  ((10 <= commas)%nat ->
   rb = call platform (SendMessage ix (str "Maximum 10 options allowed!")) b).
Proof.
  intros commas rb.
  assert (Hlen : length (strip <$> str_split comma opts) = S commas)
    by (by rewrite length_fmap, length_str_split).
  split; [exact Hlen|]. split; [apply join_str_split|].
  split; [apply str_split_no_sep|].
  unfold rb, create_poll. rewrite Hlen. split.
  - intros ->. reflexivity.
  - intros Hc. destruct (Nat.ltb_spec (S commas) 2); [lia|].
    destruct (Nat.ltb_spec 10 (S commas)); [done|lia].
Qed.

Lemma create_poll_counts_commas_witness :
  length (strip <$> str_split comma (str "Pizza")) = 1%nat /\
  create_poll always (lunch 7) (str "Lunch?") (str "Pizza") 1 false noon noon initial
    = call always (SendMessage (lunch 7) (str "At least 2 options required!")) initial.
Proof.
  destruct (create_poll_counts_commas always (lunch 7) (str "Lunch?") (str "Pizza") 1 false
              noon noon initial) as (Hlen & _ & _ & Hfew & _).
  split; [exact Hlen|]. apply Hfew. vm_compute. reflexivity.
Defined.

(** ** What holds of every registered poll *)

Lemma reachable_poll_invariant (P : poll_data -> Prop) :
  (forall title opts mult author end_time channel,
     datetime_ok end_time = true ->
     (2 <= length (strip <$> str_split comma opts) <= 10)%nat ->
     P {| title := title; options := strip <$> str_split comma opts;
          votes := empty_votes (length (strip <$> str_split comma opts));
          multiple := mult; author_id := author; end_time := end_time;
          channel_id := channel |}) ->
  (forall p va u i, P p -> toggle (votes p) (multiple p) u i = Ok va -> P (with_votes p va.1)) ->
  forall b, reachable b ->
  forall m p, active_polls b !! m = Some p -> P p.
Proof.
  intros Hnew Hvote b Hreach. induction Hreach as [|b b' _ IH Hstep]; intros m p.
  - simpl. by rewrite lookup_empty.
  - destruct Hstep as [pf ix ttl opts dur mult now now'|pf mid dur|pf mid|pf oid ix now].
    + destruct (create_poll_polls pf ix ttl opts dur mult now now' b)
        as [->|(end_time & Hend & Hn & ->)]; [apply IH|].
      destruct (decide (ix_message_id ix = m)) as [->|Hne].
      * rewrite lookup_insert_eq. intros Hp. injection Hp as <-. by apply Hnew.
      * rewrite lookup_insert_ne by done. apply IH.
    + rewrite end_poll_timer_eq.
      destruct (end_poll_polls pf mid b) as [->| ->]; [apply IH|].
      intros Hp. apply lookup_delete_Some in Hp as [_ Hp]. exact (IH _ _ Hp).
    + destruct (end_poll_polls pf mid b) as [->| ->]; [apply IH|].
      intros Hp. apply lookup_delete_Some in Hp as [_ Hp]. exact (IH _ _ Hp).
    + destruct (active_polls b !! ix_message_id ix) as [p0|] eqn:Hp0.
      * rewrite (callback_on_polls _ _ _ _ _ _ Hp0).
        destruct (toggle _ _ _ _) as [va|e] eqn:Ht; [|apply IH].
        destruct (decide (ix_message_id ix = m)) as [->|Hne].
        -- rewrite lookup_insert_eq. intros Hp. injection Hp as <-.
           apply (Hvote p0 va _ _ (IH _ _ Hp0) Ht).
        -- rewrite lookup_insert_ne by done. apply IH.
      * rewrite (callback_on_unregistered _ _ _ _ _ Hp0), call_polls. apply IH.
Qed.

(** X10. In every reachable state, a registered poll has between 2 and 10
    options, each without a comma and without leading or trailing white space
    (trimming it again changes nothing), and its view has one button per
    option: the constructor of the view returns, the limit of 25 children
    being out of reach. *)
Theorem registered_options_are_trimmed b message_id p :
  reachable b ->
  active_polls b !! message_id = Some p ->
  (2 <= length (options p) <= 10)%nat /\
  Forall (fun o => (comma ∉ o) /\ strip o = o) (options p) /\
  length (children (new_PollView (options p) (multiple p))) = length (options p) /\
  PollView_init (options p) (multiple p) = Ok (new_PollView (options p) (multiple p)).
Proof.
  intros Hreach Hp.
  assert (H : (2 <= length (options p) <= 10)%nat /\
              Forall (fun o => (comma ∉ o) /\ strip o = o) (options p)).
  { apply (reachable_poll_invariant
             (fun p => (2 <= length (options p) <= 10)%nat /\
                       Forall (fun o => (comma ∉ o) /\ strip o = o) (options p))
             ) with (b := b) (m := message_id); [| |done|done].
    - intros ttl opts mult author end_time channel _ Hn. cbn [options].
      split; [exact Hn|]. apply Forall_fmap.
      eapply Forall_impl; [apply str_split_no_sep|]. intros w Hw. simpl.
      split; [by apply strip_no_sep|apply strip_idempotent].
    - intros p0 va u i HP _. exact HP. }
  destruct H as [Hn Hall]. split; [exact Hn|]. split; [exact Hall|].
  split.
  - unfold new_PollView. cbn [children]. rewrite add_buttons_imap, app_nil_l.
    by rewrite length_imap.
  - unfold PollView_init. rewrite add_items_ok by (simpl; lia). reflexivity.
Qed.

Lemma registered_options_are_trimmed_witness :
  (2 <= length (options lunch_poll) <= 10)%nat /\
  Forall (fun o => (comma ∉ o) /\ strip o = o) (options lunch_poll).
Proof.
  destruct (registered_options_are_trimmed lunch_bot 100 lunch_poll) as (Hn & Ho & _).
  - exact lunch_bot_reachable.
  - vm_compute. reflexivity.
  - split; [exact Hn | exact Ho].
Defined.

(** ** Full and empty bars *)

Lemma int_truediv_self n :
  0 < n -> int_truediv n n = Ok (S754_finite false 4503599627370496 (-52)).
Proof.
  intros Hn. unfold int_truediv.
  destruct (Z.eqb_spec n 0); [lia|].
  rewrite SFdiv_core_binary_unfold. cbv zeta. rewrite Z.abs_eq by lia.
  replace (Zdigits2 n + 0 - (Zdigits2 n + 0)) with 0 by lia.
  change (Z.min (fexp prec emax 0) (0 - 0)) with (-53).
  change (0 - 0 - -53) with 53.
  rewrite Z.shiftl_mul_pow2 by lia.
  rewrite (Z.mul_comm n), Z.div_mul, Z.mod_mul by lia.
  assert (Hloc : new_location n 0 = loc_Exact).
  { unfold new_location, new_location_even, new_location_odd.
    by destruct (IntDef.Z.even n). }
  rewrite Hloc.
  replace (n <? 0) with false by (symmetry; apply Z.ltb_ge; lia).
  reflexivity.
Qed.

Lemma percentage_of_all n :
  0 < n -> percentage_of n n = Ok (PyFloat (S754_finite false 7036874417766400 (-46))).
Proof.
  intros Hn. unfold percentage_of.
  replace (0 <? n) with true by (symmetry; apply Z.ltb_lt; lia).
  rewrite (int_truediv_self n Hn). reflexivity.
Qed.

Lemma percentage_of_none total :
  0 <= total ->
  exists pct, percentage_of 0 total = Ok pct /\
              truediv_int pct 10 = Ok (S754_zero false) /\
              format_1f pct = str "0.0".
Proof.
  intros Ht. unfold percentage_of. destruct (Z.ltb_spec 0 total) as [Hpos|Hzero].
  - unfold int_truediv. destruct (Z.eqb_spec total 0); [lia|].
    replace (total <? 0) with false by (symmetry; apply Z.ltb_ge; lia).
    eexists. split; [reflexivity|]. split; reflexivity.
  - eexists. split; [reflexivity|]. split; reflexivity.
Qed.

(** X11. In the tally of a well-formed poll, an option holding all the votes
    cast (at least one) is shown with ten filled segments and 100.0%, and an
    option without votes with ten empty segments and 0 votes (0.0%), the
    latter also when nobody has voted at all. *)
Theorem full_and_empty_bars p now :
  poll_wf p -> datetime_ok now = true ->
  exists e,
    create_poll_embed p now = Ok e /\
    forall j o s,
      options p !! j = Some o -> votes p !! Z.of_nat j = Some s ->
      (0 < len s -> len s = total_by_index (votes p) (length (options p)) ->
       embed_fields e !! j =
         Some {| name := o;
                 value := concat (replicate 10 [8218; 241; 224]%N) ++ str " " ++
                          str_of_int (len s) ++ str " votes (100.0%)";
                 inline := false |}) /\
      (len s = 0 ->
       embed_fields e !! j =
         Some {| name := o;
                 value := concat (replicate 10 [8218; 241; 235]%N) ++
                          str " 0 votes (0.0%)";
                 inline := false |}).
Proof.
  intros Hwf Hnow.
  destruct (create_poll_embed_rows p now Hwf Hnow) as (fs & k & -> & _ & _ & Hrows).
  eexists. split; [reflexivity|].
  cbn [set_footer append_fields embed_fields new_poll_embed]. rewrite app_nil_l.
  intros j o s Hj Hs.
  destruct (Hrows j o Hj) as (f & -> & s' & pct & x & k' & Hs' & Hp & Hx & Hk & _ & ->).
  rewrite Hs in Hs'. injection Hs' as <-. split.
  - intros Hpos Hall. rewrite <- Hall in Hp. rewrite (percentage_of_all _ Hpos) in Hp.
    injection Hp as <-. vm_compute in Hx. injection Hx as <-.
    vm_compute in Hk. injection Hk as <-. reflexivity.
  - intros Hzero. rewrite Hzero in Hp.
    assert (Htot : 0 <= total_by_index (votes p) (length (options p))).
    { rewrite <- (sum_votes_by_index _ _ (proj1 Hwf)). apply sum_votes_nonneg. }
    destruct (percentage_of_none _ Htot) as (pct' & Hp' & Hx' & Hfmt).
    rewrite Hp' in Hp. injection Hp as <-. rewrite Hx' in Hx. injection Hx as <-.
    simpl in Hk. injection Hk as <-.
    unfold tally_text. rewrite Hfmt, Hzero. reflexivity.
Qed.

Lemma full_and_empty_bars_witness :
  exists e,
    create_poll_embed voted_poll noon = Ok e /\
    embed_fields e !! 0%nat =
      Some {| name := str "Pizza";
              value := concat (replicate 10 [8218; 241; 224]%N) ++
                       str " 1 votes (100.0%)";
              inline := false |} /\
    embed_fields e !! 1%nat =
      Some {| name := str "Salad";
              value := concat (replicate 10 [8218; 241; 235]%N) ++
                       str " 0 votes (0.0%)";
              inline := false |}.
Proof.
  destruct (full_and_empty_bars voted_poll noon) as (e & He & Hrows).
  { split; vm_compute; reflexivity. }
  { vm_compute. reflexivity. }
  exists e. split; [exact He|]. split.
  - destruct (Hrows 0%nat (str "Pizza") {[7]}) as (Hfull & _);
      [reflexivity | vm_compute; reflexivity |].
    rewrite Hfull; [reflexivity | vm_compute; reflexivity | vm_compute; reflexivity].
  - destruct (Hrows 1%nat (str "Salad") ∅) as (_ & Hempty);
      [reflexivity | vm_compute; reflexivity |].
    apply Hempty. vm_compute. reflexivity.
Defined.

(** X12. The results of a well-formed poll list every option exactly once:
    the fields are, in order, those of a permutation of the options with
    their indices and counts, each named as a winning option or as
    Option i+1, there are as many fields as options, and the footer reads
    Poll has ended. *)
Theorem closure_lists_every_option_once p :
  poll_wf p ->
  exists embed rs,
    results_embed p = Ok embed /\
    rs ≡ₚ imap (fun j option =>
                  (Z.of_nat j, option,
                   Z.of_nat (size (default ∅ (votes p !! Z.of_nat j))))) (options p) /\
    Forall2 (fun r f =>
               name f = [63743; 252; 232; 220]%N ++ str " Winning Option: " ++ r.1.2 \/
               name f = str "Option " ++ str_of_int (r.1.1 + 1) ++ str ": " ++ r.1.2)
      rs (embed_fields embed) /\
    length (embed_fields embed) = length (options p) /\
    embed_footer embed = Some (str "Poll has ended").
Proof.
  intros Hwf. destruct (results_embed_rows p Hwf) as (fs & -> & Hpos & Hzero).
  assert (Hlen : length (results_from (votes p) 0 (options p)) = length (options p))
    by (unfold results_from; apply length_imap).
  assert (exists rs,
            rs ≡ₚ results_from (votes p) 0 (options p) /\
            Forall2 (fun r f => name f = winner_name r.1.1 r.1.2 \/
                                name f = option_name r.1.1 r.1.2) rs fs)
    as (rs & Hperm & Hall).
  { destruct (Z_lt_le_dec 0 (sum_votes (votes p))) as [Htot|Htot].
    - destruct (Hpos Htot) as (m & ws & os & _ & _ & -> & Hws & Hos).
      eexists. split; [apply (filter_app_complement (fun r => r.2 = m))|].
      apply Forall2_app.
      + eapply Forall2_impl; [exact Hws|].
        intros r f (s & pct & x & k & _ & _ & _ & _ & _ & ->). by left.
      + eapply Forall2_impl; [exact Hos|].
        intros r f (s & pct & x & k & _ & _ & _ & _ & _ & ->). by right.
    - pose proof (sum_votes_nonneg (votes p)). rewrite (Hzero ltac:(lia)).
      eexists. split; [reflexivity|].
      apply Forall2_fmap_r, Forall_Forall2_diag, Forall_forall. intros r _. by right. }
  exists (set_footer (append_fields (new_results_embed p) fs) (str "Poll has ended")), rs.
  split; [reflexivity|]. split; [exact Hperm|].
  cbn [set_footer append_fields embed_fields embed_footer new_results_embed app].
  split; [exact Hall|]. split; [|reflexivity].
  rewrite <- (Forall2_length _ _ _ Hall), <- Hlen. by apply Permutation_length.
Qed.

Lemma closure_lists_every_option_once_witness :
  exists embed,
    results_embed tie_poll = Ok embed /\
    length (embed_fields embed) = 3%nat /\
    embed_footer embed = Some (str "Poll has ended").
Proof.
  destruct (closure_lists_every_option_once tie_poll) as (embed & rs & He & _ & _ & Hlen & Hf).
  { split; vm_compute; reflexivity. }
  exists embed. split; [exact He|]. split; [exact Hlen | exact Hf].
Defined.

(** X13. In every reachable state [end_poll] returns normally, for every
    message id and every behaviour of the platform, and the id is not
    registered afterwards. *)
Theorem end_poll_completes platform message_id b :
  reachable b ->
  (end_poll platform message_id b).1 = Ok tt /\
  active_polls (end_poll platform message_id b).2 !! message_id = None.
Proof.
  intros Hreach. destruct (active_polls b !! message_id) as [p|] eqn:Hp.
  - destruct (reachable_registry_ok b Hreach _ _ Hp) as [Hwf _].
    destruct (results_embed_ok p Hwf) as (embed & He).
    rewrite (end_poll_registered _ _ _ _ Hp), He. cbn [fst snd active_polls].
    split; [done|apply lookup_delete_eq].
  - by rewrite (end_poll_unregistered _ _ _ Hp).
Qed.

Lemma end_poll_completes_witness :
  (end_poll always 100 lunch_bot).1 = Ok tt /\
  active_polls (end_poll always 100 lunch_bot).2 !! 100 = None.
Proof.
  apply (end_poll_completes always 100 lunch_bot). exact lunch_bot_reachable.
Defined.



(** ** Timers *)

Lemma call_trace platform ev b : exists evs, trace (call platform ev b).2 = trace b ++ evs.
Proof.
  unfold call, emit, lift. destruct (platform ev); [by exists [ev]|].
  exists []. by rewrite app_nil_r.
Qed.

Lemma callback_on_trace platform option_id ix now b :
  exists evs, trace (callback_on platform option_id ix now b).2 = trace b ++ evs.
Proof.
  destruct (active_polls b !! ix_message_id ix) as [p|] eqn:Hp.
  - rewrite (callback_on_registered _ _ _ _ _ _ Hp).
    destruct (toggle _ _ _ _) as [va|e]; [|exists []; by rewrite app_nil_r]. cbv zeta.
    destruct (create_poll_embed _ _) as [embed|e]; [|exists []; by rewrite app_nil_r].
    destruct (platform (EditEmbed _ _)); [|exists []; by rewrite app_nil_r].
    destruct (platform (SendMessage _ _)); cbn [snd trace].
    + eexists. by rewrite <- app_assoc.
    + by eexists.
  - rewrite (callback_on_unregistered _ _ _ _ _ Hp). apply call_trace.
Qed.

Lemma end_poll_trace platform message_id b :
  exists evs, trace (end_poll platform message_id b).2 = trace b ++ evs.
Proof.
  destruct (active_polls b !! message_id) as [p|] eqn:Hp.
  - rewrite (end_poll_registered _ _ _ _ Hp).
    destruct (results_embed p); [by eexists|]. exists []. by rewrite app_nil_r.
  - rewrite (end_poll_unregistered _ _ _ Hp). exists []. by rewrite app_nil_r.
Qed.

Lemma step_timers b b' :
  step b b' ->
  exists evs,
    trace b' = trace b ++ evs /\
    forall m, m ∈ dom (active_polls b') ->
      m ∈ dom (active_polls b) \/ exists d, CreateTask m d ∈ evs.
Proof.
  intros Hstep.
  destruct Hstep as [pf ix ttl opts dur mult now now'|pf mid dur|pf mid|pf oid ix now].
  - destruct (create_poll_cases pf ix ttl opts dur mult now now' b)
      as (evs & Htrace & [(end_time & embed & _ & _ & _ & Hpolls & Hevs)|[Hpolls _]]);
      exists evs; (split; [exact Htrace|]); intros m Hm; rewrite Hpolls in Hm.
    + rewrite dom_insert_L in Hm. apply elem_of_union in Hm as [Hm|Hm]; [|by left].
      apply elem_of_singleton in Hm as ->. right. exists dur. rewrite Hevs. set_solver.
    + by left.
  - rewrite end_poll_timer_eq. destruct (end_poll_trace pf mid b) as (evs & Htrace).
    exists evs. split; [exact Htrace|]. intros m Hm. left.
    destruct (end_poll_polls pf mid b) as [Hp|Hp]; rewrite Hp in Hm; [done|].
    rewrite dom_delete_L in Hm. set_solver.
  - destruct (end_poll_trace pf mid b) as (evs & Htrace).
    exists evs. split; [exact Htrace|]. intros m Hm. left.
    destruct (end_poll_polls pf mid b) as [Hp|Hp]; rewrite Hp in Hm; [done|].
    rewrite dom_delete_L in Hm. set_solver.
  - destruct (callback_on_trace pf oid ix now b) as (evs & Htrace).
    exists evs. split; [exact Htrace|]. intros m Hm. left.
    destruct (active_polls b !! ix_message_id ix) as [p|] eqn:Hp.
    + rewrite (callback_on_polls _ _ _ _ _ _ Hp) in Hm.
      destruct (toggle _ _ _ _); [|done]. rewrite dom_insert_L in Hm.
      apply elem_of_union in Hm as [Hm|Hm]; [|done].
      apply elem_of_singleton in Hm as ->. apply elem_of_dom. eauto.
    + by rewrite (callback_on_unregistered _ _ _ _ _ Hp), call_polls in Hm.
Qed.

(** X15. In every reachable state, every registered poll has had its timer
    scheduled: the bot's history holds a [create_task] for its message id. *)
Theorem registered_polls_have_timer b message_id :
  reachable b ->
  message_id ∈ dom (active_polls b) ->
  exists duration, CreateTask message_id duration ∈ trace b.
Proof.
  intros Hreach. revert message_id.
  induction Hreach as [|b b' _ IH Hstep]; intros m Hm.
  - simpl in Hm. set_solver.
  - destruct (step_timers b b' Hstep) as (evs & Htrace & Hkeys).
    rewrite Htrace. destruct (Hkeys m Hm) as [Hold|(d & Hd)].
    + destruct (IH m Hold) as (d & Hd). exists d. set_solver.
    + exists d. set_solver.
Qed.

Lemma registered_polls_have_timer_witness :
  exists duration, CreateTask 100 duration ∈ trace lunch_bot.
Proof.
  apply (registered_polls_have_timer lunch_bot 100).
  - exact lunch_bot_reachable.
  - apply elem_of_dom. exists lunch_poll. vm_compute. reflexivity.
Defined.

(** ** The tally and the results; durations *)

(** Two rows of the same option, for the same votes and total, show the same
    text, whatever their names. *)
Lemma tally_row_value n1 n2 d total i o1 o2 f g :
  tally_row n1 d total i o1 f -> tally_row n2 d total i o2 g -> value f = value g.
Proof.
  intros (s & pct & x & k & Hs & Hp & Hx & Hk & _ & ->)
         (s' & pct' & x' & k' & Hs' & Hp' & Hx' & Hk' & _ & ->).
  rewrite Hs in Hs'. injection Hs' as <-.
  rewrite Hp in Hp'. injection Hp' as <-.
  rewrite Hx in Hx'. injection Hx' as <-.
  rewrite Hk in Hk'. injection Hk' as <-. reflexivity.
Qed.

Lemma Forall2_elem_of_l {A B} (R : A -> B -> Prop) l k x :
  Forall2 R l k -> x ∈ l -> exists y, y ∈ k /\ R x y.
Proof.
  intros HF Hx. apply list_elem_of_lookup in Hx as [n Hn].
  destruct (Forall2_lookup_l _ _ _ _ _ HF Hn) as (y & Hy & HR).
  exists y. split; [by eapply list_elem_of_lookup_2|done].
Qed.

(** X16. The results of a closed poll agree with its last tally: when at
    least one vote was cast, every option has a results field (named as a
    winning option or as Option i+1) with the very text of its tally field,
    bar, count and percentage; when nobody voted, the results field of the
    option reads 0 votes (0.0%), which is the tally text without its bar of
    ten empty segments. *)
Theorem results_agree_with_tally p now :
  poll_wf p -> datetime_ok now = true ->
  exists e r,
    create_poll_embed p now = Ok e /\ results_embed p = Ok r /\
    forall j (o : pystr) f,
      options p !! j = Some o -> embed_fields e !! j = Some f ->
      (0 < sum_votes (votes p) ->
       exists g, g ∈ embed_fields r /\
                 (name g = [63743; 252; 232; 220]%N ++ str " Winning Option: " ++ o \/
                  name g = str "Option " ++ str_of_int (Z.of_nat j + 1) ++ str ": " ++ o) /\
                 value g = value f) /\
      (sum_votes (votes p) = 0 ->
       exists g, embed_fields r !! j = Some g /\
                 name g = str "Option " ++ str_of_int (Z.of_nat j + 1) ++ str ": " ++ o /\
                 value g = str "0 votes (0.0%)" /\
                 value f = concat (replicate 10 [8218; 241; 235]%N) ++ str " " ++ value g).
Proof.
  intros Hwf Hnow.
  destruct (create_poll_embed_rows p now Hwf Hnow) as (fs & k & -> & _ & _ & Hrows).
  destruct (results_embed_rows p Hwf) as (gs & -> & Hpos & Hzero).
  do 2 eexists. split; [reflexivity|]. split; [reflexivity|].
  cbn [set_footer append_fields embed_fields new_poll_embed new_results_embed].
  rewrite !app_nil_l. intros j o f Hj Hf.
  destruct (Hrows j o Hj) as (f' & Hf' & Hrow). rewrite Hf in Hf'. injection Hf' as <-.
  rewrite <- (sum_votes_by_index _ _ (proj1 Hwf)) in Hrow.
  set (r := (Z.of_nat j, o, count (votes p) (Z.of_nat j))).
  assert (Hr : results_from (votes p) 0 (options p) !! j = Some r).
  { unfold results_from. rewrite list_lookup_imap, Hj. reflexivity. }
  split.
  - intros Htot. destruct (Hpos Htot) as (m & ws & os & _ & _ & -> & Hws & Hos).
    apply list_elem_of_lookup_2 in Hr.
    destruct (decide (r.2 = m)) as [Hm|Hm].
    + assert (Hin : r ∈ filter (fun r => r.2 = m) (results_from (votes p) 0 (options p)))
        by (apply list_elem_of_filter; done).
      destruct (Forall2_elem_of_l _ _ _ _ Hws Hin) as (g & Hg & Hrow').
      exists g. split; [apply elem_of_app; by left|]. split.
      * destruct Hrow' as (? & ? & ? & ? & _ & _ & _ & _ & _ & ->). by left.
      * exact (tally_row_value _ _ _ _ _ _ _ _ _ Hrow' Hrow).
    + assert (Hin : r ∈ filter (fun r => r.2 <> m) (results_from (votes p) 0 (options p)))
        by (apply list_elem_of_filter; done).
      destruct (Forall2_elem_of_l _ _ _ _ Hos Hin) as (g & Hg & Hrow').
      exists g. split; [apply elem_of_app; by right|]. split.
      * destruct Hrow' as (? & ? & ? & ? & _ & _ & _ & _ & _ & ->). by right.
      * exact (tally_row_value _ _ _ _ _ _ _ _ _ Hrow' Hrow).
  - intros Htot. rewrite (Hzero Htot). exists (empty_row r).
    split; [rewrite list_lookup_fmap, Hr; reflexivity|].
    split; [reflexivity|]. split; [reflexivity|].
    destruct Hrow as (s & pct & x & k' & Hs & Hp & Hx & Hk & _ & ->).
    assert (Hlen : len s = 0).
    { pose proof (len_le_sum_votes _ _ _ Hs). lia. }
    rewrite Hlen, Htot in Hp. vm_compute in Hp. injection Hp as <-.
    vm_compute in Hx. injection Hx as <-. vm_compute in Hk. injection Hk as <-.
    rewrite Hlen. reflexivity.
Qed.

Lemma results_agree_with_tally_witness :
  exists e r,
    create_poll_embed split_poll noon = Ok e /\ results_embed split_poll = Ok r /\
    exists g, g ∈ embed_fields r /\
              value g = concat (replicate 7 [8218; 241; 224]%N) ++
                        concat (replicate 3 [8218; 241; 235]%N) ++
                        str " 3 votes (75.0%)".
Proof.
  destruct (results_agree_with_tally split_poll noon) as (e & r & He & Hr & Hrows).
  { split; vm_compute; reflexivity. }
  { vm_compute. reflexivity. }
  exists e, r. split; [exact He|]. split; [exact Hr|].
  assert (Hf : exists f, embed_fields e !! 0%nat = Some f /\
                         value f = concat (replicate 7 [8218; 241; 224]%N) ++
                                   concat (replicate 3 [8218; 241; 235]%N) ++
                                   str " 3 votes (75.0%)").
  { vm_compute in He. injection He as <-. eexists. split; reflexivity. }
  destruct Hf as (f & Hf & Hv).
  destruct (Hrows 0%nat (str "Pizza") f eq_refl Hf) as (Hpos & _).
  destruct Hpos as (g & Hg & _ & Hgv); [vm_compute; reflexivity|].
  exists g. split; [exact Hg|]. rewrite Hgv. exact Hv.
Defined.

(** X17. A duration which puts the end time outside the range of dates
    makes [create_poll] raise OverflowError when the end time is computed:
    nothing is sent, no poll is registered and no timer is scheduled. *)
Theorem create_poll_overflow platform ix ttl opts duration mult now now' b :
  (2 <= length (str_split comma opts) <= 10)%nat ->
  datetime_ok (now + duration * us_per_minute) = false ->
  create_poll platform ix ttl opts duration mult now now' b = (Raise OverflowError, b).
Proof.
  intros Hn Hbad. unfold create_poll. rewrite length_fmap.
  replace (length (str_split comma opts) <? 2)%nat with false
    by (symmetry; apply Nat.ltb_ge; lia).
  replace (10 <? length (str_split comma opts))%nat with false
    by (symmetry; apply Nat.ltb_ge; lia).
  unfold bind, lift, timedelta_minutes.
  destruct (_ && _); [|reflexivity].
  cbn [result_bind]. unfold datetime_add. rewrite Hbad. reflexivity.
Qed.

Lemma create_poll_overflow_witness :
  create_poll always (lunch 7) (str "Lunch?") (str "Pizza, Salad") 10000000000 false
    noon noon lunch_bot = (Raise OverflowError, lunch_bot).
Proof.
  apply (create_poll_overflow always (lunch 7) (str "Lunch?") (str "Pizza, Salad")
           10000000000 false noon noon lunch_bot).
  - vm_compute. lia.
  - vm_compute. reflexivity.
Defined.
